(** * Stock news scripts: the date-range resolver, the news query and the
      sentiment label

    The repository holds four variants of one script ([share.py],
    [hello.py], [sshare.py], [shharee.py]).  Each variant is embedded in a
    module of its own, so that every definition can be read next to the
    function it comes from.  The parts of Python's [datetime] module that
    the scripts call ([datetime - timedelta], [strftime]) are embedded in
    the module [Datetime], following the algorithms of CPython's
    implementation ([Lib/_pydatetime.py]), with the message of the
    exception and the text of [%Y] as CPython gives them on the C library
    (a year below 1000 is written without padding). *)

From Stdlib Require Import ZArith List String Ascii Bool Lia Floats DecimalString.
Import ListNotations.

Set Warnings "-inexact-float".

Local Open Scope string_scope.
Local Open Scope Z_scope.

(** ** Results of fallible calls *)

Inductive exn : Type :=
| OverflowError (msg : string).

Inductive result (A : Type) : Type :=
| Ok (a : A)
| Raise (e : exn).
Arguments Ok {A} a.
Arguments Raise {A} e.

Definition bind {A B : Type} (r : result A) (k : A -> result B) : result B :=
  match r with
  | Ok a => k a
  | Raise e => Raise e
  end.

Notation "x <- c ;; k" := (bind c (fun x => k))
  (at level 61, c at next level, right associativity).

(** ** The calendar of Python's [datetime] *)

Module Datetime.

Definition MINYEAR : Z := 1.
Definition MAXYEAR : Z := 9999.
Definition _MAXORDINAL : Z := 3652059.

Record datetime : Type := mkdatetime {
  year : Z; month : Z; day : Z;
  hour : Z; minute : Z; second : Z; microsecond : Z
}.

Record timedelta_t : Type := mktimedelta {
  td_days : Z; td_seconds : Z; td_microseconds : Z
}.

(** [timedelta(days=..., weeks=...)]: a week is seven days. *)
Definition timedelta (days weeks : Z) : timedelta_t :=
  mktimedelta (days + 7 * weeks) 0 0.

Definition _is_leap (y : Z) : bool :=
  (y mod 4 =? 0) && (negb (y mod 100 =? 0) || (y mod 400 =? 0)).

Definition _days_before_year (y0 : Z) : Z :=
  let y := y0 - 1 in
  y * 365 + y / 4 - y / 100 + y / 400.

(** [_DAYS_IN_MONTH = [-1, 31, 28, 31, 30, 31, 30, 31, 31, 30, 31, 30, 31]] *)
Definition _DAYS_IN_MONTH (m : Z) : Z :=
  match m with
  | 1 => 31 | 2 => 28 | 3 => 31 | 4 => 30 | 5 => 31 | 6 => 30
  | 7 => 31 | 8 => 31 | 9 => 30 | 10 => 31 | 11 => 30 | 12 => 31
  | _ => -1
  end.

(** [_DAYS_BEFORE_MONTH]: the running sum of [_DAYS_IN_MONTH]. *)
Definition _DAYS_BEFORE_MONTH (m : Z) : Z :=
  match m with
  | 1 => 0 | 2 => 31 | 3 => 59 | 4 => 90 | 5 => 120 | 6 => 151
  | 7 => 181 | 8 => 212 | 9 => 243 | 10 => 273 | 11 => 304 | 12 => 334
  | _ => -1
  end.

Definition _days_in_month (y m : Z) : Z :=
  if (m =? 2) && _is_leap y then 29 else _DAYS_IN_MONTH m.

Definition _days_before_month (y m : Z) : Z :=
  _DAYS_BEFORE_MONTH m + (if (2 <? m) && _is_leap y then 1 else 0).

Definition _ymd2ord (y m d : Z) : Z :=
  _days_before_year y + _days_before_month y m + d.

Definition _DI400Y : Z := 146097.
Definition _DI100Y : Z := 36524.
Definition _DI4Y : Z := 1461.

Definition _ord2ymd (n0 : Z) : Z * Z * Z :=
  let n := n0 - 1 in
  let n400 := n / _DI400Y in
  let n := n mod _DI400Y in
  let year := n400 * 400 + 1 in
  let n100 := n / _DI100Y in
  let n := n mod _DI100Y in
  let n4 := n / _DI4Y in
  let n := n mod _DI4Y in
  let n1 := n / 365 in
  let n := n mod 365 in
  let year := year + n100 * 100 + n4 * 4 + n1 in
  if (n1 =? 4) || (n100 =? 4) then (year - 1, 12, 31)
  else
    let leapyear := (n1 =? 3) && (negb (n4 =? 24) || (n100 =? 3)) in
    let month := Z.shiftr (n + 50) 5 in
    let preceding :=
      _DAYS_BEFORE_MONTH month + (if (2 <? month) && leapyear then 1 else 0) in
    if n <? preceding then
      let month := month - 1 in
      let preceding :=
        preceding
        - (_DAYS_IN_MONTH month + (if (month =? 2) && leapyear then 1 else 0)) in
      (year, month, n - preceding + 1)
    else (year, month, n - preceding + 1).

Definition toordinal (dt : datetime) : Z :=
  _ymd2ord (year dt) (month dt) (day dt).

(** [datetime.__sub__] with a [timedelta] on the right: the sum of the
    datetime, seen as a duration since day 0, and the negated delta;
    the result must fall on an ordinal in [1 .. _MAXORDINAL]. *)
Definition sub (dt : datetime) (other : timedelta_t) : result datetime :=
  let us := microsecond dt - td_microseconds other in
  let secs :=
    hour dt * 3600 + minute dt * 60 + second dt - td_seconds other
    + us / 1000000 in
  let delta_us := us mod 1000000 in
  let delta_days := toordinal dt - td_days other + secs / 86400 in
  let delta_seconds := secs mod 86400 in
  let hour' := delta_seconds / 3600 in
  let rem := delta_seconds mod 3600 in
  let minute' := rem / 60 in
  let second' := rem mod 60 in
  if (0 <? delta_days) && (delta_days <=? _MAXORDINAL) then
    let '(y, m, d) := _ord2ymd delta_days in
    Ok (mkdatetime y m d hour' minute' second' delta_us)
  else Raise (OverflowError "date value out of range").

(** *** [strftime] *)

Definition digit (k : Z) : ascii := ascii_of_N (48 + Z.to_N k).

(** [n] written with exactly [w] decimal digits, zero-padded on the left;
    the fields of a datetime never need more than their width. *)
Fixpoint zpad (w : nat) (n : Z) : string :=
  match w with
  | O => ""
  | S w' => zpad w' (n / 10) ++ String (digit (n mod 10)) ""
  end.

(** [%Y] writes the year in decimal without padding: 1, 999, 2024. *)
Definition year_digits (y : Z) : nat :=
  if y <? 10 then 1 else if y <? 100 then 2 else if y <? 1000 then 3 else 4.

Definition directive (c : ascii) (dt : datetime) : string :=
  if Ascii.eqb c "Y" then zpad (year_digits (year dt)) (year dt)
  else if Ascii.eqb c "m" then zpad 2 (month dt)
  else if Ascii.eqb c "d" then zpad 2 (day dt)
  else if Ascii.eqb c "H" then zpad 2 (hour dt)
  else if Ascii.eqb c "M" then zpad 2 (minute dt)
  else if Ascii.eqb c "S" then zpad 2 (second dt)
  else if Ascii.eqb c "%" then "%"
  else String "%" (String c "").

(** A [%] starts a conversion; every other character is copied. *)
Fixpoint strftime_from (pct : bool) (fmt : string) (dt : datetime) : string :=
  match fmt with
  | EmptyString => if pct then "%" else ""
  | String c rest =>
      if pct then directive c dt ++ strftime_from false rest dt
      else if Ascii.eqb c "%" then strftime_from true rest dt
      else String c (strftime_from false rest dt)
  end.

Definition strftime (dt : datetime) (fmt : string) : string :=
  strftime_from false fmt dt.

(** *** Well-formed values *)

Definition valid_date (y m d : Z) : Prop :=
  MINYEAR <= y <= MAXYEAR /\ 1 <= m <= 12 /\ 1 <= d <= _days_in_month y m.

Definition valid_time (dt : datetime) : Prop :=
  0 <= hour dt < 24 /\ 0 <= minute dt < 60 /\ 0 <= second dt < 60
  /\ 0 <= microsecond dt < 1000000.

Definition valid (dt : datetime) : Prop :=
  valid_date (year dt) (month dt) (day dt) /\ valid_time dt.

(** Python compares dates as the tuples [(year, month, day)]. *)
Definition date_le (a b : Z * Z * Z) : Prop :=
  let '(y1, m1, d1) := a in
  let '(y2, m2, d2) := b in
  y1 < y2 \/ (y1 = y2 /\ (m1 < m2 \/ (m1 = m2 /\ d1 <= d2))).

Definition date_of (dt : datetime) : Z * Z * Z := (year dt, month dt, day dt).

End Datetime.

Import Datetime.

(** ** The collaborators of the news fetch

    The search service and the screen are outside the scripts.  A run of
    [fetch_news_for_stocks] is its list of events, in order: the messages
    it shows and the calls of [newsapi.get_everything] it makes. *)

Record article : Type := mkarticle {
  title : string; source_name : string; publishedAt : string;
  description : string; url : string; urlToImage : string
}.

Record response : Type := mkresponse {
  totalResults : Z; articles : list article
}.

Record search_request : Type := mkrequest {
  req_api_key : string;
  q : string; from_param : string; to : string;
  language : string; sort_by : string; page_size : Z
}.

(** The client either answers or raises an exception, kept as its text. *)
Inductive api_answer : Type :=
| Answer (r : response)
| Failed (e : string).

Definition news_api : Type := search_request -> api_answer.

Inductive event : Type :=
| Show (channel : string) (msg : string)
| Search (r : search_request).

Infix "+++" := (@app event) (at level 60, right associativity).

(** The requests of the search calls of a run, in order. *)
Fixpoint searches (tr : list event) : list search_request :=
  match tr with
  | [] => []
  | Search r :: tr' => r :: searches tr'
  | Show _ _ :: tr' => searches tr'
  end.

(** [str(n)] for an integer. *)
Definition str_int (n : Z) : string := NilZero.string_of_int (Z.to_int n).

(** [needle in s] *)
Definition contains (needle s : string) : bool :=
  match index 0 needle s with
  | Some _ => true
  | None => false
  end.

(** The keyword group that closes every query. *)
Definition KEYWORDS : string := "(stock OR market OR NSE OR BSE)".

(** ** The resolver of [share.py] *)

Module Share.

(** [get_date_range], lines 99-121; [today] is the value of
    [datetime.now()]. *)
Definition get_date_range (period_name : string) (today : datetime)
  : result (string * string) :=
  from_date <-
    (if (period_name =? "last_week")%string then sub today (timedelta 7 0)
     else if (period_name =? "last_4_weeks")%string then sub today (timedelta 0 4)
     else if (period_name =? "last_3_months")%string then sub today (timedelta 90 0)
     else if (period_name =? "last_6_months")%string then sub today (timedelta 180 0)
     else sub today (timedelta 7 0)) ;;
  Ok (strftime from_date "%Y-%m-%d", strftime today "%Y-%m-%d").

(** Line 21: the key is a module-level variable that the user edits. *)
Definition NEWS_API_KEY : string := "YOUR_API_KEY_HERE".

(** The loop of lines 176-180 over [enumerate(articles[:5])]. *)
Fixpoint print_articles (i : Z) (l : list article) : list event :=
  match l with
  | [] => []
  | a :: l' =>
      [ Show "print" (String "010" (str_int (i + 1) ++ ". " ++ title a));
        Show "print" ("   Source: " ++ source_name a);
        Show "print" ("   Date: " ++ publishedAt a);
        Show "print" ("   URL: " ++ url a) ]
      +++ print_articles (i + 1) l'
  end.

(** [fetch_news_for_stocks], lines 125-187, reading the module variable
    [key]; the function returns [None] on every path. *)
Definition fetch_news_for_stocks_with (key : string) (get_everything : news_api)
    (stock_list : list string) (from_date to_date : string)
  : list event * unit :=
  if (key =? "YOUR_API_KEY_HERE")%string then
    ([ Show "print" "==================================================";
       Show "print" "ERROR: Please update the 'NEWS_API_KEY' variable";
       Show "print" "in the CONFIG section (line 21) with your key from newsapi.org.";
       Show "print" "==================================================" ], tt)
  else
    match stock_list with
    | [] => ([ Show "print" "No stock list provided. Skipping news fetch." ], tt)
    | _ :: _ =>
        let stocks_for_query := firstn 15 stock_list in
        let query :=
          "(" ++ String.concat " OR " stocks_for_query ++ ") AND " ++ KEYWORDS in
        let request :=
          mkrequest key query from_date to_date "en" "publishedAt" 20 in
        let pre :=
          [ Show "print" (String "010" "--- Fetching News ---");
            Show "print" ("Query: " ++ query);
            Show "print" ("From: " ++ from_date ++ " To: " ++ to_date);
            Search request ] in
        match get_everything request with
        | Answer all_articles =>
            let found :=
              Show "print" (String "010" ("Found "
                ++ str_int (totalResults all_articles) ++ " total articles.")) in
            if totalResults all_articles =? 0 then
              (pre +++ [ found;
                        Show "print" "No news found for this query and date range." ],
               tt)
            else
              (pre +++ [ found; Show "print" (String "010" "--- Top 5 Articles ---") ]
                   +++ print_articles 0 (firstn 5 (articles all_articles)), tt)
        | Failed e =>
            (pre +++ [ Show "print" ("Error fetching news from NewsAPI: " ++ e) ]
                 +++ (if contains "apiKeyInvalid" e then
                       [ Show "print" ">>> Your API key is invalid. Please check it." ]
                     else if contains "rateLimited" e then
                       [ Show "print" ">>> You are being rate-limited. Try again later." ]
                     else []), tt)
        end
    end.

Definition fetch_news_for_stocks : news_api -> list string -> string -> string
                                   -> list event * unit :=
  fetch_news_for_stocks_with NEWS_API_KEY.

End Share.

(** ** The resolver of [hello.py] *)

Module Hello.

(** [get_date_range], lines 93-111. *)
Definition get_date_range (period_name : string) (today : datetime)
  : result (string * string) :=
  from_date <-
    (if (period_name =? "last_week")%string then sub today (timedelta 7 0)
     else if (period_name =? "last_4_weeks")%string then sub today (timedelta 0 4)
     else if (period_name =? "last_3_months")%string then sub today (timedelta 90 0)
     else if (period_name =? "last_6_months")%string then sub today (timedelta 180 0)
     else sub today (timedelta 7 0)) ;;
  Ok (strftime from_date "%Y-%m-%d", strftime today "%Y-%m-%d").

(** [not api_key]: the key is missing when it is [None] or empty. *)
Definition key_given (api_key : option string) : option string :=
  match api_key with
  | Some k => if (k =? "")%string then None else Some k
  | None => None
  end.

(** [fetch_news_for_stocks], lines 115-157. *)
Definition fetch_news_for_stocks (get_everything : news_api)
    (api_key : option string) (stock_list : list string)
    (from_date to_date : string)
  : list event * list article :=
  match key_given api_key with
  | None =>
      ([ Show "st.sidebar.error" "API key is missing. Please enter it above." ], [])
  | Some key =>
      match stock_list with
      | [] => ([ Show "st.warning" "No stock list provided. Skipping news fetch." ], [])
      | _ :: _ =>
          let stocks_for_query := firstn 15 stock_list in
          let query :=
            "(" ++ String.concat " OR " stocks_for_query ++ ") AND " ++ KEYWORDS in
          let pre :=
            [ Show "st.write"
                ("Fetching news with query: " ++ substring 0 100 query ++ "...");
              Show "st.write" ("Date Range: " ++ from_date ++ " to " ++ to_date) ] in
          match stocks_for_query with
          | [] =>
              (pre +++ [ Show "st.error"
                          "Error fetching news from NewsAPI: list index out of range" ],
               [])
          | first :: _ =>
              let request :=
                mkrequest key query from_date to_date "en" "publishedAt" 50 in
              let call :=
                [ Show "st.spinner" ("Searching for news about " ++ first ++ "...");
                  Search request ] in
              match get_everything request with
              | Answer all_articles =>
                  let found :=
                    Show "st.success" ("Found "
                      ++ str_int (totalResults all_articles) ++ " total articles.") in
                  if totalResults all_articles =? 0 then
                    (pre +++ call +++ [ found;
                       Show "st.info" "No news found for this query and date range." ],
                     [])
                  else (pre +++ call +++ [ found ], articles all_articles)
              | Failed e =>
                  (pre +++ call
                       +++ [ Show "st.error" ("Error fetching news from NewsAPI: " ++ e) ],
                   [])
              end
          end
      end
  end.

Section Sentiment.

(** [analyzer.polarity_scores(text)['compound']], the score of the
    external sentiment library. *)
Variable compound_of : string -> float.

(** [get_sentiment], lines 161-177. *)
Definition get_sentiment (text : string) : string * string :=
  let compound := compound_of text in
  if (0.05 <=? compound)%float then ("Positive", "🟢")
  else if (compound <=? -0.05)%float then ("Negative", "🔴")
  else ("Neutral", "⚪").

End Sentiment.

End Hello.

(** ** The resolver of [sshare.py] *)

Module Sshare.

(** [get_date_range], lines 94-110. *)
Definition get_date_range (period_name : string) (today : datetime)
  : result (string * string) :=
  from_date <-
    (if (period_name =? "last_week")%string then sub today (timedelta 7 0)
     else if (period_name =? "one_month")%string then sub today (timedelta 30 0)
     else if (period_name =? "three_months")%string then sub today (timedelta 90 0)
     else sub today (timedelta 7 0)) ;;
  Ok (strftime from_date "%Y-%m-%d", strftime today "%Y-%m-%d").

Definition key_given (api_key : option string) : option string :=
  match api_key with
  | Some k => if (k =? "")%string then None else Some k
  | None => None
  end.

(** [fetch_news_for_stocks], lines 114-164. *)
Definition fetch_news_for_stocks (get_everything : news_api)
    (api_key : option string) (stock_list : list string)
    (from_date to_date : string)
  : list event * list article :=
  match key_given api_key with
  | None =>
      ([ Show "st.sidebar.error" "API key is missing. Please enter it above." ], [])
  | Some key =>
      match stock_list with
      | [] => ([ Show "st.warning" "No stock list provided. Skipping news fetch." ], [])
      | _ :: _ =>
          let stocks_for_query := firstn 15 stock_list in
          let query :=
            "(" ++ String.concat " OR " stocks_for_query ++ ") AND " ++ KEYWORDS in
          let request :=
            mkrequest key query from_date to_date "en" "publishedAt" 50 in
          let pre :=
            [ Show "st.write"
                ("Fetching news with query: " ++ substring 0 100 query ++ "...");
              Show "st.write" ("Date Range: " ++ from_date ++ " to " ++ to_date);
              Show "st.spinner" "Searching for news...";
              Search request ] in
          match get_everything request with
          | Answer all_articles =>
              let found :=
                Show "st.success" ("Found "
                  ++ str_int (totalResults all_articles) ++ " total articles.") in
              if totalResults all_articles =? 0 then
                (pre +++ [ found;
                   Show "st.info" "No news found for this query and date range." ],
                 [])
              else (pre +++ [ found ], articles all_articles)
          | Failed e =>
              (pre +++ [ Show "st.error" ("Error fetching news from NewsAPI: " ++ e) ]
                   +++ (if contains "apiKeyInvalid" e then
                         [ Show "st.error" "Your API key is invalid. Please check it." ]
                       else if contains "rateLimited" e then
                         [ Show "st.error" "You are being rate-limited. Try again later." ]
                       else []),
               [])
          end
      end
  end.

End Sshare.

(** ** The resolver of [shharee.py] *)

Module Shharee.

(** [get_date_range], lines 21-39; the format of the second component is
    the one written on line 39. *)
Definition get_date_range (period_name : string) (today : datetime)
  : result (string * string) :=
  from_date <-
    (if (period_name =? "last_week")%string then sub today (timedelta 7 0)
     else if (period_name =? "last_4_weeks")%string then sub today (timedelta 0 4)
     else if (period_name =? "last_3_months")%string then sub today (timedelta 90 0)
     else if (period_name =? "last_6_months")%string then sub today (timedelta 180 0)
     else sub today (timedelta 7 0)) ;;
  Ok (strftime from_date "%Y-%m-%d", strftime today "%Y-m-%d").

End Shharee.


(** ** Notions used to state the properties *)

(** The last step of [_ord2ymd]: from the day of the year [n] (counted
    from 0) to the month and the day. *)
Definition month_day (leapyear : bool) (n : Z) : Z * Z :=
  let month := Z.shiftr (n + 50) 5 in
  let preceding :=
    _DAYS_BEFORE_MONTH month + (if (2 <? month) && leapyear then 1 else 0) in
  if n <? preceding then
    let month := month - 1 in
    let preceding :=
      preceding
      - (_DAYS_IN_MONTH month + (if (month =? 2) && leapyear then 1 else 0)) in
    (month, n - preceding + 1)
  else (month, n - preceding + 1).

Definition month_day_ok (leapyear : bool) (n : Z) : bool :=
  let '(m, d) := month_day leapyear n in
  (1 <=? m) && (m <=? 12) && (1 <=? d)
  && (d <=? (if (m =? 2) && leapyear then 29 else _DAYS_IN_MONTH m))
  && (_DAYS_BEFORE_MONTH m + (if (2 <? m) && leapyear then 1 else 0) + d =? n + 1).

(** The value of a decimal digit. *)
Definition digit_val (c : ascii) : option Z :=
  let n := Z.of_N (N_of_ascii c) in
  if (48 <=? n) && (n <=? 57) then Some (n - 48) else None.

(** Reading a string of the exact shape [YYYY-MM-DD]: ten characters,
    digits around two hyphens, and nothing after the day. *)
Definition parse_iso_date (s : string) : option (Z * Z * Z) :=
  match s with
  | String y3 (String y2 (String y1 (String y0 (String h1
      (String m1 (String m0 (String h2 (String d1 (String d0 EmptyString))))))))) =>
      if Ascii.eqb h1 "-" && Ascii.eqb h2 "-" then
        match digit_val y3, digit_val y2, digit_val y1, digit_val y0,
              digit_val m1, digit_val m0, digit_val d1, digit_val d0 with
        | Some a3, Some a2, Some a1, Some a0, Some b1, Some b0, Some c1, Some c0 =>
            Some (1000 * a3 + 100 * a2 + 10 * a1 + a0, 10 * b1 + b0, 10 * c1 + c0)
        | _, _, _, _, _, _, _, _ => None
        end
      else None
  | _ => None
  end.

(** The year of the date [off] days before the date of [now]. *)
Definition start_year (now : datetime) (off : Z) : Z :=
  fst (fst (_ord2ymd (toordinal now - off))).

(** [range_of_offset now off r]: the call returned the pair of ISO dates
    whose second date is the date of [now] and whose first date is the
    calendar date [off] days before it. *)
Definition range_of_offset (now : datetime) (off : Z)
    (r : result (string * string)) : Prop :=
  exists (s e : string) (y m d : Z),
    r = Ok (s, e)
    /\ parse_iso_date s = Some (y, m, d)
    /\ parse_iso_date e = Some (date_of now)
    /\ valid_date y m d
    /\ _ymd2ord y m d = toordinal now - off.

(** The query for a list of symbols: the symbols joined by OR, in a
    group, AND the keyword group. *)
Definition or_query (symbols : list string) : string :=
  "(" ++ String.concat " OR " symbols ++ ") AND (stock OR market OR NSE OR BSE)".

Definition sixteen : list string :=
  [ "S01"; "S02"; "S03"; "S04"; "S05"; "S06"; "S07"; "S08";
    "S09"; "S10"; "S11"; "S12"; "S13"; "S14"; "S15"; "S16" ].

Definition no_articles : news_api := fun _ => Answer (mkresponse 0 []).

(** [ordered_range now off r]: the call returned two ISO dates, the second
    the date of [now], the first not after it and [off] days before it. *)
Definition ordered_range (now : datetime) (off : Z)
    (r : result (string * string)) : Prop :=
  exists (s e : string) (start_date end_date : Z * Z * Z),
    r = Ok (s, e)
    /\ parse_iso_date s = Some start_date
    /\ parse_iso_date e = Some end_date
    /\ end_date = date_of now
    /\ date_le start_date end_date
    /\ (let '(y, m, d) := start_date in _ymd2ord y m d) = toordinal now - off.

(** The four resolvers are one subtraction followed by two formats. *)
Definition resolve_with (fmt_to : string) (off : Z) (now : datetime)
  : result (string * string) :=
  from_date <- sub now (mktimedelta off 0 0) ;;
  Ok (strftime from_date "%Y-%m-%d", strftime now fmt_to).

(** The offset, in days, that each variant gives to a period tag. *)
Definition offset_4 (p : string) : Z :=
  if (p =? "last_4_weeks")%string then 28
  else if (p =? "last_3_months")%string then 90
  else if (p =? "last_6_months")%string then 180
  else 7.

Definition offset_3 (p : string) : Z :=
  if (p =? "one_month")%string then 30
  else if (p =? "three_months")%string then 90
  else 7.

(** The period tags and offsets, in days, of the four-period variants
    and of the three-period variant. *)
Definition offsets_4 : list (string * Z) :=
  [ ("last_week", 7); ("last_4_weeks", 28); ("last_3_months", 90);
    ("last_6_months", 180) ].

Definition offsets_3 : list (string * Z) :=
  [ ("last_week", 7); ("one_month", 30); ("three_months", 90) ].

Definition d20240315 : datetime := mkdatetime 2024 3 15 10 30 0 0.
Definition d20240229 : datetime := mkdatetime 2024 2 29 23 59 59 999999.


(** ** The stock lists and the callers

    What follows embeds the rest of the scripts: the stock-list
    functions and the programs that call the resolver and the fetch. *)

(** A call of an outside library either returns or raises an exception,
    kept as its text. *)
Inductive attempt (A : Type) : Type :=
| Done (a : A)
| Thrown (e : string).
Arguments Done {A} a.
Arguments Thrown {A} e.

(** The [try] block of [get_fno_stocks] up to [tolist()]: the download of
    the CSV file and the stripped, uppercased cells of its second column,
    or the exception raised on the way. *)
Definition fno_source : Type := attempt (list string).

(** The client [Nse()] of the index-membership library. *)
Record nse_client : Type := mknse {
  is_valid_index : string -> attempt bool;
  get_index_list : attempt (list string);
  get_stocks_in_index : string -> attempt (list string)
}.

(** [Nse()] itself may raise. *)
Definition nse_source : Type := attempt nse_client.

(** [len(l)] *)
Definition len {A : Type} (l : list A) : Z := Z.of_nat (List.length l).

(** How a program run ends: it returns, it is halted by [st.stop()], or
    an exception that nothing catches ends it. *)
Inductive uncaught : Type :=
| EOFError
| Overflow (e : exn)
| Other (e : string).

Inductive outcome : Type :=
| Returned
| Stopped
| Crashed (c : uncaught).

(** ASCII case conversion, the action of [str.upper] and [str.lower] on
    ticker symbols and menu letters. *)
Definition ascii_upper_char (c : ascii) : ascii :=
  let n := N_of_ascii c in
  if ((97 <=? n) && (n <=? 122))%N then ascii_of_N (n - 32) else c.

Definition ascii_lower_char (c : ascii) : ascii :=
  let n := N_of_ascii c in
  if ((65 <=? n) && (n <=? 90))%N then ascii_of_N (n + 32) else c.

Fixpoint map_string (f : ascii -> ascii) (s : string) : string :=
  match s with
  | EmptyString => EmptyString
  | String c s' => String (f c) (map_string f s')
  end.

Definition ascii_upper : string -> string := map_string ascii_upper_char.
Definition ascii_lower : string -> string := map_string ascii_lower_char.

(** ** The rest of [share.py] *)

Module ShareApp.

(** [get_fno_stocks], lines 26-52. *)
Definition get_fno_stocks (csv : fno_source) : list event * list string :=
  match csv with
  | Done stock_list =>
      ([ Show "print" "Fetching F&O stock list...";
         Show "print" ("Found " ++ str_int (len stock_list) ++ " F&O stocks.") ],
       stock_list)
  | Thrown e =>
      ([ Show "print" "Fetching F&O stock list...";
         Show "print" ("Error fetching F&O stocks: " ++ e);
         Show "print" "Please check your internet connection or the NSE URL." ],
       [])
  end.

Section Upper.

(** [str.upper] *)
Variable upper : string -> string.

(** [get_index_stocks], lines 54-81. *)
Definition get_index_stocks (service : nse_source) (index_name : string)
  : list event * list string :=
  let start :=
    [ Show "print" ("Fetching stock list for " ++ index_name ++ "...") ] in
  let failed (e : string) : list event * list string :=
    (start +++ [ Show "print" ("Error fetching index stocks: " ++ e) ], []) in
  match service with
  | Thrown e => failed e
  | Done nse =>
      match is_valid_index nse index_name with
      | Thrown e => failed e
      | Done false =>
          let invalid :=
            Show "print" ("Error: Invalid index name '" ++ index_name ++ "'.") in
          match get_index_list nse with
          | Thrown e =>
              (start +++ [ invalid;
                           Show "print" ("Error fetching index stocks: " ++ e) ], [])
          | Done indices =>
              (start +++ [ invalid;
                           Show "print" ("Valid indices include: "
                                         ++ String.concat ", " indices) ], [])
          end
      | Done true =>
          match get_stocks_in_index nse index_name with
          | Thrown e => failed e
          | Done [] =>
              (start +++ [ Show "print" ("No stocks returned for " ++ index_name
                  ++ ". The library may need an update or the index name is wrong.") ],
               [])
          | Done stock_list =>
              (start +++ [ Show "print" ("Found " ++ str_int (len stock_list)
                                         ++ " stocks in " ++ index_name ++ ".") ],
               map upper stock_list)
          end
      end
  end.

Definition get_largecap_stocks (service : nse_source) : list event * list string :=
  get_index_stocks service "NIFTY 100".

Definition get_midcap_stocks (service : nse_source) : list event * list string :=
  get_index_stocks service "NIFTY MIDCAP 150".

Definition get_smallcap_stocks (service : nse_source) : list event * list string :=
  get_index_stocks service "NIFTY SMALLCAP 250".

(** What the outside answers during the [i]-th turn of the menu loop:
    the download, the index service, the clock and the search service. *)
Record world : Type := mkworld {
  fno : nat -> fno_source;
  nse : nat -> nse_source;
  clock : nat -> datetime;
  newsapi : nat -> news_api
}.

(** [str.lower] *)
Variable lower : string -> string.

Definition main_menu : list event :=
  [ Show "print" (String "010" "--- Main Menu ---");
    Show "print" "Stock Lists:";
    Show "print" "  1. F&O Stocks";
    Show "print" "  2. Large-Cap Stocks (NIFTY 100)";
    Show "print" "  3. Mid-Cap Stocks (NIFTY MIDCAP 150)";
    Show "print" "  4. Small-Cap Stocks (NIFTY SMALLCAP 250)";
    Show "print" (String "010" "  0. Exit");
    Show "input" "Select a stock list to get news for: " ].

Definition period_menu : list event :=
  [ Show "print" (String "010" "Select a time period for news:");
    Show "print" "  a. Last Week (7 days)";
    Show "print" "  b. Last 4 Weeks";
    Show "print" "  c. Last 3 Months";
    Show "print" "  d. Last 6 Months";
    Show "input" "Select a time period: " ].

(** Lines 238-250: the letter typed at the period menu, lowercased, and
    the tag it selects, with the message of the fallback. *)
Definition period_of_choice (typed : string) : list event * string :=
  let period_choice := lower typed in
  if (period_choice =? "a")%string then ([], "last_week")
  else if (period_choice =? "b")%string then ([], "last_4_weeks")
  else if (period_choice =? "c")%string then ([], "last_3_months")
  else if (period_choice =? "d")%string then ([], "last_6_months")
  else ([ Show "print" "Invalid period. Defaulting to 'Last Week'." ], "last_week").

(** Lines 211-225: the stock list chosen at the main menu; [None] when the
    choice is not one of the lists. *)
Definition list_of_choice (w : world) (i : nat) (choice : string)
  : option (list event * list string) :=
  if (choice =? "1")%string then Some (get_fno_stocks (fno w i))
  else if (choice =? "2")%string then Some (get_largecap_stocks (nse w i))
  else if (choice =? "3")%string then Some (get_midcap_stocks (nse w i))
  else if (choice =? "4")%string then Some (get_smallcap_stocks (nse w i))
  else None.

(** The [while True] loop of [main], lines 200-258, on the lines typed by
    the user; [input()] raises [EOFError] when they run out.  [key] is the
    module variable read by [fetch_news_for_stocks]. *)
Fixpoint main_loop (key : string) (w : world) (i : nat) (inputs : list string)
  {struct inputs} : list event * outcome :=
  match inputs with
  | [] => (main_menu, Crashed EOFError)
  | choice :: rest =>
      match list_of_choice w i choice with
      | None =>
          if (choice =? "0")%string then
            (main_menu +++ [ Show "print" "Goodbye!" ], Returned)
          else
            let '(tr, o) := main_loop key w (S i) rest in
            (main_menu +++ [ Show "print" "Invalid choice. Please try again." ]
                       +++ tr, o)
      | Some (fetching, []) =>
          let '(tr, o) := main_loop key w (S i) rest in
          (main_menu +++ fetching
             +++ [ Show "print" "Could not retrieve stock list. Please try again." ]
             +++ tr, o)
      | Some (fetching, (_ :: _) as stock_list) =>
          match rest with
          | [] => (main_menu +++ fetching +++ period_menu, Crashed EOFError)
          | typed :: rest' =>
              let '(fallback, period) := period_of_choice typed in
              let before := main_menu +++ fetching +++ period_menu +++ fallback in
              match Share.get_date_range period (clock w i) with
              | Raise e => (before, Crashed (Overflow e))
              | Ok (from_date, to_date) =>
                  let '(news, _) :=
                    Share.fetch_news_for_stocks_with key (newsapi w i) stock_list
                      from_date to_date in
                  let pause :=
                    [ Show "input"
                        (String "010" "Press Enter to return to the main menu...") ] in
                  match rest' with
                  | [] => (before +++ news +++ pause, Crashed EOFError)
                  | _ :: rest'' =>
                      let '(tr, o) := main_loop key w (S i) rest'' in
                      (before +++ news +++ pause +++ tr, o)
                  end
              end
          end
      end
  end.

Definition banner : list event :=
  [ Show "print" "==============================";
    Show "print" "  Stock News Fetcher";
    Show "print" "==============================" ].

(** [main], lines 192-258, with the module variable [key]. *)
Definition main_with (key : string) (w : world) (inputs : list string)
  : list event * outcome :=
  let '(tr, o) := main_loop key w 0 inputs in (banner +++ tr, o).

(** [main] of the script as it is, with the key of line 21. *)
Definition main : world -> list string -> list event * outcome :=
  main_with Share.NEWS_API_KEY.

End Upper.

End ShareApp.

(** ** The rest of [hello.py]

    The functions under [@st.cache_data] are embedded by their bodies: a
    call answered from the cache returns what the body returned on the run
    that filled it, with the answers of the outside of that run. *)

Module HelloApp.

(** [get_fno_stocks], lines 37-53. *)
Definition get_fno_stocks (csv : fno_source) : list event * list string :=
  match csv with
  | Done stock_list =>
      ([ Show "st.write" "Cache miss: Fetching F&O stock list...";
         Show "st.write" ("Found " ++ str_int (len stock_list) ++ " F&O stocks.") ],
       stock_list)
  | Thrown e =>
      ([ Show "st.write" "Cache miss: Fetching F&O stock list...";
         Show "st.error" ("Error fetching F&O stocks: " ++ e) ],
       [])
  end.

Section Run.

(** [str.upper] *)
Variable upper : string -> string.

(** [get_index_stocks], lines 55-80. *)
Definition get_index_stocks (service : nse_source) (index_name : string)
  : list event * list string :=
  let start :=
    [ Show "st.write"
        ("Cache miss: Fetching stock list for " ++ index_name ++ "...") ] in
  let failed (e : string) : list event * list string :=
    (start +++ [ Show "st.error" ("Error fetching index stocks: " ++ e) ], []) in
  match service with
  | Thrown e => failed e
  | Done nse =>
      match is_valid_index nse index_name with
      | Thrown e => failed e
      | Done false =>
          let invalid :=
            Show "st.error" ("Error: Invalid index name '" ++ index_name ++ "'.") in
          match get_index_list nse with
          | Thrown e =>
              (start +++ [ invalid;
                           Show "st.error" ("Error fetching index stocks: " ++ e) ],
               [])
          | Done valid_indices =>
              (start +++ [ invalid;
                           Show "st.info" ("Valid indices include: "
                                           ++ String.concat ", " valid_indices) ],
               [])
          end
      | Done true =>
          match get_stocks_in_index nse index_name with
          | Thrown e => failed e
          | Done [] =>
              (start +++ [ Show "st.warning"
                             ("No stocks returned for " ++ index_name ++ ".") ],
               [])
          | Done stock_list =>
              (start +++ [ Show "st.write" ("Found " ++ str_int (len stock_list)
                                            ++ " stocks in " ++ index_name ++ ".") ],
               map upper stock_list)
          end
      end
  end.

Definition get_largecap_stocks (service : nse_source) : list event * list string :=
  get_index_stocks service "NIFTY 100".

Definition get_midcap_stocks (service : nse_source) : list event * list string :=
  get_index_stocks service "NIFTY MIDCAP 150".

Definition get_smallcap_stocks (service : nse_source) : list event * list string :=
  get_index_stocks service "NIFTY SMALLCAP 250".

(** The entries of the two select boxes, lines 195-216. *)
Inductive stock_choice : Type := FnO | LargeCap | MidCap | SmallCap.

Inductive period_choice : Type :=
  LastWeek | Last4Weeks | Last3Months | Last6Months.

Definition stock_label (c : stock_choice) : string :=
  match c with
  | FnO => "F&O Stocks"
  | LargeCap => "Large-Cap (NIFTY 100)"
  | MidCap => "Mid-Cap (NIFTY MIDCAP 150)"
  | SmallCap => "Small-Cap (NIFTY SMALLCAP 250)"
  end.

Definition period_label (c : period_choice) : string :=
  match c with
  | LastWeek => "Last Week (7 days)"
  | Last4Weeks => "Last 4 Weeks"
  | Last3Months => "Last 3 Months"
  | Last6Months => "Last 6 Months"
  end.

(** [period_options] *)
Definition period_options (c : period_choice) : string :=
  match c with
  | LastWeek => "last_week"
  | Last4Weeks => "last_4_weeks"
  | Last3Months => "last_3_months"
  | Last6Months => "last_6_months"
  end.

(** What the outside answers during one run of the script. *)
Variable csv : fno_source.
Variable service : nse_source.
Variable now : datetime.
Variable api : news_api.
Variable compound_of : string -> float.

(** [pd.to_datetime(publishedAt).strftime('%d-%b-%Y %H:%M')] *)
Variable published : string -> attempt string.

(** [stock_list_options] *)
Definition stock_list_options (c : stock_choice) : list event * list string :=
  match c with
  | FnO => get_fno_stocks csv
  | LargeCap => get_largecap_stocks service
  | MidCap => get_midcap_stocks service
  | SmallCap => get_smallcap_stocks service
  end.

(** The loop of lines 247-268 over the articles. *)
Fixpoint show_articles (l : list article) : list event * outcome :=
  match l with
  | [] => ([], Returned)
  | a :: l' =>
      let '(sentiment, emoji) := Hello.get_sentiment compound_of (title a) in
      let head :=
        [ Show "st.container" "border=True";
          Show "st.columns" "[3, 1]";
          Show "st.write" ("**" ++ title a ++ "**");
          Show "st.write" ("**Sentiment: " ++ emoji ++ " " ++ sentiment ++ "**") ] in
      match published (publishedAt a) with
      | Thrown e => (head, Crashed (Other e))
      | Done when =>
          let '(tr, o) := show_articles l' in
          (head
             +++ [ Show "st.write" ("Source: " ++ source_name a
                                    ++ " | Published: " ++ when) ]
             +++ (if (description a =? "")%string then []
                  else [ Show "st.write" (description a) ])
             +++ [ Show "st.markdown" ("[Read Full Article](" ++ url a ++ ")") ]
             +++ (if (urlToImage a =? "")%string then []
                  else [ Show "st.image" (urlToImage a) ])
             +++ tr, o)
      end
  end.

(** The page above the button, lines 182-216. *)
Definition page : list event :=
  [ Show "st.set_page_config" "layout=wide";
    Show "st.title" "Stock News Dashboard";
    Show "st.write"
      "Fetches stock lists and searches for relevant news with Sentiment Analysis.";
    Show "st.sidebar.header" "Configuration";
    Show "st.sidebar.text_input" "Enter your NewsAPI Key";
    Show "st.sidebar.header" "Filters";
    Show "st.sidebar.selectbox" "1. Select Stock List";
    Show "st.sidebar.selectbox" "2. Select Time Period";
    Show "st.sidebar.button" "Get News" ].

(** One run of the script, lines 182-273, on the state of its widgets:
    the text of the key box, the two selections, and whether the button
    was pressed. *)
Definition app (api_key : string) (stock_list_label : stock_choice)
    (period : period_choice) (button : bool) : list event * outcome :=
  if button then
    if (api_key =? "")%string then
      (page +++ [ Show "st.sidebar.error" "Please enter your NewsAPI key above." ],
       Stopped)
    else
      let '(fetching, stock_list) := stock_list_options stock_list_label in
      let got :=
        page +++ [ Show "st.spinner"
                     ("Fetching " ++ stock_label stock_list_label ++ " list...") ]
             +++ fetching in
      match stock_list with
      | [] =>
          (got +++ [ Show "st.error" "Could not retrieve stock list. Halting." ],
           Stopped)
      | _ :: _ =>
          let counted :=
            got +++ [ Show "st.success" ("Successfully fetched "
                        ++ str_int (len stock_list) ++ " stocks.") ] in
          match Hello.get_date_range (period_options period) now with
          | Raise e => (counted, Crashed (Overflow e))
          | Ok (from_date, to_date) =>
              let '(news, articles) :=
                Hello.fetch_news_for_stocks api (Some api_key) stock_list
                  from_date to_date in
              match articles with
              | [] =>
                  (counted +++ news
                     +++ [ Show "st.info" "No articles found to display." ],
                   Returned)
              | _ :: _ =>
                  let '(shown, o) := show_articles articles in
                  (counted +++ news
                     +++ [ Show "st.subheader" ("Showing Top "
                             ++ str_int (len articles) ++ " Articles") ]
                     +++ shown, o)
              end
          end
      end
  else
    (page +++ [ Show "st.info"
                  "Configure your settings in the sidebar and press 'Get News'." ],
     Returned).

End Run.

End HelloApp.

(** ** The rest of [sshare.py] *)

Module SshareApp.

(** The backup list of line 56. *)
Definition BACKUP : list string :=
  [ "RELIANCE"; "TCS"; "INFY"; "HDFCBANK"; "ICICIBANK" ].

(** [get_fno_stocks], lines 29-56. *)
Definition get_fno_stocks (csv : fno_source) : list event * list string :=
  match csv with
  | Done stock_list =>
      ([ Show "st.write" "Cache miss: Fetching F&O stock list...";
         Show "st.write" ("Found " ++ str_int (len stock_list) ++ " F&O stocks.") ],
       stock_list)
  | Thrown e =>
      ([ Show "st.write" "Cache miss: Fetching F&O stock list...";
         Show "st.error" ("Error fetching F&O stocks: " ++ e);
         Show "st.warning" "Could not fetch F&O list. Using a small backup list." ],
       BACKUP)
  end.

Section Run.

(** [str.upper] *)
Variable upper : string -> string.

(** [get_index_stocks], lines 58-85. *)
Definition get_index_stocks (service : nse_source) (index_name : string)
  : list event * list string :=
  let start :=
    [ Show "st.write"
        ("Cache miss: Fetching stock list for " ++ index_name ++ "...") ] in
  let failed (e : string) : list event * list string :=
    (start +++ [ Show "st.error" ("Error fetching index stocks: " ++ e) ], []) in
  match service with
  | Thrown e => failed e
  | Done nse =>
      match is_valid_index nse index_name with
      | Thrown e => failed e
      | Done false =>
          let invalid :=
            Show "st.error" ("Error: Invalid index name '" ++ index_name ++ "'.") in
          match get_index_list nse with
          | Thrown e =>
              (start +++ [ invalid;
                           Show "st.error" ("Error fetching index stocks: " ++ e) ],
               [])
          | Done valid_indices =>
              (start +++ [ invalid;
                           Show "st.info" ("Valid indices include: "
                                           ++ String.concat ", " valid_indices) ],
               [])
          end
      | Done true =>
          match get_stocks_in_index nse index_name with
          | Thrown e => failed e
          | Done [] =>
              (start +++ [ Show "st.warning" ("No stocks returned for "
                             ++ index_name ++ ". Library may be out of date.") ],
               [])
          | Done stock_list =>
              (start +++ [ Show "st.write" ("Found " ++ str_int (len stock_list)
                                            ++ " stocks in " ++ index_name ++ ".") ],
               map upper stock_list)
          end
      end
  end.

Definition get_midcap_stocks (service : nse_source) : list event * list string :=
  get_index_stocks service "NIFTY MIDCAP 150".

(** The entries of the two select boxes, lines 183-202. *)
Inductive stock_choice : Type := FnO | MidCap.

Inductive period_choice : Type := LastWeek | OneMonth | ThreeMonths.

Definition stock_label (c : stock_choice) : string :=
  match c with
  | FnO => "F&O Stocks"
  | MidCap => "Mid-Cap (NIFTY MIDCAP 150)"
  end.

Definition period_label (c : period_choice) : string :=
  match c with
  | LastWeek => "Last Week"
  | OneMonth => "One Month"
  | ThreeMonths => "Three Months"
  end.

(** [period_options] *)
Definition period_options (c : period_choice) : string :=
  match c with
  | LastWeek => "last_week"
  | OneMonth => "one_month"
  | ThreeMonths => "three_months"
  end.

Variable csv : fno_source.
Variable service : nse_source.
Variable now : datetime.
Variable api : news_api.

(** [pd.to_datetime(publishedAt).strftime('%d-%b-%Y %H:%M')] *)
Variable published : string -> attempt string.

(** [stock_list_options] *)
Definition stock_list_options (c : stock_choice) : list event * list string :=
  match c with
  | FnO => get_fno_stocks csv
  | MidCap => get_midcap_stocks service
  end.

(** The loop of lines 233-246 over the articles. *)
Fixpoint show_articles (l : list article) : list event * outcome :=
  match l with
  | [] => ([], Returned)
  | a :: l' =>
      let head :=
        [ Show "st.container" "border=True";
          Show "st.columns" "[3, 1]";
          Show "st.write" ("**" ++ title a ++ "**") ] in
      match published (publishedAt a) with
      | Thrown e => (head, Crashed (Other e))
      | Done when =>
          let '(tr, o) := show_articles l' in
          (head
             +++ [ Show "st.write" ("Source: " ++ source_name a
                                    ++ " | Published: " ++ when) ]
             +++ (if (description a =? "")%string then []
                  else [ Show "st.write" (description a) ])
             +++ [ Show "st.markdown" ("[Read Full Article](" ++ url a ++ ")") ]
             +++ (if (urlToImage a =? "")%string then []
                  else [ Show "st.image" (urlToImage a) ])
             +++ tr, o)
      end
  end.

(** The page above the button, lines 170-202. *)
Definition page : list event :=
  [ Show "st.set_page_config" "layout=wide";
    Show "st.title" "Stock News Dashboard";
    Show "st.write" "Fetches stock lists and searches for relevant news.";
    Show "st.sidebar.header" "Configuration";
    Show "st.sidebar.text_input" "Enter your NewsAPI Key";
    Show "st.sidebar.header" "Filters";
    Show "st.sidebar.selectbox" "1. Select Stock List";
    Show "st.sidebar.selectbox" "2. Select Time Period";
    Show "st.sidebar.button" "Get News" ].

(** One run of the script, lines 170-251, on the state of its widgets. *)
Definition app (api_key : string) (stock_list_label : stock_choice)
    (period : period_choice) (button : bool) : list event * outcome :=
  if button then
    if (api_key =? "")%string then
      (page +++ [ Show "st.sidebar.error" "Please enter your NewsAPI key above." ],
       Stopped)
    else
      let '(fetching, stock_list) := stock_list_options stock_list_label in
      let got :=
        page +++ [ Show "st.spinner"
                     ("Fetching " ++ stock_label stock_list_label ++ " list...") ]
             +++ fetching in
      match stock_list with
      | [] =>
          (got +++ [ Show "st.error" "Could not retrieve stock list. Halting." ],
           Stopped)
      | _ :: _ =>
          let counted :=
            got +++ [ Show "st.success" ("Successfully fetched "
                        ++ str_int (len stock_list) ++ " stocks.") ] in
          match Sshare.get_date_range (period_options period) now with
          | Raise e => (counted, Crashed (Overflow e))
          | Ok (from_date, to_date) =>
              let '(news, articles) :=
                Sshare.fetch_news_for_stocks api (Some api_key) stock_list
                  from_date to_date in
              match articles with
              | [] =>
                  (counted +++ news
                     +++ [ Show "st.info" "No articles found to display." ],
                   Returned)
              | _ :: _ =>
                  let '(shown, o) := show_articles articles in
                  (counted +++ news
                     +++ [ Show "st.subheader" ("Showing Top "
                             ++ str_int (len articles) ++ " Articles") ]
                     +++ shown, o)
              end
          end
      end
  else
    (page +++ [ Show "st.info"
                  "Configure your settings in the sidebar and press 'Get News'." ],
     Returned).

End Run.

End SshareApp.

(** ** The rest of [shharee.py] *)

Module ShhareeApp.

(** The script's own run, lines 57-63. *)
Definition main (now : datetime) : list event * outcome :=
  let banner := Show "print" "This script now only calculates date ranges." in
  let period := "last_3_months" in
  match Shharee.get_date_range period now with
  | Raise e => ([ banner ], Crashed (Overflow e))
  | Ok (start, end_) =>
      ([ banner;
         Show "print" ("Date range for '" ++ period ++ "': " ++ start
                       ++ " to " ++ end_) ],
       Returned)
  end.

End ShhareeApp.

(** ** Reading a trace *)

(** [starts_with pre s]: the string [s] begins with [pre]. *)
Fixpoint starts_with (pre s : string) : bool :=
  match pre with
  | EmptyString => true
  | String a pre' =>
      match s with
      | EmptyString => false
      | String b s' => Ascii.eqb a b && starts_with pre' s'
      end
  end.

(** The messages of a trace that begin with [pre], in order. *)
Fixpoint shown_with (pre : string) (tr : list event) : list string :=
  match tr with
  | [] => []
  | Show _ msg :: tr' =>
      if starts_with pre msg then msg :: shown_with pre tr'
      else shown_with pre tr'
  | Search _ :: tr' => shown_with pre tr'
  end.

(** The request that the three fetch functions send. *)
Definition request_of (key : string) (page : Z) (stock_list : list string)
    (from_date to_date : string) : search_request :=
  mkrequest key (or_query (firstn 15 stock_list)) from_date to_date
    "en" "publishedAt" page.

(** [turn_request upper key w r]: the request [r] is the one of some turn of
    the menu loop: its stock list is the non-empty list that a choice of
    the main menu returned on that turn, and its dates are the range of
    one of the four offsets at the clock of that turn. *)
Definition turn_request (upper : string -> string) (key : string)
    (w : ShareApp.world) (r : search_request) : Prop :=
  exists (i : nat) (choice : string) (fetching : list event)
         (stock_list : list string) (off : Z),
    ShareApp.list_of_choice upper w i choice = Some (fetching, stock_list)
    /\ stock_list <> []
    /\ In off [ 7; 28; 90; 180 ]
    /\ resolve_with "%Y-%m-%d" off (ShareApp.clock w i)
       = Ok (from_param r, to r)
    /\ r = request_of key 20 stock_list (from_param r) (to r).

Definition quiet_world : ShareApp.world :=
  ShareApp.mkworld (fun _ => Done [ "TCS"; "INFY" ]) (fun _ => Thrown "offline")
    (fun _ => d20240315) (fun _ => no_articles).

(** The messages that a trace shows on one channel, in order. *)
Fixpoint shown_on (channel : string) (tr : list event) : list string :=
  match tr with
  | [] => []
  | Show c msg :: tr' =>
      if (c =? channel)%string then msg :: shown_on channel tr'
      else shown_on channel tr'
  | Search _ :: tr' => shown_on channel tr'
  end.

(** The offsets behind the entries of the period boxes. *)
Definition hello_offset (c : HelloApp.period_choice) : Z :=
  match c with
  | HelloApp.LastWeek => 7
  | HelloApp.Last4Weeks => 28
  | HelloApp.Last3Months => 90
  | HelloApp.Last6Months => 180
  end.

Definition sshare_offset (c : SshareApp.period_choice) : Z :=
  match c with
  | SshareApp.LastWeek => 7
  | SshareApp.OneMonth => 30
  | SshareApp.ThreeMonths => 90
  end.

Definition two_articles : list article :=
  [ mkarticle "Markets rally" "Wire" "2024-03-14T09:00:00Z" "" "u1" "";
    mkarticle "Rupee slips" "Desk" "not a date" "text" "u2" "img" ].

Definition parse_or_fail (s : string) : attempt string :=
  if (s =? "not a date")%string then Thrown "Unknown datetime string format"
  else Done "14-Mar-2024 09:00".

(** The two messages with which [fetch_news_for_stocks] of [hello.py] and
    [sshare.py] answers a missing key and an empty stock list. *)
Definition MISSING_KEY : event :=
  Show "st.sidebar.error" "API key is missing. Please enter it above.".

Definition NO_STOCK_LIST : event :=
  Show "st.warning" "No stock list provided. Skipping news fetch.".

Definition not_a_guard (ev : event) : Prop :=
  ev <> MISSING_KEY /\ ev <> NO_STOCK_LIST.

(** Every date of the articles can be formatted. *)
Definition dates_format (published : string -> attempt string)
    (l : list article) : Prop :=
  Forall (fun a => exists w, published (publishedAt a) = Done w) l.

(** * Properties *)

(** ** The calendar *)

Ltac month_cases m :=
  let H := fresh "Hm" in
  assert (H : m = 1 \/ m = 2 \/ m = 3 \/ m = 4 \/ m = 5 \/ m = 6 \/ m = 7
              \/ m = 8 \/ m = 9 \/ m = 10 \/ m = 11 \/ m = 12) by lia;
  repeat (destruct H as [H | H]); subst m.

Section Calendar.

Lemma is_leap_iff y :
  _is_leap y = true <-> (y mod 4 = 0 /\ (y mod 100 <> 0 \/ y mod 400 = 0)).
Proof.
  unfold _is_leap.
  rewrite andb_true_iff, orb_true_iff, negb_true_iff, !Z.eqb_eq, Z.eqb_neq.
  tauto.
Qed.

Lemma days_before_year_succ y :
  _days_before_year (y + 1)
  = _days_before_year y + 365 + (if _is_leap y then 1 else 0).
Proof.
  unfold _days_before_year.
  destruct (_is_leap y) eqn:L.
  - apply is_leap_iff in L.
    replace (y + 1 - 1) with y by lia.
    Z.div_mod_to_equations. lia.
  - assert (N : ~ (y mod 4 = 0 /\ (y mod 100 <> 0 \/ y mod 400 = 0))).
    { rewrite <- is_leap_iff, L. discriminate. }
    replace (y + 1 - 1) with y by lia.
    Z.div_mod_to_equations. lia.
Qed.

Lemma days_before_year_mono y1 y2 :
  y1 <= y2 -> _days_before_year y1 <= _days_before_year y2.
Proof.
  unfold _days_before_year. intros H.
  Z.div_mod_to_equations. lia.
Qed.

Lemma range_check (P : Z -> bool) (k : nat) :
  forallb P (map Z.of_nat (seq 0 k)) = true ->
  forall n, 0 <= n < Z.of_nat k -> P n = true.
Proof.
  intros H n Hn.
  rewrite forallb_forall in H. apply H.
  apply in_map_iff. exists (Z.to_nat n). split; [lia|].
  apply in_seq. lia.
Qed.

Lemma month_day_spec leapyear n :
  0 <= n < 365 -> month_day_ok leapyear n = true.
Proof.
  intros Hn. apply (range_check (month_day_ok leapyear) 365); [|lia].
  destruct leapyear; vm_compute; reflexivity.
Qed.

Lemma ord2ymd_unfold n0 :
  let n := n0 - 1 in
  let n400 := n / 146097 in
  let r1 := n mod 146097 in
  let n100 := r1 / 36524 in
  let r2 := r1 mod 36524 in
  let n4 := r2 / 1461 in
  let r3 := r2 mod 1461 in
  let n1 := r3 / 365 in
  let r4 := r3 mod 365 in
  let y := n400 * 400 + 1 + n100 * 100 + n4 * 4 + n1 in
  _ord2ymd n0 =
    if (n1 =? 4) || (n100 =? 4) then (y - 1, 12, 31)
    else
      let '(m, d) :=
        month_day ((n1 =? 3) && (negb (n4 =? 24) || (n100 =? 3))) r4 in
      (y, m, d).
Proof.
  cbv zeta. unfold _ord2ymd, month_day, _DI400Y, _DI100Y, _DI4Y. cbv zeta.
  destruct (_ || _); [reflexivity|].
  destruct (_ <? _); reflexivity.
Qed.

(** [_ord2ymd] inverts [_ymd2ord] and yields a date of the calendar. *)
Lemma ord2ymd_ymd2ord n :
  1 <= n ->
  let '(y, m, d) := _ord2ymd n in
  _ymd2ord y m d = n /\ 1 <= m <= 12 /\ 1 <= d <= _days_in_month y m
  /\ 1 <= y /\ (n <= _MAXORDINAL -> y <= MAXYEAR).
Proof.
  intros Hn. rewrite ord2ymd_unfold. cbv zeta.
  set (N := n - 1).
  set (a := N / 146097). set (r1 := N mod 146097).
  set (b := r1 / 36524). set (r2 := r1 mod 36524).
  set (c := r2 / 1461). set (r3 := r2 mod 1461).
  set (e := r3 / 365). set (r4 := r3 mod 365).
  assert (HN : 0 <= N) by (unfold N; lia).
  assert (Ha : N = 146097 * a + r1 /\ 0 <= r1 < 146097 /\ 0 <= a).
  { unfold a, r1. Z.div_mod_to_equations. lia. }
  assert (Hb : r1 = 36524 * b + r2 /\ 0 <= r2 < 36524 /\ 0 <= b <= 4).
  { unfold b, r2. Z.div_mod_to_equations. lia. }
  assert (Hc : r2 = 1461 * c + r3 /\ 0 <= r3 < 1461 /\ 0 <= c <= 24).
  { unfold c, r3. Z.div_mod_to_equations. lia. }
  assert (He : r3 = 365 * e + r4 /\ 0 <= r4 < 365 /\ 0 <= e <= 4).
  { unfold e, r4. Z.div_mod_to_equations. lia. }
  clearbody a r1 b r2 c r3 e r4.
  assert (HM : n <= _MAXORDINAL -> a <= 24) by (unfold _MAXORDINAL; lia).
  unfold _MAXORDINAL, MAXYEAR.
  destruct ((e =? 4) || (b =? 4)) eqn:Special.
  - (* the last day of a leap year *)
    assert (L : _is_leap (a * 400 + 1 + b * 100 + c * 4 + e - 1) = true).
    { apply is_leap_iff.
      apply orb_true_iff in Special. rewrite !Z.eqb_eq in Special.
      Z.div_mod_to_equations. lia. }
    unfold _ymd2ord, _days_before_month, _days_in_month, _days_before_year.
    rewrite L. change (12 =? 2) with false. change (2 <? 12) with true.
    cbn [andb _DAYS_BEFORE_MONTH _DAYS_IN_MONTH].
    apply orb_true_iff in Special. rewrite !Z.eqb_eq in Special.
    repeat split; try lia.
    Z.div_mod_to_equations. lia.
  - apply orb_false_iff in Special. rewrite !Z.eqb_neq in Special.
    set (leap := (e =? 3) && (negb (c =? 24) || (b =? 3))).
    assert (L : _is_leap (a * 400 + 1 + b * 100 + c * 4 + e) = leap).
    { unfold leap. destruct (_is_leap _) eqn:L.
      - apply is_leap_iff in L. symmetry.
        rewrite andb_true_iff, orb_true_iff, negb_true_iff, !Z.eqb_eq, Z.eqb_neq.
        Z.div_mod_to_equations. lia.
      - symmetry. apply not_true_is_false. intros T.
        rewrite andb_true_iff, orb_true_iff, negb_true_iff, !Z.eqb_eq, Z.eqb_neq in T.
        assert (_is_leap (a * 400 + 1 + b * 100 + c * 4 + e) = true);
          [|congruence].
        apply is_leap_iff. Z.div_mod_to_equations. lia. }
    pose proof (month_day_spec leap r4 ltac:(lia)) as MD.
    unfold month_day_ok in MD.
    destruct (month_day leap r4) as [m d].
    rewrite !andb_true_iff, !Z.leb_le, Z.eqb_eq in MD.
    unfold _ymd2ord, _days_before_month, _days_in_month, _days_before_year.
    rewrite L.
    repeat split; try lia.
    Z.div_mod_to_equations. lia.
Qed.

Lemma day_of_year_bounds y m d :
  1 <= m <= 12 -> 1 <= d <= _days_in_month y m ->
  1 <= _days_before_month y m + d <= 365 + (if _is_leap y then 1 else 0).
Proof.
  unfold _days_before_month, _days_in_month. intros Hm Hd.
  destruct (_is_leap y); month_cases m; cbn -[Z.add] in *; lia.
Qed.

Lemma day_of_year_mono y m1 d1 m2 d2 :
  1 <= m1 -> m1 < m2 -> m2 <= 12 ->
  d1 <= _days_in_month y m1 -> 1 <= d2 ->
  _days_before_month y m1 + d1 < _days_before_month y m2 + d2.
Proof.
  unfold _days_before_month, _days_in_month. intros H1 H12 H2 Hd1 Hd2.
  destruct (_is_leap y); month_cases m1; month_cases m2;
    try lia; cbn -[Z.add] in *; lia.
Qed.

Lemma ymd2ord_bounds y m d :
  valid_date y m d -> 1 <= _ymd2ord y m d <= _MAXORDINAL.
Proof.
  unfold valid_date, MINYEAR, MAXYEAR. intros (Hy & Hm & Hd).
  pose proof (day_of_year_bounds y m d Hm Hd) as B.
  pose proof (days_before_year_succ y) as S.
  pose proof (days_before_year_mono 1 y ltac:(lia)) as Lo.
  pose proof (days_before_year_mono (y + 1) 10000 ltac:(lia)) as Hi.
  change (_days_before_year 1) with 0 in Lo.
  change (_days_before_year 10000) with 3652059 in Hi.
  unfold _ymd2ord, _MAXORDINAL. lia.
Qed.

(** The ordinal grows with the date: a date with the smaller ordinal is
    the earlier tuple [(year, month, day)]. *)
Lemma ymd2ord_le_date_le y1 m1 d1 y2 m2 d2 :
  valid_date y1 m1 d1 -> valid_date y2 m2 d2 ->
  _ymd2ord y1 m1 d1 <= _ymd2ord y2 m2 d2 ->
  date_le (y1, m1, d1) (y2, m2, d2).
Proof.
  unfold valid_date, date_le. intros (Hy1 & Hm1 & Hd1) (Hy2 & Hm2 & Hd2) Hle.
  destruct (Z.lt_trichotomy y1 y2) as [Hy | [Hy | Hy]]; [now left | | exfalso].
  - right. split; [exact Hy|]. subst y2.
    destruct (Z.lt_trichotomy m1 m2) as [Hm | [Hm | Hm]]; [now left | | exfalso].
    + right. split; [exact Hm|]. subst m2. unfold _ymd2ord in Hle. lia.
    + pose proof (day_of_year_mono y1 m2 d2 m1 d1) as M.
      unfold _ymd2ord in Hle. lia.
  - pose proof (day_of_year_bounds y2 m2 d2 Hm2 Hd2) as B2.
    pose proof (day_of_year_bounds y1 m1 d1 Hm1 Hd1) as B1.
    pose proof (days_before_year_succ y2) as S.
    pose proof (days_before_year_mono (y2 + 1) y1 ltac:(lia)) as Mo.
    unfold _ymd2ord in Hle. lia.
Qed.

(** So a date of the calendar is determined by its ordinal. *)
Lemma ymd2ord_inj y1 m1 d1 y2 m2 d2 :
  valid_date y1 m1 d1 -> valid_date y2 m2 d2 ->
  _ymd2ord y1 m1 d1 = _ymd2ord y2 m2 d2 ->
  (y1, m1, d1) = (y2, m2, d2).
Proof.
  intros V1 V2 E.
  pose proof (ymd2ord_le_date_le _ _ _ _ _ _ V1 V2 ltac:(lia)) as A.
  pose proof (ymd2ord_le_date_le _ _ _ _ _ _ V2 V1 ltac:(lia)) as B.
  unfold date_le in A, B.
  assert (y1 = y2 /\ m1 = m2 /\ d1 = d2) as (-> & -> & ->) by lia.
  reflexivity.
Qed.

(** Subtracting a whole number of days that stays inside the calendar
    moves the ordinal by that number and keeps the time of day. *)
Lemma sub_days today other :
  valid today ->
  td_seconds other = 0 -> td_microseconds other = 0 ->
  0 <= td_days other < toordinal today ->
  exists start,
    sub today other = Ok start /\ valid start
    /\ toordinal start = toordinal today - td_days other
    /\ date_of start = _ord2ymd (toordinal today - td_days other).
Proof.
  intros (Hd & Ht) Hs Hu Hk.
  pose proof (ymd2ord_bounds _ _ _ Hd) as B. fold (toordinal today) in B.
  unfold valid_time in Ht.
  unfold sub. rewrite Hs, Hu.
  set (us := microsecond today - 0).
  set (secs := hour today * 3600 + minute today * 60 + second today - 0
               + us / 1000000).
  assert (U0 : us / 1000000 = 0 /\ us mod 1000000 = microsecond today).
  { unfold us. Z.div_mod_to_equations. lia. }
  assert (S0 : secs / 86400 = 0 /\ secs mod 86400 = secs
               /\ secs = hour today * 3600 + minute today * 60 + second today).
  { unfold secs. destruct U0 as [-> _]. Z.div_mod_to_equations. lia. }
  destruct S0 as (-> & -> & Hsecs). destruct U0 as (_ & ->).
  rewrite Z.add_0_r.
  set (n := toordinal today - td_days other).
  assert (Hn : 1 <= n <= _MAXORDINAL) by (unfold n; lia).
  replace ((0 <? n) && (n <=? _MAXORDINAL)) with true
    by (symmetry; apply andb_true_iff; split; [apply Z.ltb_lt | apply Z.leb_le]; lia).
  pose proof (ord2ymd_ymd2ord n ltac:(lia)) as R.
  destruct (_ord2ymd n) as [[y m] d].
  destruct R as (R1 & R2 & R3 & R4 & R5).
  eexists. split; [reflexivity|]. split; [|split; [exact R1|reflexivity]].
  split; [unfold valid_date, MINYEAR; cbn; lia|].
  unfold valid_time; cbn. rewrite Hsecs. Z.div_mod_to_equations. lia.
Qed.

Lemma sub_days_overflow today other :
  valid today ->
  td_seconds other = 0 -> td_microseconds other = 0 ->
  toordinal today <= td_days other ->
  sub today other = Raise (OverflowError "date value out of range").
Proof.
  intros (Hd & Ht) Hs Hu Hk. unfold valid_time in Ht.
  unfold sub. rewrite Hs, Hu.
  set (us := microsecond today - 0).
  set (secs := hour today * 3600 + minute today * 60 + second today - 0
               + us / 1000000).
  assert (S0 : secs / 86400 = 0).
  { unfold secs, us. Z.div_mod_to_equations. lia. }
  rewrite S0, Z.add_0_r.
  replace (0 <? toordinal today - td_days other) with false
    by (symmetry; apply Z.ltb_ge; lia).
  reflexivity.
Qed.

End Calendar.

(** ** Formatting *)

Section Formatting.

Lemma digit_val_digit k : 0 <= k <= 9 -> digit_val (digit k) = Some k.
Proof.
  intros H.
  assert (C : k = 0 \/ k = 1 \/ k = 2 \/ k = 3 \/ k = 4 \/ k = 5 \/ k = 6
              \/ k = 7 \/ k = 8 \/ k = 9) by lia.
  repeat (destruct C as [C | C]); subst k; reflexivity.
Qed.

Lemma mod10 k : 0 <= k mod 10 <= 9.
Proof. pose proof (Z.mod_pos_bound k 10). lia. Qed.

Lemma year_digits_4 y : 1000 <= y -> year_digits y = 4%nat.
Proof.
  intros H. unfold year_digits.
  destruct (Z.ltb_spec y 10); [lia|]. destruct (Z.ltb_spec y 100); [lia|].
  destruct (Z.ltb_spec y 1000); [lia|]. reflexivity.
Qed.

(** From the year 1000 on, the ISO format writes a date that reads back
    as the same date. *)
Lemma parse_strftime_iso dt :
  1000 <= year dt <= 9999 -> 0 <= month dt <= 99 -> 0 <= day dt <= 99 ->
  parse_iso_date (strftime dt "%Y-%m-%d") = Some (date_of dt).
Proof.
  intros Hy Hm Hd. unfold strftime, date_of.
  cbn -[Z.div Z.modulo digit digit_val Z.mul Z.add year_digits zpad].
  rewrite year_digits_4 by lia.
  cbn -[Z.div Z.modulo digit digit_val Z.mul Z.add].
  rewrite !digit_val_digit by apply mod10.
  f_equal. f_equal; [f_equal|]; Z.div_mod_to_equations; lia.
Qed.

Lemma valid_date_fields y m d :
  valid_date y m d -> 0 <= y <= 9999 /\ 0 <= m <= 99 /\ 0 <= d <= 99.
Proof.
  unfold valid_date, MINYEAR, MAXYEAR, _days_in_month. intros (Hy & Hm & Hd).
  destruct (_ && _); [lia|]. month_cases m; cbn in Hd; lia.
Qed.

End Formatting.

(** ** The date-range resolver *)

Section Resolver.

Lemma share_resolve p now :
  Share.get_date_range p now = resolve_with "%Y-%m-%d" (offset_4 p) now.
Proof.
  unfold Share.get_date_range, resolve_with, offset_4.
  destruct (p =? "last_week")%string eqn:E1.
  - apply String.eqb_eq in E1. subst p. reflexivity.
  - clear E1. repeat (destruct (p =? _)%string; [reflexivity|]). reflexivity.
Qed.

Lemma hello_resolve p now :
  Hello.get_date_range p now = resolve_with "%Y-%m-%d" (offset_4 p) now.
Proof.
  unfold Hello.get_date_range, resolve_with, offset_4.
  destruct (p =? "last_week")%string eqn:E1.
  - apply String.eqb_eq in E1. subst p. reflexivity.
  - clear E1. repeat (destruct (p =? _)%string; [reflexivity|]). reflexivity.
Qed.

Lemma sshare_resolve p now :
  Sshare.get_date_range p now = resolve_with "%Y-%m-%d" (offset_3 p) now.
Proof.
  unfold Sshare.get_date_range, resolve_with, offset_3.
  destruct (p =? "last_week")%string eqn:E1.
  - apply String.eqb_eq in E1. subst p. reflexivity.
  - clear E1. repeat (destruct (p =? _)%string; [reflexivity|]). reflexivity.
Qed.

Lemma shharee_resolve p now :
  Shharee.get_date_range p now = resolve_with "%Y-m-%d" (offset_4 p) now.
Proof.
  unfold Shharee.get_date_range, resolve_with, offset_4.
  destruct (p =? "last_week")%string eqn:E1.
  - apply String.eqb_eq in E1. subst p. reflexivity.
  - clear E1. repeat (destruct (p =? _)%string; [reflexivity|]). reflexivity.
Qed.

Lemma offsets_4_offset p off : In (p, off) offsets_4 -> off = offset_4 p.
Proof.
  unfold offsets_4. cbn [In]. intros H.
  repeat (destruct H as [H | H]; [injection H as <- <-; reflexivity|]).
  contradiction.
Qed.

Lemma offsets_3_offset p off : In (p, off) offsets_3 -> off = offset_3 p.
Proof.
  unfold offsets_3. cbn [In]. intros H.
  repeat (destruct H as [H | H]; [injection H as <- <-; reflexivity|]).
  contradiction.
Qed.

Lemma offset_4_range p : 7 <= offset_4 p <= 180.
Proof. unfold offset_4. repeat (destruct (_ =? _)%string); lia. Qed.

Lemma offset_3_range p : 7 <= offset_3 p <= 90.
Proof. unfold offset_3. repeat (destruct (_ =? _)%string); lia. Qed.

(** A tag outside a variant's enumeration gets the offset of the default. *)
Lemma offset_4_default p :
  ~ In p (map fst offsets_4) -> offset_4 p = 7.
Proof.
  cbn [map fst offsets_4 In]. intros H. unfold offset_4.
  repeat match goal with
         | |- context [(p =? ?t)%string] =>
             destruct (String.eqb_spec p t) as [-> | _]; [exfalso; tauto|]
         end.
  reflexivity.
Qed.

Lemma offset_3_default p :
  ~ In p (map fst offsets_3) -> offset_3 p = 7.
Proof.
  cbn [map fst offsets_3 In]. intros H. unfold offset_3.
  repeat match goal with
         | |- context [(p =? ?t)%string] =>
             destruct (String.eqb_spec p t) as [-> | _]; [exfalso; tauto|]
         end.
  reflexivity.
Qed.

(** The year of the clock is not before the year of the start. *)
Lemma start_year_le_now now off start :
  valid now -> valid start -> 0 <= off ->
  toordinal start = toordinal now - off -> year start <= year now.
Proof.
  intros [Vn _] [Vs _] Hoff Hord.
  pose proof (ymd2ord_le_date_le _ _ _ _ _ _ Vs Vn) as L.
  unfold toordinal in Hord. unfold date_le in L. lia.
Qed.

(** A longer offset does not start in a later year. *)
Lemma start_year_mono now off1 off2 :
  valid now -> 0 <= off1 <= off2 -> off2 < toordinal now ->
  start_year now off2 <= start_year now off1.
Proof.
  intros [Vn _] H12 H2. unfold start_year.
  pose proof (ymd2ord_bounds _ _ _ Vn) as B. fold (toordinal now) in B.
  pose proof (ord2ymd_ymd2ord (toordinal now - off1) ltac:(lia)) as R1.
  pose proof (ord2ymd_ymd2ord (toordinal now - off2) ltac:(lia)) as R2.
  destruct (_ord2ymd (toordinal now - off1)) as [[y1 m1] d1].
  destruct (_ord2ymd (toordinal now - off2)) as [[y2 m2] d2].
  destruct R1 as (O1 & M1 & D1 & Y1 & X1).
  destruct R2 as (O2 & M2 & D2 & Y2 & X2).
  assert (V1 : valid_date y1 m1 d1).
  { unfold valid_date, MINYEAR. repeat split; lia. }
  assert (V2 : valid_date y2 m2 d2).
  { unfold valid_date, MINYEAR. repeat split; lia. }
  pose proof (ymd2ord_le_date_le _ _ _ _ _ _ V2 V1 ltac:(lia)) as L.
  unfold date_le in L. cbn [fst]. lia.
Qed.

(** Inside the calendar and from the year 1000 on, the resolver returns
    the two ISO dates [off] days apart. *)
Lemma resolve_with_range now off :
  valid now -> 0 <= off < toordinal now -> 1000 <= start_year now off ->
  range_of_offset now off (resolve_with "%Y-%m-%d" off now).
Proof.
  intros Hv Hoff Hy.
  destruct (sub_days now (mktimedelta off 0 0) Hv eq_refl eq_refl Hoff)
    as (start & Hsub & Hvs & Hord & Hdate).
  unfold resolve_with. rewrite Hsub. cbn [bind td_days] in *.
  assert (Ys : 1000 <= year start).
  { unfold start_year in Hy. rewrite <- Hdate in Hy. exact Hy. }
  pose proof (start_year_le_now now off start Hv Hvs ltac:(lia) Hord) as Yn.
  exists (strftime start "%Y-%m-%d"), (strftime now "%Y-%m-%d"),
    (year start), (month start), (day start).
  destruct Hvs as [Hvd _]. destruct Hv as [Hvn _].
  pose proof (valid_date_fields _ _ _ Hvd) as (? & ? & ?).
  pose proof (valid_date_fields _ _ _ Hvn) as (? & ? & ?).
  split; [reflexivity|].
  split; [apply parse_strftime_iso; (assumption || lia)|].
  split; [apply parse_strftime_iso; (assumption || lia)|].
  split; [exact Hvd|exact Hord].
Qed.

(** Before the eighth day of the calendar even the shortest period
    leaves it, and the subtraction raises. *)
Lemma resolve_with_overflow fmt now off :
  valid now -> toordinal now <= off ->
  resolve_with fmt off now = Raise (OverflowError "date value out of range").
Proof.
  intros Hv Hoff. unfold resolve_with.
  rewrite (sub_days_overflow now (mktimedelta off 0 0) Hv eq_refl eq_refl Hoff).
  reflexivity.
Qed.

Lemma strftime_date a b fmt :
  date_of a = date_of b -> hour a = hour b -> minute a = minute b ->
  second a = second b -> strftime a fmt = strftime b fmt.
Proof.
  destruct a, b. cbn. intros H -> -> ->. injection H as -> -> ->.
  unfold strftime. generalize false.
  induction fmt as [|c fmt IH]; intros pct; cbn [strftime_from]; [reflexivity|].
  rewrite !IH. reflexivity.
Qed.

(** The dates of the result depend on the date of [now] alone. *)
Lemma resolve_with_date now off :
  valid now -> 0 <= off < toordinal now ->
  resolve_with "%Y-%m-%d" off now
  = let '(y, m, d) := _ord2ymd (toordinal now - off) in
    Ok (strftime (mkdatetime y m d 0 0 0 0) "%Y-%m-%d",
        strftime (mkdatetime (year now) (month now) (day now) 0 0 0 0) "%Y-%m-%d").
Proof.
  intros Hv Hoff.
  destruct (sub_days now (mktimedelta off 0 0) Hv eq_refl eq_refl Hoff)
    as (start & Hsub & _ & _ & Hdate).
  unfold resolve_with. rewrite Hsub. cbn [bind td_days] in *.
  rewrite <- Hdate. unfold date_of.
  destruct start, now; reflexivity.
Qed.

Lemma range_ordered now off r :
  valid now -> 0 <= off -> range_of_offset now off r -> ordered_range now off r.
Proof.
  intros [Hv _] Hoff (s & e & y & m & d & Hr & Hs & He & Hd & Hord).
  exists s, e, (y, m, d), (date_of now).
  repeat split; try assumption.
  apply ymd2ord_le_date_le; try assumption.
  fold (toordinal now). lia.
Qed.

Lemma valid_d20240315 : valid d20240315.
Proof. repeat split; vm_compute; (reflexivity || discriminate). Qed.

Lemma valid_d20240229 : valid d20240229.
Proof. repeat split; vm_compute; (reflexivity || discriminate). Qed.

End Resolver.

(** ** The date ranges of the variants *)

(** C1: for every reference date [now] from which the offset can be
    subtracted inside the calendar, the earlier date being in the year
    1000 or later, the resolvers of [share.py] and [hello.py] map
    "last_week" to 7 days, "last_4_weeks" to 28 days (four weeks),
    "last_3_months" to 90 days and "last_6_months" to 180 days before
    [now], and return the ISO format of that earlier date paired with the
    ISO format of [now]; on 2024-03-15, at any time of day,
    "last_6_months" gives ("2023-09-17", "2024-03-15"). *)
Theorem C1_period_offsets (now : datetime) (p : string) (off : Z)
    (Hv : valid now) (Hp : In (p, off) offsets_4) (Ho : off < toordinal now)
    (Hy : 1000 <= start_year now off) :
  range_of_offset now off (Share.get_date_range p now)
  /\ range_of_offset now off (Hello.get_date_range p now)
  /\ offsets_4 = [ ("last_week", 7); ("last_4_weeks", 4 * 7);
                   ("last_3_months", 90); ("last_6_months", 180) ]
  /\ (date_of now = (2024, 3, 15) ->
      Share.get_date_range "last_6_months" now = Ok ("2023-09-17", "2024-03-15")
      /\ Hello.get_date_range "last_6_months" now
         = Ok ("2023-09-17", "2024-03-15")).
Proof.
  pose proof (offsets_4_offset p off Hp) as E.
  pose proof (offset_4_range p) as R.
  rewrite share_resolve, hello_resolve, <- E.
  split; [apply resolve_with_range; [assumption | lia | assumption]|].
  split; [apply resolve_with_range; [assumption | lia | assumption]|].
  split; [reflexivity|].
  intros D. rewrite share_resolve, hello_resolve.
  assert (T : toordinal now = 738960).
  { unfold toordinal, date_of in *. injection D as -> -> ->. reflexivity. }
  change (offset_4 "last_6_months") with 180.
  rewrite resolve_with_date by (try assumption; lia).
  rewrite T. unfold date_of in D. injection D as -> -> ->.
  split; reflexivity.
Qed.

Lemma C1_period_offsets_witness :
  valid d20240315 /\ In ("last_6_months", 180) offsets_4
  /\ 180 < toordinal d20240315
  /\ 1000 <= start_year d20240315 180
  /\ range_of_offset d20240315 180
       (Share.get_date_range "last_6_months" d20240315)
  /\ Share.get_date_range "last_6_months" d20240315
     = Ok ("2023-09-17", "2024-03-15").
Proof.
  assert (Hv : valid d20240315)
    by (repeat split; vm_compute; (reflexivity || discriminate)).
  assert (Hp : In ("last_6_months", 180) offsets_4) by (simpl; tauto).
  assert (Ho : 180 < toordinal d20240315) by (vm_compute; reflexivity).
  assert (Hy : 1000 <= start_year d20240315 180) by (vm_compute; discriminate).
  pose proof (C1_period_offsets d20240315 "last_6_months" 180 Hv Hp Ho Hy)
    as (H1 & _ & _ & H4).
  split; [exact Hv|]. split; [exact Hp|]. split; [exact Ho|].
  split; [exact Hy|]. split; [exact H1|]. apply (H4 eq_refl).
Defined.

(** C2: a period name outside a variant's enumeration never makes the
    resolver fail on its own: for every such string and every reference
    date the call returns exactly what the call with "last_week" returns,
    and from the eighth day of the calendar on, the date seven days
    earlier being in the year 1000 or later, that is the range of the
    7-day default. *)
Theorem C2_unrecognized_period_defaults (p : string) (now : datetime) :
  (~ In p (map fst offsets_4) ->
     Share.get_date_range p now = Share.get_date_range "last_week" now
     /\ Hello.get_date_range p now = Hello.get_date_range "last_week" now
     /\ (valid now -> 7 < toordinal now -> 1000 <= start_year now 7 ->
         range_of_offset now 7 (Share.get_date_range p now)
         /\ range_of_offset now 7 (Hello.get_date_range p now)))
  /\ (~ In p (map fst offsets_3) ->
     Sshare.get_date_range p now = Sshare.get_date_range "last_week" now
     /\ (valid now -> 7 < toordinal now -> 1000 <= start_year now 7 ->
         range_of_offset now 7 (Sshare.get_date_range p now))).
Proof.
  split; intros Hp.
  - rewrite ?share_resolve, ?hello_resolve.
    rewrite (offset_4_default p Hp).
    change (offset_4 "last_week") with 7.
    repeat (split; [reflexivity|]).
    intros Hv Ho Hy. split; apply resolve_with_range; (assumption || lia).
  - rewrite !sshare_resolve, (offset_3_default p Hp).
    change (offset_3 "last_week") with 7.
    split; [reflexivity|].
    intros Hv Ho Hy. apply resolve_with_range; (assumption || lia).
Qed.

Lemma C2_unrecognized_period_defaults_witness :
  ~ In "bogus_value" (map fst offsets_4)
  /\ ~ In "bogus_value" (map fst offsets_3)
  /\ valid d20240315 /\ 7 < toordinal d20240315
  /\ 1000 <= start_year d20240315 7
  /\ Share.get_date_range "bogus_value" d20240315
     = Share.get_date_range "last_week" d20240315
  /\ Sshare.get_date_range "bogus_value" d20240315
     = Sshare.get_date_range "last_week" d20240315
  /\ range_of_offset d20240315 7 (Share.get_date_range "bogus_value" d20240315)
  /\ range_of_offset d20240315 7 (Sshare.get_date_range "bogus_value" d20240315).
Proof.
  assert (H4 : ~ In "bogus_value" (map fst offsets_4)).
  { simpl. intros H. repeat (destruct H as [H | H]; [discriminate H|]). exact H. }
  assert (H3 : ~ In "bogus_value" (map fst offsets_3)).
  { simpl. intros H. repeat (destruct H as [H | H]; [discriminate H|]). exact H. }
  assert (Hv : valid d20240315)
    by (repeat split; vm_compute; (reflexivity || discriminate)).
  assert (Ho : 7 < toordinal d20240315) by (vm_compute; reflexivity).
  assert (Hy : 1000 <= start_year d20240315 7) by (vm_compute; discriminate).
  destruct (C2_unrecognized_period_defaults "bogus_value" d20240315) as [A B].
  destruct (A H4) as (A1 & _ & A4). destruct (B H3) as (B1 & B2).
  split; [exact H4|]. split; [exact H3|]. split; [exact Hv|]. split; [exact Ho|].
  split; [exact Hy|]. split; [exact A1|]. split; [exact B1|].
  split; [exact (proj1 (A4 Hv Ho Hy))|exact (B2 Hv Ho Hy)].
Defined.

(** C3 (the code departs from it): in [shharee.py] the second component
    is not an ISO date.  With the clock on 2024-03-15 the call for
    "last_3_months" returns ("2023-12-16", "2024-m-15"): the month of the
    end date is the letter m, the string does not read as [YYYY-MM-DD]
    and is not the format of [now] that the three other variants give. *)
Theorem C3_shharee_end_date_not_iso :
  Shharee.get_date_range "last_3_months" d20240315
  = Ok ("2023-12-16", "2024-m-15")
  /\ parse_iso_date "2024-m-15" = None
  /\ "2024-m-15" <> strftime d20240315 "%Y-%m-%d"
  /\ Share.get_date_range "last_3_months" d20240315
     = Ok ("2023-12-16", "2024-03-15")
  /\ Hello.get_date_range "last_3_months" d20240315
     = Ok ("2023-12-16", "2024-03-15")
  /\ Sshare.get_date_range "three_months" d20240315
     = Ok ("2023-12-16", "2024-03-15").
Proof.
  repeat split; try (vm_compute; reflexivity).
  vm_compute. discriminate.
Qed.

(** In the three other variants both components are ISO dates and the
    second is the format of [now], whatever the period name, when the
    start is in the year 1000 or later. *)
Lemma iso_components_other_variants p now :
  valid now -> 180 < toordinal now ->
  1000 <= start_year now (offset_4 p) -> 1000 <= start_year now (offset_3 p) ->
  range_of_offset now (offset_4 p) (Share.get_date_range p now)
  /\ range_of_offset now (offset_4 p) (Hello.get_date_range p now)
  /\ range_of_offset now (offset_3 p) (Sshare.get_date_range p now).
Proof.
  intros Hv Ho Y4 Y3.
  pose proof (offset_4_range p). pose proof (offset_3_range p).
  rewrite share_resolve, hello_resolve, sshare_resolve.
  repeat split; apply resolve_with_range; (assumption || lia).
Qed.

(** In [shharee.py] the second component is never an ISO date. *)
Lemma shharee_end_never_iso p now r :
  Shharee.get_date_range p now = Ok r -> parse_iso_date (snd r) = None.
Proof.
  rewrite shharee_resolve. unfold resolve_with.
  destruct (sub now _) as [start|e]; [|discriminate].
  cbn [bind]. intros H. injection H as <-. cbn [snd].
  unfold strftime.
  cbn -[Z.div Z.modulo digit digit_val Z.mul Z.add year_digits zpad].
  unfold year_digits.
  destruct (year now <? 10); [|destruct (year now <? 100);
                               [|destruct (year now <? 1000)]];
    cbn -[Z.div Z.modulo digit digit_val Z.mul Z.add]; reflexivity.
Qed.

(** C4: for every period of a variant's enumeration and every reference
    date from which its offset can be subtracted, the earlier date being
    in the year 1000 or later, the range has its start not after its end
    as calendar dates, its end is the reference date, and its start lies
    before the end by the offset that the table gives to the period name
    alone. *)
Theorem C4_start_le_end (now : datetime) (p : string) (off : Z)
    (Hv : valid now) (Ho : off < toordinal now)
    (Hy : 1000 <= start_year now off) :
  (In (p, off) offsets_4 ->
     ordered_range now off (Share.get_date_range p now)
     /\ ordered_range now off (Hello.get_date_range p now)
     /\ off = offset_4 p)
  /\ (In (p, off) offsets_3 ->
     ordered_range now off (Sshare.get_date_range p now)
     /\ off = offset_3 p).
Proof.
  split; intros Hp.
  - pose proof (offsets_4_offset p off Hp) as E.
    pose proof (offset_4_range p) as R.
    rewrite share_resolve, hello_resolve, <- E.
    repeat split; try reflexivity;
      (apply range_ordered; [assumption | lia |]);
      apply resolve_with_range; (assumption || lia).
  - pose proof (offsets_3_offset p off Hp) as E.
    pose proof (offset_3_range p) as R.
    rewrite sshare_resolve, <- E.
    split; [|reflexivity].
    apply range_ordered; [assumption | lia |].
    apply resolve_with_range; (assumption || lia).
Qed.

Lemma C4_start_le_end_witness :
  valid d20240315 /\ 90 < toordinal d20240315
  /\ 1000 <= start_year d20240315 90
  /\ In ("last_3_months", 90) offsets_4
  /\ In ("three_months", 90) offsets_3
  /\ ordered_range d20240315 90 (Share.get_date_range "last_3_months" d20240315)
  /\ ordered_range d20240315 90 (Sshare.get_date_range "three_months" d20240315).
Proof.
  assert (Hv : valid d20240315)
    by (repeat split; vm_compute; (reflexivity || discriminate)).
  assert (Ho : 90 < toordinal d20240315) by (vm_compute; reflexivity).
  assert (Hy : 1000 <= start_year d20240315 90) by (vm_compute; discriminate).
  assert (H4 : In ("last_3_months", 90) offsets_4) by (simpl; tauto).
  assert (H3 : In ("three_months", 90) offsets_3) by (simpl; tauto).
  split; [exact Hv|]. split; [exact Ho|]. split; [exact Hy|].
  split; [exact H4|]. split; [exact H3|].
  split.
  - exact (proj1 (proj1 (C4_start_le_end d20240315 "last_3_months" 90 Hv Ho Hy)
                    H4)).
  - exact (proj1 (proj2 (C4_start_le_end d20240315 "three_months" 90 Hv Ho Hy)
                    H3)).
Defined.

(** C5: across the leap day the resolver subtracts calendar days.  On
    2024-02-29, at any time of day, "last_3_months" starts on
    "2023-12-01", the date exactly 90 days earlier (and not 2023-11-29,
    three months back); on 2024-03-15 it gives
    ("2023-12-16", "2024-03-15"). *)
Theorem C5_leap_year_subtraction (now : datetime) (Hv : valid now) :
  (date_of now = (2024, 2, 29) ->
     Share.get_date_range "last_3_months" now = Ok ("2023-12-01", "2024-02-29")
     /\ Hello.get_date_range "last_3_months" now
        = Ok ("2023-12-01", "2024-02-29")
     /\ _ymd2ord 2024 2 29 - _ymd2ord 2023 12 1 = 90
     /\ _ymd2ord 2024 2 29 - _ymd2ord 2023 11 29 <> 90)
  /\ (date_of now = (2024, 3, 15) ->
     Share.get_date_range "last_3_months" now = Ok ("2023-12-16", "2024-03-15")
     /\ Hello.get_date_range "last_3_months" now
        = Ok ("2023-12-16", "2024-03-15")
     /\ _ymd2ord 2024 3 15 - _ymd2ord 2023 12 16 = 90).
Proof.
  split; intros D; rewrite share_resolve, ?hello_resolve;
    change (offset_4 "last_3_months") with 90.
  - assert (T : toordinal now = 738945).
    { unfold toordinal, date_of in *. injection D as -> -> ->. reflexivity. }
    rewrite resolve_with_date by (try assumption; lia).
    rewrite T. unfold date_of in D. injection D as -> -> ->.
    repeat split; try reflexivity. vm_compute. discriminate.
  - assert (T : toordinal now = 738960).
    { unfold toordinal, date_of in *. injection D as -> -> ->. reflexivity. }
    rewrite resolve_with_date by (try assumption; lia).
    rewrite T. unfold date_of in D. injection D as -> -> ->.
    repeat split; reflexivity.
Qed.

Lemma C5_leap_year_subtraction_witness :
  valid d20240229 /\ date_of d20240229 = (2024, 2, 29)
  /\ Share.get_date_range "last_3_months" d20240229
     = Ok ("2023-12-01", "2024-02-29").
Proof.
  assert (Hv : valid d20240229)
    by (repeat split; vm_compute; (reflexivity || discriminate)).
  split; [exact Hv|]. split; [reflexivity|].
  exact (proj1 (proj1 (C5_leap_year_subtraction d20240229 Hv) eq_refl)).
Defined.

(** C6: the month-long period differs between the variants as the table
    says: "last_4_weeks" is 28 days (four times seven) where it is a tag,
    "one_month" is 30 days in [sshare.py], and in [sshare.py] every tag
    other than "last_week", "one_month" and "three_months", among them
    "last_4_weeks" and "last_6_months", is the 7-day default; this for
    every reference date whose date 30 days earlier is in the year 1000 or
    later. *)
Theorem C6_month_period_by_variant (now : datetime)
    (Hv : valid now) (Ho : 30 < toordinal now)
    (Hy : 1000 <= start_year now 30) :
  range_of_offset now (4 * 7) (Share.get_date_range "last_4_weeks" now)
  /\ range_of_offset now (4 * 7) (Hello.get_date_range "last_4_weeks" now)
  /\ range_of_offset now 30 (Sshare.get_date_range "one_month" now)
  /\ (forall p, p <> "last_week" -> p <> "one_month" -> p <> "three_months" ->
      Sshare.get_date_range p now = Sshare.get_date_range "last_week" now
      /\ range_of_offset now 7 (Sshare.get_date_range p now))
  /\ range_of_offset now 7 (Sshare.get_date_range "last_4_weeks" now)
  /\ range_of_offset now 7 (Sshare.get_date_range "last_6_months" now)
  /\ range_of_offset now 7 (Share.get_date_range "one_month" now).
Proof.
  pose proof (start_year_mono now 28 30 Hv ltac:(lia) Ho) as Y28.
  pose proof (start_year_mono now 7 30 Hv ltac:(lia) Ho) as Y7.
  rewrite !share_resolve, ?hello_resolve, !sshare_resolve.
  change (offset_4 "last_4_weeks") with 28.
  change (offset_4 "one_month") with 7.
  change (offset_3 "one_month") with 30.
  change (offset_3 "last_week") with 7.
  change (offset_3 "last_4_weeks") with 7.
  change (offset_3 "last_6_months") with 7.
  change (4 * 7) with 28.
  repeat (split; [apply resolve_with_range; (assumption || lia)|]).
  split; [|repeat split; apply resolve_with_range; (assumption || lia)].
  intros p H1 H2 H3. rewrite !sshare_resolve.
  assert (E : offset_3 p = 7).
  { apply offset_3_default. cbn [map fst offsets_3 In].
    intros [H | [H | [H | H]]]; congruence. }
  rewrite E. change (offset_3 "last_week") with 7.
  split; [reflexivity|]. apply resolve_with_range; (assumption || lia).
Qed.

Lemma C6_month_period_by_variant_witness :
  valid d20240315 /\ 30 < toordinal d20240315
  /\ 1000 <= start_year d20240315 30
  /\ range_of_offset d20240315 28
       (Share.get_date_range "last_4_weeks" d20240315)
  /\ range_of_offset d20240315 30
       (Sshare.get_date_range "one_month" d20240315)
  /\ range_of_offset d20240315 7
       (Sshare.get_date_range "last_4_weeks" d20240315).
Proof.
  assert (Hv : valid d20240315)
    by (repeat split; vm_compute; (reflexivity || discriminate)).
  assert (Ho : 30 < toordinal d20240315) by (vm_compute; reflexivity).
  assert (Hy : 1000 <= start_year d20240315 30) by (vm_compute; discriminate).
  destruct (C6_month_period_by_variant d20240315 Hv Ho Hy)
    as (H1 & _ & H3 & _ & H5 & _).
  split; [exact Hv|]. split; [exact Ho|]. split; [exact Hy|].
  split; [exact H1|]. split; [exact H3|exact H5].
Defined.

Example share_last_4_weeks :
  Share.get_date_range "last_4_weeks" d20240315 = Ok ("2024-02-16", "2024-03-15").
Proof. vm_compute. reflexivity. Qed.

Example sshare_one_month :
  Sshare.get_date_range "one_month" d20240315 = Ok ("2024-02-14", "2024-03-15").
Proof. vm_compute. reflexivity. Qed.

Example sshare_last_6_months :
  Sshare.get_date_range "last_6_months" d20240315 = Ok ("2024-03-08", "2024-03-15").
Proof. vm_compute. reflexivity. Qed.

Example share_first_week_of_calendar :
  Share.get_date_range "last_week" (mkdatetime 1 1 5 0 0 0 0)
  = Raise (OverflowError "date value out of range").
Proof. vm_compute. reflexivity. Qed.

(** Below the year 1000 the year is written without padding, and the
    strings are no longer of the shape YYYY-MM-DD. *)
Example hello_year_999 :
  Hello.get_date_range "last_6_months" (mkdatetime 999 12 31 8 0 0 0)
  = Ok ("999-07-04", "999-12-31").
Proof. vm_compute. reflexivity. Qed.

Example share_year_1 :
  Share.get_date_range "last_week" (mkdatetime 1 1 8 0 0 0 0)
  = Ok ("1-01-01", "1-01-08").
Proof. vm_compute. reflexivity. Qed.

(** ** The news fetch *)

Section Fetch.

Lemma searches_app a b : searches (a +++ b) = (searches a ++ searches b)%list.
Proof.
  induction a as [|[c m | r] a IH]; cbn [app searches]; [reflexivity | exact IH |].
  rewrite IH. reflexivity.
Qed.

Lemma searches_print_articles i l : searches (Share.print_articles i l) = [].
Proof.
  revert i. induction l as [|a l IH]; intros i; [reflexivity|].
  cbn [Share.print_articles app searches]. apply IH.
Qed.

Lemma firstn_prefix {A} n (l : list A) :
  (List.length (firstn n l) <= n)%nat
  /\ (exists rest, l = firstn n l ++ rest)%list
  /\ ((List.length l <= n)%nat -> firstn n l = l).
Proof.
  split; [apply firstn_le_length|].
  split; [exists (skipn n l); symmetry; apply firstn_skipn|].
  apply firstn_all2.
Qed.

Lemma share_searches key api stock_list from_date to_date :
  key <> "YOUR_API_KEY_HERE" -> stock_list <> [] ->
  searches (fst (Share.fetch_news_for_stocks_with key api stock_list
                   from_date to_date))
  = [ mkrequest key (or_query (firstn 15 stock_list)) from_date to_date
        "en" "publishedAt" 20 ].
Proof.
  intros Hk Hl. unfold Share.fetch_news_for_stocks_with.
  destruct (String.eqb_spec key "YOUR_API_KEY_HERE") as [E | _]; [contradiction|].
  destruct stock_list as [|s0 l]; [contradiction|].
  set (sl := s0 :: l).
  destruct (api _) as [r | e]; [destruct (_ =? 0)|]; cbn [fst];
    rewrite ?searches_app, ?searches_print_articles;
    try (destruct (contains _ e); [|destruct (contains _ e)]); reflexivity.
Qed.

Lemma hello_searches key api stock_list from_date to_date :
  key <> "" -> stock_list <> [] ->
  searches (fst (Hello.fetch_news_for_stocks api (Some key) stock_list
                   from_date to_date))
  = [ mkrequest key (or_query (firstn 15 stock_list)) from_date to_date
        "en" "publishedAt" 50 ].
Proof.
  intros Hk Hl. unfold Hello.fetch_news_for_stocks, Hello.key_given.
  destruct (String.eqb_spec key "") as [E | _]; [contradiction|].
  destruct stock_list as [|s0 l]; [contradiction|].
  change (firstn 15 (s0 :: l)) with (s0 :: firstn 14 l). cbv iota beta.
  destruct (api _) as [r | e]; [destruct (_ =? 0)|]; reflexivity.
Qed.

Lemma sshare_searches key api stock_list from_date to_date :
  key <> "" -> stock_list <> [] ->
  searches (fst (Sshare.fetch_news_for_stocks api (Some key) stock_list
                   from_date to_date))
  = [ mkrequest key (or_query (firstn 15 stock_list)) from_date to_date
        "en" "publishedAt" 50 ].
Proof.
  intros Hk Hl. unfold Sshare.fetch_news_for_stocks, Sshare.key_given.
  destruct (String.eqb_spec key "") as [E | _]; [contradiction|].
  destruct stock_list as [|s0 l]; [contradiction|].
  set (sl := s0 :: l).
  destruct (api _) as [r | e]; [destruct (_ =? 0)|]; cbn [fst];
    rewrite ?searches_app;
    try (destruct (contains _ e); [|destruct (contains _ e)]); reflexivity.
Qed.

End Fetch.

(** C7: for every non-empty stock list, once a key is given, each
    variant makes one search whose query is the OR of the first 15
    symbols of the list at most, in list order, inside one group, AND the
    group (stock OR market OR NSE OR BSE); a list of 15 symbols or fewer
    is taken whole. *)
Theorem C7_query_of_first_15 (api : news_api) (key : string)
    (stock_list : list string) (from_date to_date : string)
    (Hl : stock_list <> []) :
  let symbols := firstn 15 stock_list in
  (List.length symbols <= 15)%nat
  /\ (exists rest, stock_list = symbols ++ rest)%list
  /\ ((List.length stock_list <= 15)%nat -> symbols = stock_list)
  /\ or_query symbols
     = "(" ++ String.concat " OR " symbols ++ ") AND " ++ KEYWORDS
  /\ (key <> Share.NEWS_API_KEY ->
      map q (searches (fst (Share.fetch_news_for_stocks_with key api stock_list
                              from_date to_date)))
      = [ or_query symbols ])
  /\ (key <> "" ->
      map q (searches (fst (Hello.fetch_news_for_stocks api (Some key)
                              stock_list from_date to_date)))
      = [ or_query symbols ]
      /\ map q (searches (fst (Sshare.fetch_news_for_stocks api (Some key)
                                 stock_list from_date to_date)))
         = [ or_query symbols ]).
Proof.
  intros symbols.
  destruct (firstn_prefix 15 stock_list) as (L & P & A).
  split; [exact L|]. split; [exact P|]. split; [exact A|].
  split; [reflexivity|].
  split; intros Hk.
  - rewrite share_searches by assumption. reflexivity.
  - rewrite hello_searches, sshare_searches by assumption. split; reflexivity.
Qed.

Lemma C7_query_of_first_15_witness :
  sixteen <> [] /\ "k" <> ""
  /\ map q (searches (fst (Hello.fetch_news_for_stocks no_articles (Some "k")
                             sixteen "2024-03-08" "2024-03-15")))
     = [ "(S01 OR S02 OR S03 OR S04 OR S05 OR S06 OR S07 OR S08 OR S09 OR S10 OR S11 OR S12 OR S13 OR S14 OR S15) AND (stock OR market OR NSE OR BSE)" ].
Proof.
  assert (Hl : sixteen <> []) by (vm_compute; discriminate).
  assert (Hk : "k" <> "") by (vm_compute; discriminate).
  split; [exact Hl|]. split; [exact Hk|].
  destruct (C7_query_of_first_15 no_articles "k" sixteen
              "2024-03-08" "2024-03-15" Hl)
    as (_ & _ & _ & _ & _ & H).
  exact (proj1 (H Hk)).
Defined.

(** C8 (amended): when no key is supplied the fetch returns without a
    search, where "no key" is what each script tests: in [hello.py] and
    [sshare.py] a key that is absent or empty yields the error message and
    the empty list; in [share.py], which takes no key argument, the module
    variable still holding its placeholder makes the fetch print the
    notice and return.  This for every stock list, date range and search
    service. *)
Theorem C8_missing_key_blocks_search (api : news_api) (key : option string)
    (module_key : string) (stock_list : list string)
    (from_date to_date : string)
    (Hk : key = None \/ key = Some "")
    (Hm : module_key = Share.NEWS_API_KEY) :
  Hello.fetch_news_for_stocks api key stock_list from_date to_date
  = ([ Show "st.sidebar.error" "API key is missing. Please enter it above." ], [])
  /\ Sshare.fetch_news_for_stocks api key stock_list from_date to_date
     = ([ Show "st.sidebar.error" "API key is missing. Please enter it above." ], [])
  /\ searches (fst (Hello.fetch_news_for_stocks api key stock_list
                      from_date to_date)) = []
  /\ searches (fst (Sshare.fetch_news_for_stocks api key stock_list
                      from_date to_date)) = []
  /\ searches (fst (Share.fetch_news_for_stocks_with module_key api stock_list
                      from_date to_date)) = []
  /\ Share.fetch_news_for_stocks_with module_key api stock_list
       from_date to_date
     = ([ Show "print" "==================================================";
          Show "print" "ERROR: Please update the 'NEWS_API_KEY' variable";
          Show "print"
            "in the CONFIG section (line 21) with your key from newsapi.org.";
          Show "print" "==================================================" ],
        tt)
  /\ Share.fetch_news_for_stocks api stock_list from_date to_date
     = Share.fetch_news_for_stocks_with module_key api stock_list
         from_date to_date.
Proof.
  subst module_key. destruct Hk as [-> | ->]; repeat split.
Qed.

Lemma C8_missing_key_blocks_search_witness :
  (Some "" = None \/ Some "" = Some "")
  /\ "YOUR_API_KEY_HERE" = Share.NEWS_API_KEY
  /\ searches (fst (Hello.fetch_news_for_stocks no_articles (Some "") sixteen
                      "2024-03-08" "2024-03-15")) = []
  /\ searches (fst (Share.fetch_news_for_stocks_with "YOUR_API_KEY_HERE"
                      no_articles sixteen "2024-03-08" "2024-03-15")) = [].
Proof.
  assert (Hk : Some "" = None \/ Some "" = Some "") by (right; reflexivity).
  assert (Hm : "YOUR_API_KEY_HERE" = Share.NEWS_API_KEY) by reflexivity.
  destruct (C8_missing_key_blocks_search no_articles (Some "")
              "YOUR_API_KEY_HERE" sixteen "2024-03-08" "2024-03-15" Hk Hm)
    as (_ & _ & H & _ & H' & _).
  split; [exact Hk|]. split; [exact Hm|]. split; [exact H|exact H'].
Defined.

(** C8 as it was stated fails in [share.py]: its guard compares the module
    variable with the placeholder only, so an empty key passes it and the
    search service is called with that empty key. *)
Lemma C8_share_empty_key_is_searched :
  searches (fst (Share.fetch_news_for_stocks_with "" no_articles [ "TCS" ]
                   "2024-03-08" "2024-03-15"))
  = [ mkrequest "" "(TCS) AND (stock OR market OR NSE OR BSE)"
        "2024-03-08" "2024-03-15" "en" "publishedAt" 20 ]
  /\ searches (fst (Share.fetch_news_for_stocks_with "" no_articles [ "TCS" ]
                      "2024-03-08" "2024-03-15")) <> [].
Proof.
  split; [vm_compute; reflexivity | vm_compute; discriminate].
Qed.

(** C9: with an empty stock list the fetch stops before any search and
    returns an empty result, for every key and date range: the empty list
    of articles in [hello.py] and [sshare.py], nothing in [share.py]. *)
Theorem C9_empty_list_blocks_search (api : news_api) (key : option string)
    (module_key : string) (from_date to_date : string) :
  searches (fst (Hello.fetch_news_for_stocks api key [] from_date to_date)) = []
  /\ snd (Hello.fetch_news_for_stocks api key [] from_date to_date) = []
  /\ searches (fst (Sshare.fetch_news_for_stocks api key [] from_date to_date))
     = []
  /\ snd (Sshare.fetch_news_for_stocks api key [] from_date to_date) = []
  /\ searches (fst (Share.fetch_news_for_stocks_with module_key api []
                      from_date to_date)) = []
  /\ snd (Share.fetch_news_for_stocks_with module_key api [] from_date to_date)
     = tt
  /\ (forall k, key = Some k -> k <> "" ->
      Hello.fetch_news_for_stocks api key [] from_date to_date
      = ([ Show "st.warning" "No stock list provided. Skipping news fetch." ], [])
      /\ Sshare.fetch_news_for_stocks api key [] from_date to_date
         = ([ Show "st.warning" "No stock list provided. Skipping news fetch." ],
            [])).
Proof.
  unfold Hello.fetch_news_for_stocks, Sshare.fetch_news_for_stocks,
    Share.fetch_news_for_stocks_with.
  assert (Last : forall k, key = Some k -> k <> "" ->
            Hello.key_given key = Some k /\ Sshare.key_given key = Some k).
  { intros k -> Hk. cbn. destruct (String.eqb_spec k ""); [contradiction|].
    split; reflexivity. }
  split; [destruct (Hello.key_given key); reflexivity|].
  split; [destruct (Hello.key_given key); reflexivity|].
  split; [destruct (Sshare.key_given key); reflexivity|].
  split; [destruct (Sshare.key_given key); reflexivity|].
  split; [destruct (module_key =? _)%string; reflexivity|].
  split; [destruct (module_key =? _)%string; reflexivity|].
  intros k Hkey Hk. destruct (Last k Hkey Hk) as [-> ->].
  split; reflexivity.
Qed.

Lemma C9_empty_list_blocks_search_witness :
  Some "k" = Some "k" /\ "k" <> ""
  /\ Hello.fetch_news_for_stocks no_articles (Some "k") []
       "2024-03-08" "2024-03-15"
     = ([ Show "st.warning" "No stock list provided. Skipping news fetch." ], []).
Proof.
  assert (Hk : "k" <> "") by (vm_compute; discriminate).
  split; [reflexivity|]. split; [exact Hk|].
  destruct (C9_empty_list_blocks_search no_articles (Some "k") "k"
              "2024-03-08" "2024-03-15") as (_ & _ & _ & _ & _ & _ & H).
  exact (proj1 (H "k" eq_refl Hk)).
Defined.

(** ** The sentiment label *)

Section SentimentLabel.

(** No score is at once at least 0.05 and at most -0.05. *)
Lemma thresholds_disjoint c :
  (0.05 <=? c)%float = true -> (c <=? -0.05)%float = false.
Proof.
  rewrite !leb_spec.
  assert (P : exists m e, Prim2SF 0.05 = S754_finite false m e).
  { eexists _, _. vm_compute. reflexivity. }
  assert (N : exists m e, Prim2SF (-0.05) = S754_finite true m e).
  { eexists _, _. vm_compute. reflexivity. }
  destruct P as (mp & ep & ->). destruct N as (mn & en & ->).
  unfold SFleb, SFcompare.
  destruct (Prim2SF c) as [s | s | | s m e];
    try destruct s; try discriminate; reflexivity.
Qed.

End SentimentLabel.

(** C10: for every compound score the label is one of Positive, Negative
    and Neutral, and the thresholds are inclusive: Positive exactly when
    the score is at least 0.05, Negative exactly when it is at most -0.05,
    Neutral exactly when it is neither; the scores 0.05 and -0.05
    themselves are Positive and Negative. *)
Theorem C10_sentiment_thresholds (compound_of : string -> float) (text : string) :
  let compound := compound_of text in
  let label := fst (Hello.get_sentiment compound_of text) in
  (label = "Positive" <-> (0.05 <=? compound)%float = true)
  /\ (label = "Negative" <-> (compound <=? -0.05)%float = true)
  /\ (label = "Neutral" <->
      (0.05 <=? compound)%float = false /\ (compound <=? -0.05)%float = false)
  /\ (label = "Positive" \/ label = "Negative" \/ label = "Neutral")
  /\ Hello.get_sentiment (fun _ => 0.05%float) text = ("Positive", "🟢")
  /\ Hello.get_sentiment (fun _ => (-0.05)%float) text = ("Negative", "🔴")
  /\ Hello.get_sentiment (fun _ => 0.049%float) text = ("Neutral", "⚪")
  /\ Hello.get_sentiment (fun _ => (-0.049)%float) text = ("Neutral", "⚪").
Proof.
  cbv zeta. unfold Hello.get_sentiment.
  pose proof (thresholds_disjoint (compound_of text)) as D.
  destruct (0.05 <=? compound_of text)%float eqn:P;
    [rewrite (D eq_refl) | destruct (compound_of text <=? -0.05)%float eqn:N];
    cbn [fst];
    (split; [split; (discriminate || reflexivity || (intros; discriminate))|]);
    (split; [split; (discriminate || reflexivity || (intros; discriminate))|]);
    (split; [split; try discriminate; try (intros [? ?]; discriminate);
             try (intros; split; reflexivity)|]);
    (split; [tauto|]);
    repeat split.
Qed.

(** * Further properties of the scripts *)

(** ** The resolver at the edges of its domain *)

Section ResolverEdges.

Lemma resolve_with_ok fmt now off :
  valid now -> 0 <= off < toordinal now ->
  exists start,
    valid start
    /\ toordinal start = toordinal now - off
    /\ date_of start = _ord2ymd (toordinal now - off)
    /\ resolve_with fmt off now
       = Ok (strftime start "%Y-%m-%d", strftime now fmt).
Proof.
  intros Hv Hoff.
  destruct (sub_days now (mktimedelta off 0 0) Hv eq_refl eq_refl Hoff)
    as (start & Hsub & Hvs & Hord & Hdate).
  exists start. unfold resolve_with. rewrite Hsub.
  repeat split; try assumption; apply Hvs.
Qed.

Lemma resolve_with_raises_iff fmt now off :
  valid now -> 0 <= off ->
  (exists e, resolve_with fmt off now = Raise e) <-> toordinal now <= off.
Proof.
  intros Hv Hoff. split.
  - intros [e He].
    destruct (Z_lt_le_dec off (toordinal now)) as [Lt | Le]; [|exact Le].
    destruct (resolve_with_ok fmt now off Hv ltac:(lia)) as (st & _ & _ & _ & E).
    rewrite E in He. discriminate.
  - intros Le. eexists. apply resolve_with_overflow; assumption.
Qed.

Lemma strftime_iso_date_only a b :
  date_of a = date_of b -> strftime a "%Y-%m-%d" = strftime b "%Y-%m-%d".
Proof.
  destruct a, b. cbn. intros H. injection H as -> -> ->. reflexivity.
Qed.

Lemma strftime_shharee_date_only a b :
  date_of a = date_of b -> strftime a "%Y-m-%d" = strftime b "%Y-m-%d".
Proof.
  destruct a, b. cbn. intros H. injection H as -> -> ->. reflexivity.
Qed.

Lemma toordinal_date_only a b : date_of a = date_of b -> toordinal a = toordinal b.
Proof.
  destruct a, b. cbn. intros H. injection H as -> -> ->. reflexivity.
Qed.

(** With either format of the scripts the result depends on the date of
    the clock alone. *)
Lemma resolve_with_date_only fmt off a b :
  (forall x y, date_of x = date_of y -> strftime x fmt = strftime y fmt) ->
  valid a -> valid b -> 0 <= off -> date_of a = date_of b ->
  resolve_with fmt off a = resolve_with fmt off b.
Proof.
  intros Hfmt Va Vb Hoff D.
  pose proof (toordinal_date_only a b D) as T.
  destruct (Z_lt_le_dec off (toordinal a)) as [Lt | Le].
  - destruct (resolve_with_ok fmt a off Va ltac:(lia)) as (sa & _ & _ & Da & Ea).
    destruct (resolve_with_ok fmt b off Vb ltac:(lia)) as (sb & _ & _ & Db & Eb).
    rewrite Ea, Eb. f_equal. f_equal.
    + apply strftime_iso_date_only. rewrite Da, Db, T. reflexivity.
    + apply Hfmt. exact D.
  - rewrite !resolve_with_overflow by (assumption || lia). reflexivity.
Qed.

End ResolverEdges.

(** X1: the resolver raises [OverflowError] exactly when the reference
    date lies within the first days of the calendar, no later than the
    period's offset after its beginning; every other valid date gives a
    result.  This holds in the four variants, for every period name. *)
Theorem X1_resolver_raises_iff (p : string) (now : datetime) (Hv : valid now) :
  ((exists e, Share.get_date_range p now = Raise e) <-> toordinal now <= offset_4 p)
  /\ ((exists e, Hello.get_date_range p now = Raise e)
      <-> toordinal now <= offset_4 p)
  /\ ((exists e, Shharee.get_date_range p now = Raise e)
      <-> toordinal now <= offset_4 p)
  /\ ((exists e, Sshare.get_date_range p now = Raise e)
      <-> toordinal now <= offset_3 p).
Proof.
  pose proof (offset_4_range p). pose proof (offset_3_range p).
  rewrite share_resolve, ?hello_resolve, shharee_resolve, sshare_resolve.
  repeat split; apply resolve_with_raises_iff; (assumption || lia).
Qed.

Lemma X1_resolver_raises_iff_witness :
  valid (mkdatetime 1 1 5 12 0 0 0)
  /\ exists e, Share.get_date_range "last_week" (mkdatetime 1 1 5 12 0 0 0)
               = Raise e.
Proof.
  assert (Hv : valid (mkdatetime 1 1 5 12 0 0 0))
    by (repeat split; vm_compute; (reflexivity || discriminate)).
  split; [exact Hv|].
  apply (proj1 (X1_resolver_raises_iff "last_week" _ Hv)).
  vm_compute. discriminate.
Defined.

(** X2: the result of the resolver depends on the calendar date of the
    clock only: two valid readings on the same day, at any two times of
    day, give the same result, in the four variants. *)
Theorem X2_resolver_ignores_time_of_day (p : string) (a b : datetime)
    (Va : valid a) (Vb : valid b) (D : date_of a = date_of b) :
  Share.get_date_range p a = Share.get_date_range p b
  /\ Hello.get_date_range p a = Hello.get_date_range p b
  /\ Sshare.get_date_range p a = Sshare.get_date_range p b
  /\ Shharee.get_date_range p a = Shharee.get_date_range p b.
Proof.
  pose proof (offset_4_range p). pose proof (offset_3_range p).
  rewrite !share_resolve, ?hello_resolve, !sshare_resolve, !shharee_resolve.
  repeat split; apply resolve_with_date_only;
    try assumption; try lia;
    (apply strftime_iso_date_only || apply strftime_shharee_date_only).
Qed.

Lemma X2_resolver_ignores_time_of_day_witness :
  valid d20240315 /\ valid (mkdatetime 2024 3 15 23 59 59 999999)
  /\ Share.get_date_range "last_3_months" d20240315
     = Share.get_date_range "last_3_months" (mkdatetime 2024 3 15 23 59 59 999999).
Proof.
  assert (Va : valid d20240315)
    by (repeat split; vm_compute; (reflexivity || discriminate)).
  assert (Vb : valid (mkdatetime 2024 3 15 23 59 59 999999))
    by (repeat split; vm_compute; (reflexivity || discriminate)).
  split; [exact Va|]. split; [exact Vb|].
  exact (proj1 (X2_resolver_ignores_time_of_day "last_3_months" _ _ Va Vb eq_refl)).
Defined.

Section Nesting.

Lemma resolve_with_nested off1 off2 now :
  valid now -> 0 <= off1 <= off2 -> off2 < toordinal now ->
  1000 <= start_year now off2 ->
  exists s1 s2 e d1 d2,
    resolve_with "%Y-%m-%d" off1 now = Ok (s1, e)
    /\ resolve_with "%Y-%m-%d" off2 now = Ok (s2, e)
    /\ parse_iso_date s1 = Some d1 /\ parse_iso_date s2 = Some d2
    /\ parse_iso_date e = Some (date_of now)
    /\ date_le d2 d1 /\ date_le d1 (date_of now).
Proof.
  intros Hv H12 H2 Hy.
  destruct (resolve_with_ok "%Y-%m-%d" now off1 Hv ltac:(lia))
    as (st1 & Vs1 & O1 & D1 & E1).
  destruct (resolve_with_ok "%Y-%m-%d" now off2 Hv ltac:(lia))
    as (st2 & Vs2 & O2 & D2 & E2).
  pose proof (start_year_mono now off1 off2 Hv H12 H2) as Ym.
  assert (Y2 : 1000 <= year st2).
  { unfold start_year in Hy. rewrite <- D2 in Hy. exact Hy. }
  assert (Y1 : 1000 <= year st1).
  { unfold start_year in Ym, Hy. rewrite <- D1 in Ym. cbn [date_of fst] in Ym.
    lia. }
  pose proof (start_year_le_now now off1 st1 Hv Vs1 ltac:(lia) O1) as Yn.
  destruct Vs1 as [V1 _]. destruct Vs2 as [V2 _].
  pose proof (valid_date_fields _ _ _ V1) as (? & ? & ?).
  pose proof (valid_date_fields _ _ _ V2) as (? & ? & ?).
  pose proof (valid_date_fields _ _ _ (proj1 Hv)) as (? & ? & ?).
  exists (strftime st1 "%Y-%m-%d"), (strftime st2 "%Y-%m-%d"),
    (strftime now "%Y-%m-%d"), (date_of st1), (date_of st2).
  split; [exact E1|]. split; [exact E2|].
  split; [apply parse_strftime_iso; (assumption || lia)|].
  split; [apply parse_strftime_iso; (assumption || lia)|].
  split; [apply parse_strftime_iso; (assumption || lia)|].
  unfold toordinal in O1, O2.
  split; apply ymd2ord_le_date_le; try assumption; try apply Hv; lia.
Qed.

End Nesting.

(** X3: the ranges nest.  When a period has an offset no larger than
    another's, and the start of the longer one is in the year 1000 or
    later, both calls return the same end date, and the start of the
    longer period is not after the start of the shorter one, which is not
    after the end; so "last_6_months" contains "last_3_months", which
    contains "last_4_weeks", which contains "last_week". *)
Theorem X3_ranges_nest (short long : string) (now : datetime)
    (Hv : valid now) :
  (offset_4 short <= offset_4 long -> offset_4 long < toordinal now ->
   1000 <= start_year now (offset_4 long) ->
   exists s1 s2 e d1 d2,
     Share.get_date_range short now = Ok (s1, e)
     /\ Share.get_date_range long now = Ok (s2, e)
     /\ Hello.get_date_range short now = Ok (s1, e)
     /\ Hello.get_date_range long now = Ok (s2, e)
     /\ parse_iso_date s1 = Some d1 /\ parse_iso_date s2 = Some d2
     /\ parse_iso_date e = Some (date_of now)
     /\ date_le d2 d1 /\ date_le d1 (date_of now))
  /\ (offset_3 short <= offset_3 long -> offset_3 long < toordinal now ->
     1000 <= start_year now (offset_3 long) ->
     exists s1 s2 e d1 d2,
       Sshare.get_date_range short now = Ok (s1, e)
       /\ Sshare.get_date_range long now = Ok (s2, e)
       /\ parse_iso_date s1 = Some d1 /\ parse_iso_date s2 = Some d2
       /\ parse_iso_date e = Some (date_of now)
       /\ date_le d2 d1 /\ date_le d1 (date_of now))
  /\ offset_4 "last_week" <= offset_4 "last_4_weeks"
     <= offset_4 "last_3_months"
  /\ offset_4 "last_3_months" <= offset_4 "last_6_months"
  /\ offset_3 "last_week" <= offset_3 "one_month" <= offset_3 "three_months".
Proof.
  split; [|split; [|vm_compute; intuition discriminate]].
  - intros H12 H2 Hy. pose proof (offset_4_range short).
    destruct (resolve_with_nested (offset_4 short) (offset_4 long) now Hv
                ltac:(lia) H2 Hy)
      as (s1 & s2 & e & d1 & d2 & E1 & E2 & R).
    exists s1, s2, e, d1, d2.
    rewrite !share_resolve, ?hello_resolve.
    split; [exact E1|]. split; [exact E2|]. split; [exact E1|].
    split; [exact E2|]. exact R.
  - intros H12 H2 Hy. pose proof (offset_3_range short).
    destruct (resolve_with_nested (offset_3 short) (offset_3 long) now Hv
                ltac:(lia) H2 Hy)
      as (s1 & s2 & e & d1 & d2 & E1 & E2 & R).
    exists s1, s2, e, d1, d2.
    rewrite !sshare_resolve.
    split; [exact E1|]. split; [exact E2|]. exact R.
Qed.

Lemma X3_ranges_nest_witness :
  valid d20240315
  /\ offset_4 "last_3_months" <= offset_4 "last_6_months"
  /\ offset_4 "last_6_months" < toordinal d20240315
  /\ 1000 <= start_year d20240315 (offset_4 "last_6_months")
  /\ exists s1 s2 e d1 d2,
       Share.get_date_range "last_3_months" d20240315 = Ok (s1, e)
       /\ Share.get_date_range "last_6_months" d20240315 = Ok (s2, e)
       /\ parse_iso_date s1 = Some d1 /\ parse_iso_date s2 = Some d2
       /\ date_le d2 d1 /\ date_le d1 (date_of d20240315).
Proof.
  assert (Hv : valid d20240315)
    by (repeat split; vm_compute; (reflexivity || discriminate)).
  assert (H1 : offset_4 "last_3_months" <= offset_4 "last_6_months")
    by (vm_compute; discriminate).
  assert (H2 : offset_4 "last_6_months" < toordinal d20240315)
    by (vm_compute; reflexivity).
  assert (Hy : 1000 <= start_year d20240315 (offset_4 "last_6_months"))
    by (vm_compute; discriminate).
  split; [exact Hv|]. split; [exact H1|]. split; [exact H2|]. split; [exact Hy|].
  destruct (proj1 (X3_ranges_nest "last_3_months" "last_6_months" d20240315 Hv)
              H1 H2 Hy)
    as (s1 & s2 & e & d1 & d2 & A & B & _ & _ & P1 & P2 & _ & L1 & L2).
  exists s1, s2, e, d1, d2.
  split; [exact A|]. split; [exact B|]. split; [exact P1|].
  split; [exact P2|]. split; [exact L1|exact L2].
Defined.

(** ** The news fetch, further *)

Section FetchMore.

Lemma hello_key_given key k :
  Hello.key_given key = Some k -> key = Some k /\ k <> "".
Proof.
  destruct key as [k'|]; cbn; [|discriminate].
  destruct (String.eqb_spec k' ""); [discriminate|].
  intros H. injection H as <-. split; [reflexivity|assumption].
Qed.

Lemma sshare_key_given key k :
  Sshare.key_given key = Some k -> key = Some k /\ k <> "".
Proof.
  destruct key as [k'|]; cbn; [|discriminate].
  destruct (String.eqb_spec k' ""); [discriminate|].
  intros H. injection H as <-. split; [reflexivity|assumption].
Qed.

(** Every call makes one search or none. *)
Lemma hello_searches_any api key stock_list from_date to_date :
  searches (fst (Hello.fetch_news_for_stocks api key stock_list
                   from_date to_date))
  = match Hello.key_given key, stock_list with
    | Some k, _ :: _ => [ request_of k 50 stock_list from_date to_date ]
    | _, _ => []
    end.
Proof.
  destruct (Hello.key_given key) as [k|] eqn:K.
  - destruct (hello_key_given key k K) as [-> Hk].
    destruct stock_list as [|s0 l].
    + unfold Hello.fetch_news_for_stocks. rewrite K. reflexivity.
    + apply hello_searches; [assumption | discriminate].
  - unfold Hello.fetch_news_for_stocks. rewrite K. reflexivity.
Qed.

Lemma sshare_searches_any api key stock_list from_date to_date :
  searches (fst (Sshare.fetch_news_for_stocks api key stock_list
                   from_date to_date))
  = match Sshare.key_given key, stock_list with
    | Some k, _ :: _ => [ request_of k 50 stock_list from_date to_date ]
    | _, _ => []
    end.
Proof.
  destruct (Sshare.key_given key) as [k|] eqn:K.
  - destruct (sshare_key_given key k K) as [-> Hk].
    destruct stock_list as [|s0 l].
    + unfold Sshare.fetch_news_for_stocks. rewrite K. reflexivity.
    + apply sshare_searches; [assumption | discriminate].
  - unfold Sshare.fetch_news_for_stocks. rewrite K. reflexivity.
Qed.

Lemma share_searches_any key api stock_list from_date to_date :
  searches (fst (Share.fetch_news_for_stocks_with key api stock_list
                   from_date to_date))
  = if (key =? "YOUR_API_KEY_HERE")%string then []
    else match stock_list with
         | [] => []
         | _ :: _ => [ request_of key 20 stock_list from_date to_date ]
         end.
Proof.
  destruct (String.eqb_spec key "YOUR_API_KEY_HERE") as [-> | Hk].
  - reflexivity.
  - destruct stock_list as [|s0 l].
    + unfold Share.fetch_news_for_stocks_with.
      destruct (String.eqb_spec key "YOUR_API_KEY_HERE"); [contradiction|].
      reflexivity.
    + apply share_searches; [assumption | discriminate].
Qed.

(** What a call returns, for every input. *)
Lemma hello_result_any api key stock_list from_date to_date :
  snd (Hello.fetch_news_for_stocks api key stock_list from_date to_date)
  = match Hello.key_given key, stock_list with
    | Some k, _ :: _ =>
        match api (request_of k 50 stock_list from_date to_date) with
        | Answer r => if totalResults r =? 0 then [] else articles r
        | Failed _ => []
        end
    | _, _ => []
    end.
Proof.
  unfold Hello.fetch_news_for_stocks.
  destruct (Hello.key_given key) as [k|]; [|reflexivity].
  destruct stock_list as [|s0 l]; [reflexivity|].
  change (firstn 15 (s0 :: l)) with (s0 :: firstn 14 l). cbv iota beta zeta.
  match goal with
  | |- context [api ?r] =>
      change r with (request_of k 50 (s0 :: l) from_date to_date)
  end.
  destruct (api _) as [r | e]; [destruct (_ =? 0)|]; reflexivity.
Qed.

Lemma sshare_result_any api key stock_list from_date to_date :
  snd (Sshare.fetch_news_for_stocks api key stock_list from_date to_date)
  = match Sshare.key_given key, stock_list with
    | Some k, _ :: _ =>
        match api (request_of k 50 stock_list from_date to_date) with
        | Answer r => if totalResults r =? 0 then [] else articles r
        | Failed _ => []
        end
    | _, _ => []
    end.
Proof.
  unfold Sshare.fetch_news_for_stocks.
  destruct (Sshare.key_given key) as [k|]; [|reflexivity].
  destruct stock_list as [|s0 l]; [reflexivity|].
  cbv iota beta zeta.
  match goal with
  | |- context [api ?r] =>
      change r with (request_of k 50 (s0 :: l) from_date to_date)
  end.
  destruct (api _) as [r | e]; [destruct (_ =? 0)|]; reflexivity.
Qed.

End FetchMore.

(** X4: once the key passes the guard and the stock list is not empty, a
    call of the fetch makes exactly one search, whatever the service
    answers, failure included: the request carries the key, the two dates
    as they were passed in, the language "en", the order "publishedAt" and
    the page size 50 ([hello.py], [sshare.py]) or 20 ([share.py]). *)
Theorem X4_one_request_as_passed (api : news_api) (key : string)
    (stock_list : list string) (from_date to_date : string)
    (Hl : stock_list <> []) :
  (key <> Share.NEWS_API_KEY ->
     searches (fst (Share.fetch_news_for_stocks_with key api stock_list
                      from_date to_date))
     = [ mkrequest key (or_query (firstn 15 stock_list)) from_date to_date
           "en" "publishedAt" 20 ])
  /\ (key <> "" ->
      searches (fst (Hello.fetch_news_for_stocks api (Some key) stock_list
                       from_date to_date))
      = [ mkrequest key (or_query (firstn 15 stock_list)) from_date to_date
            "en" "publishedAt" 50 ]
      /\ searches (fst (Sshare.fetch_news_for_stocks api (Some key) stock_list
                          from_date to_date))
         = [ mkrequest key (or_query (firstn 15 stock_list)) from_date to_date
               "en" "publishedAt" 50 ]).
Proof.
  split; intros Hk.
  - apply share_searches; assumption.
  - split; [apply hello_searches | apply sshare_searches]; assumption.
Qed.

Lemma X4_one_request_as_passed_witness :
  sixteen <> [] /\ "k" <> ""
  /\ searches (fst (Sshare.fetch_news_for_stocks (fun _ => Failed "timeout")
                      (Some "k") sixteen "2024-03-08" "2024-03-15"))
     = [ mkrequest "k" (or_query (firstn 15 sixteen)) "2024-03-08" "2024-03-15"
           "en" "publishedAt" 50 ].
Proof.
  assert (Hl : sixteen <> []) by (vm_compute; discriminate).
  assert (Hk : "k" <> "") by (vm_compute; discriminate).
  split; [exact Hl|]. split; [exact Hk|].
  exact (proj2 (proj2 (X4_one_request_as_passed (fun _ => Failed "timeout") "k"
                         sixteen "2024-03-08" "2024-03-15" Hl) Hk)).
Defined.

(** X5: the fetch of [hello.py] and [sshare.py] never fails: it returns
    the articles of the answer, unchanged, when the service answers with a
    total other than 0, and the empty list in every other case (missing
    key, empty stock list, a total of 0 even with articles in the answer,
    an exception of the service). *)
Theorem X5_fetch_result (api : news_api) (key : option string)
    (stock_list : list string) (from_date to_date : string) :
  let hello :=
    snd (Hello.fetch_news_for_stocks api key stock_list from_date to_date) in
  let sshare :=
    snd (Sshare.fetch_news_for_stocks api key stock_list from_date to_date) in
  (forall k r, key = Some k -> k <> "" -> stock_list <> [] ->
     api (request_of k 50 stock_list from_date to_date) = Answer r ->
     totalResults r <> 0 -> hello = articles r /\ sshare = articles r)
  /\ (hello <> [] ->
      exists k r, key = Some k /\ k <> "" /\ stock_list <> []
        /\ api (request_of k 50 stock_list from_date to_date) = Answer r
        /\ totalResults r <> 0 /\ hello = articles r)
  /\ (sshare <> [] ->
      exists k r, key = Some k /\ k <> "" /\ stock_list <> []
        /\ api (request_of k 50 stock_list from_date to_date) = Answer r
        /\ totalResults r <> 0 /\ sshare = articles r).
Proof.
  cbv zeta. rewrite hello_result_any, sshare_result_any.
  split; [|split].
  - intros k r -> Hk Hl Ha Ht. cbn [Hello.key_given Sshare.key_given].
    destruct (String.eqb_spec k ""); [contradiction|].
    destruct stock_list as [|s0 l]; [contradiction|].
    rewrite Ha. destruct (Z.eqb_spec (totalResults r) 0); [contradiction|].
    split; reflexivity.
  - destruct (Hello.key_given key) as [k|] eqn:K;
      [|intros H; contradiction H; reflexivity].
    destruct (hello_key_given key k K) as [-> Hk].
    destruct stock_list as [|s0 l]; [intros H; contradiction H; reflexivity|].
    destruct (api _) as [r | e] eqn:A; [|intros H; contradiction H; reflexivity].
    destruct (Z.eqb_spec (totalResults r) 0);
      [intros H; contradiction H; reflexivity|].
    intros _. exists k, r. repeat split; try assumption; discriminate.
  - destruct (Sshare.key_given key) as [k|] eqn:K;
      [|intros H; contradiction H; reflexivity].
    destruct (sshare_key_given key k K) as [-> Hk].
    destruct stock_list as [|s0 l]; [intros H; contradiction H; reflexivity|].
    destruct (api _) as [r | e] eqn:A; [|intros H; contradiction H; reflexivity].
    destruct (Z.eqb_spec (totalResults r) 0);
      [intros H; contradiction H; reflexivity|].
    intros _. exists k, r. repeat split; try assumption; discriminate.
Qed.

Lemma X5_fetch_result_witness :
  Some "k" = Some "k" /\ "k" <> "" /\ [ "TCS" ] <> []
  /\ snd (Hello.fetch_news_for_stocks
            (fun _ => Answer (mkresponse 1 [ mkarticle "t" "s" "d" "" "u" "" ]))
            (Some "k") [ "TCS" ] "2024-03-08" "2024-03-15")
     = [ mkarticle "t" "s" "d" "" "u" "" ].
Proof.
  assert (Hk : "k" <> "") by (vm_compute; discriminate).
  assert (Hl : [ "TCS" ] <> []) by (vm_compute; discriminate).
  split; [reflexivity|]. split; [exact Hk|]. split; [exact Hl|].
  destruct (X5_fetch_result
              (fun _ => Answer (mkresponse 1 [ mkarticle "t" "s" "d" "" "u" "" ]))
              (Some "k") [ "TCS" ] "2024-03-08" "2024-03-15") as [H _].
  refine (proj1 (H "k" _ eq_refl Hk Hl eq_refl _)).
  vm_compute. discriminate.
Defined.

(** ** What the fetch shows *)

Section FetchShown.

Lemma shown_with_app pre a b :
  shown_with pre (a +++ b) = (shown_with pre a ++ shown_with pre b)%list.
Proof.
  induction a as [|[c m | r] a IH]; cbn [app shown_with]; [reflexivity | | exact IH].
  destruct (starts_with pre m); [cbn [app]; rewrite IH|]; auto.
Qed.

Lemma url_lines_print_articles i l :
  shown_with "   URL: " (Share.print_articles i l)
  = map (fun a => "   URL: " ++ url a) l.
Proof.
  revert i. induction l as [|a l IH]; intros i; [reflexivity|].
  cbn [Share.print_articles map]. rewrite shown_with_app, IH. reflexivity.
Qed.

Lemma substring_prefix n s :
  (exists rest, s = substring 0 n s ++ rest)
  /\ String.length (substring 0 n s) = Nat.min n (String.length s).
Proof.
  revert s. induction n as [|n IH]; intros s.
  - split; [exists s; destruct s; reflexivity | destruct s; reflexivity].
  - destruct s as [|c s]; [split; [exists ""; reflexivity | reflexivity]|].
    destruct (IH s) as [[rest E] L].
    cbn [substring String.length Nat.min]. split.
    + exists rest. cbn [append]. f_equal. exact E.
    + f_equal. exact L.
Qed.

Lemma length_append a b :
  String.length (a ++ b) = (String.length a + String.length b)%nat.
Proof. induction a as [|c a IH]; cbn; [reflexivity | rewrite IH; reflexivity]. Qed.

(** The length of a join of at most [k] strings of at most [m]
    characters each. *)
Lemma length_concat_bound (sep : string) (m : nat) (l : list string) :
  Forall (fun x => (String.length x <= m)%nat) l ->
  (String.length (String.concat sep l)
   <= List.length l * (m + String.length sep))%nat.
Proof.
  induction 1 as [|x l Hx Hl IH]; [cbn; lia|].
  destruct l as [|y l'].
  - cbn [String.concat List.length]. lia.
  - change (String.concat sep (x :: y :: l'))
      with (x ++ sep ++ String.concat sep (y :: l')).
    rewrite !length_append. cbn [List.length] in *. lia.
Qed.

Lemma or_query_length (m : nat) (l : list string) :
  Forall (fun x => (String.length x <= m)%nat) (firstn 15 l) ->
  (String.length (or_query (firstn 15 l)) <= 15 * (m + 4) + 38)%nat.
Proof.
  intros F. unfold or_query. rewrite !length_append.
  pose proof (length_concat_bound " OR " m _ F) as B.
  pose proof (firstn_le_length 15 l) as L.
  change (String.length " OR ") with 4%nat in B.
  change (String.length "(") with 1%nat.
  change (String.length ") AND (stock OR market OR NSE OR BSE)") with 37%nat.
  nia.
Qed.

End FetchShown.

(** X6: [share.py] prints the first five articles of the answer at most:
    for a key past the guard and a non-empty stock list, the URL lines of
    the run are those of the first five articles, in order, when the
    service answers with a total other than 0, and there is none when the
    total is 0 or the service fails. *)
Theorem X6_share_prints_five_at_most (api : news_api) (key : string)
    (stock_list : list string) (from_date to_date : string)
    (Hk : key <> Share.NEWS_API_KEY) (Hl : stock_list <> []) :
  let urls :=
    shown_with "   URL: "
      (fst (Share.fetch_news_for_stocks_with key api stock_list
              from_date to_date)) in
  urls = match api (request_of key 20 stock_list from_date to_date) with
         | Answer r =>
             if totalResults r =? 0 then []
             else map (fun a => "   URL: " ++ url a) (firstn 5 (articles r))
         | Failed _ => []
         end
  /\ (List.length urls <= 5)%nat.
Proof.
  cbv zeta.
  assert (E : shown_with "   URL: "
                (fst (Share.fetch_news_for_stocks_with key api stock_list
                        from_date to_date))
              = match api (request_of key 20 stock_list from_date to_date) with
                | Answer r =>
                    if totalResults r =? 0 then []
                    else map (fun a => "   URL: " ++ url a)
                           (firstn 5 (articles r))
                | Failed _ => []
                end).
  { unfold Share.fetch_news_for_stocks_with.
    destruct (String.eqb_spec key "YOUR_API_KEY_HERE") as [E | _];
      [contradiction|].
    destruct stock_list as [|s0 l]; [contradiction|].
    cbv zeta.
    match goal with
    | |- context [api ?r] =>
        change r with (request_of key 20 (s0 :: l) from_date to_date)
    end.
    destruct (api _) as [r | e]; [destruct (_ =? 0)|]; cbn [fst].
    - reflexivity.
    - rewrite !shown_with_app, url_lines_print_articles. reflexivity.
    - rewrite !shown_with_app.
      destruct (contains _ e); [|destruct (contains _ e)]; reflexivity. }
  split; [exact E|]. rewrite E.
  destruct (api _) as [r | e]; [destruct (_ =? 0)|]; cbn [List.length]; try lia.
  rewrite length_map. apply firstn_le_length.
Qed.

Lemma X6_share_prints_five_at_most_witness :
  "k" <> Share.NEWS_API_KEY /\ [ "TCS" ] <> []
  /\ (List.length
        (shown_with "   URL: "
           (fst (Share.fetch_news_for_stocks_with "k"
                   (fun _ => Answer (mkresponse 9
                      (repeat (mkarticle "t" "s" "d" "" "u" "") 9)))
                   [ "TCS" ] "2024-03-08" "2024-03-15"))) <= 5)%nat.
Proof.
  assert (Hk : "k" <> Share.NEWS_API_KEY) by (vm_compute; discriminate).
  assert (Hl : [ "TCS" ] <> []) by (vm_compute; discriminate).
  split; [exact Hk|]. split; [exact Hl|].
  exact (proj2 (X6_share_prints_five_at_most
                  (fun _ => Answer (mkresponse 9
                     (repeat (mkarticle "t" "s" "d" "" "u" "") 9)))
                  "k" [ "TCS" ] "2024-03-08" "2024-03-15" Hk Hl)).
Defined.

(** X7: [hello.py] and [sshare.py] show a preview of the query cut to its
    first 100 characters, while the search itself receives the whole
    query: the first message of the run is the preview, a prefix of the
    query of length min(100, length of the query). *)
Theorem X7_query_preview (api : news_api) (key : string)
    (stock_list : list string) (from_date to_date : string)
    (Hk : key <> "") (Hl : stock_list <> []) :
  let query := or_query (firstn 15 stock_list) in
  exists preview rest tr_hello tr_sshare,
    query = preview ++ rest
    /\ String.length preview = Nat.min 100 (String.length query)
    /\ fst (Hello.fetch_news_for_stocks api (Some key) stock_list
              from_date to_date)
       = Show "st.write" ("Fetching news with query: " ++ preview ++ "...")
           :: tr_hello
    /\ fst (Sshare.fetch_news_for_stocks api (Some key) stock_list
              from_date to_date)
       = Show "st.write" ("Fetching news with query: " ++ preview ++ "...")
           :: tr_sshare
    /\ map q (searches (fst (Hello.fetch_news_for_stocks api (Some key)
                               stock_list from_date to_date))) = [ query ]
    /\ map q (searches (fst (Sshare.fetch_news_for_stocks api (Some key)
                               stock_list from_date to_date))) = [ query ].
Proof.
  cbv zeta.
  destruct (substring_prefix 100 (or_query (firstn 15 stock_list)))
    as [[rest E] L].
  exists (substring 0 100 (or_query (firstn 15 stock_list))), rest.
  rewrite hello_searches, sshare_searches by assumption.
  unfold Hello.fetch_news_for_stocks, Sshare.fetch_news_for_stocks.
  cbn [Hello.key_given Sshare.key_given].
  destruct (String.eqb_spec key ""); [contradiction|].
  destruct stock_list as [|s0 l]; [contradiction|].
  change (firstn 15 (s0 :: l)) with (s0 :: firstn 14 l) in *.
  cbv iota beta zeta.
  destruct (api _) as [r | e]; [destruct (_ =? 0)|];
    eexists; eexists;
    (split; [exact E|]); (split; [exact L|]);
    (split; [reflexivity|]); (split; [reflexivity|]);
    split; reflexivity.
Qed.

Lemma X7_query_preview_witness :
  "k" <> "" /\ sixteen <> []
  /\ exists preview rest tr,
       or_query (firstn 15 sixteen) = preview ++ rest
       /\ String.length preview = 100%nat
       /\ fst (Hello.fetch_news_for_stocks no_articles (Some "k") sixteen
                "2024-03-08" "2024-03-15")
          = Show "st.write" ("Fetching news with query: " ++ preview ++ "...")
              :: tr.
Proof.
  assert (Hk : "k" <> "") by (vm_compute; discriminate).
  assert (Hl : sixteen <> []) by (vm_compute; discriminate).
  split; [exact Hk|]. split; [exact Hl|].
  destruct (X7_query_preview no_articles "k" sixteen "2024-03-08" "2024-03-15"
              Hk Hl) as (p & rest & t1 & t2 & E & L & H & _).
  exists p, rest, t1. split; [exact E|]. split; [exact L|exact H].
Defined.

(** X8: taking 15 symbols keeps the query short: when each of the first
    15 symbols of the list has at most [m] characters, the query of every
    search that a fetch makes has at most 15 * (m + 4) + 38 characters,
    hence at most 1024 for symbols of 61 characters or fewer, however
    long the stock list is. *)
Theorem X8_query_length_bound (m : nat) (api : news_api) (key : option string)
    (module_key : string) (stock_list : list string)
    (from_date to_date : string)
    (Hm : Forall (fun x => (String.length x <= m)%nat) (firstn 15 stock_list)) :
  let bounded (tr : list event) :=
    forall r, In r (searches tr) ->
      (String.length (q r) <= 15 * (m + 4) + 38)%nat
      /\ ((m <= 61)%nat -> (String.length (q r) <= 1024)%nat) in
  bounded (fst (Share.fetch_news_for_stocks_with module_key api stock_list
                  from_date to_date))
  /\ bounded (fst (Hello.fetch_news_for_stocks api key stock_list
                     from_date to_date))
  /\ bounded (fst (Sshare.fetch_news_for_stocks api key stock_list
                     from_date to_date)).
Proof.
  cbv zeta beta. pose proof (or_query_length m stock_list Hm) as B.
  rewrite share_searches_any, hello_searches_any, sshare_searches_any.
  repeat split;
    repeat match goal with
           | H : In _ (if ?c then _ else _) |- _ => destruct c
           | H : In _ (match ?o with Some _ => _ | None => _ end) |- _ =>
               destruct o
           | H : In _ (match ?l with [] => _ | _ :: _ => _ end) |- _ =>
               destruct l
           | H : In _ [] |- _ => contradiction H
           | H : In _ [ _ ] |- _ => destruct H as [<- | []]
           end;
    cbn [q request_of]; lia.
Qed.

Lemma X8_query_length_bound_witness :
  Forall (fun x => (String.length x <= 3)%nat) (firstn 15 sixteen)
  /\ forall r,
       In r (searches (fst (Hello.fetch_news_for_stocks no_articles (Some "k")
                              sixteen "2024-03-08" "2024-03-15"))) ->
       (String.length (q r) <= 1024)%nat.
Proof.
  assert (Hm : Forall (fun x => (String.length x <= 3)%nat) (firstn 15 sixteen)).
  { vm_compute. repeat constructor. }
  split; [exact Hm|].
  intros r Hr.
  destruct (X8_query_length_bound 3 no_articles (Some "k") "k" sixteen
              "2024-03-08" "2024-03-15" Hm) as (_ & H & _).
  apply (H r Hr). repeat constructor.
Defined.

(** ** The stock lists *)

Section StockLists.

Variable upper : string -> string.

(** The three [get_index_stocks] return the same list. *)
Lemma index_stocks_result service index_name :
  let result :=
    match service with
    | Done nse =>
        match is_valid_index nse index_name with
        | Done true =>
            match get_stocks_in_index nse index_name with
            | Done l => map upper l
            | Thrown _ => []
            end
        | _ => []
        end
    | Thrown _ => []
    end in
  snd (ShareApp.get_index_stocks upper service index_name) = result
  /\ snd (HelloApp.get_index_stocks upper service index_name) = result
  /\ snd (SshareApp.get_index_stocks upper service index_name) = result.
Proof.
  unfold ShareApp.get_index_stocks, HelloApp.get_index_stocks,
    SshareApp.get_index_stocks.
  destruct service as [nse | e]; [|repeat split].
  destruct (is_valid_index nse index_name) as [[|] | e]; [| |repeat split].
  - destruct (get_stocks_in_index nse index_name) as [[|x l] | e]; repeat split.
  - destruct (get_index_list nse); repeat split.
Qed.

Lemma index_stocks_no_search service index_name :
  searches (fst (ShareApp.get_index_stocks upper service index_name)) = []
  /\ searches (fst (HelloApp.get_index_stocks upper service index_name)) = []
  /\ searches (fst (SshareApp.get_index_stocks upper service index_name)) = [].
Proof.
  unfold ShareApp.get_index_stocks, HelloApp.get_index_stocks,
    SshareApp.get_index_stocks.
  destruct service as [nse | e]; [|repeat split].
  destruct (is_valid_index nse index_name) as [[|] | e]; [| |repeat split].
  - destruct (get_stocks_in_index nse index_name) as [[|x l] | e]; repeat split.
  - destruct (get_index_list nse); repeat split.
Qed.

Lemma fno_stocks_no_search csv :
  searches (fst (ShareApp.get_fno_stocks csv)) = []
  /\ searches (fst (HelloApp.get_fno_stocks csv)) = []
  /\ searches (fst (SshareApp.get_fno_stocks csv)) = [].
Proof. destruct csv; repeat split. Qed.

End StockLists.

(** X9: [get_index_stocks] never fails and makes no search.  In the three
    scripts it returns the symbols of the index, uppercased and in the
    order of the service, when the client is built, the index is valid and
    the service lists its stocks; it returns a non-empty list in that case
    only, every failure and every invalid index giving the empty list. *)
Theorem X9_index_stocks (upper : string -> string) (service : nse_source)
    (index_name : string) :
  let share := ShareApp.get_index_stocks upper service index_name in
  let hello := HelloApp.get_index_stocks upper service index_name in
  let sshare := SshareApp.get_index_stocks upper service index_name in
  (forall nse l,
     service = Done nse -> is_valid_index nse index_name = Done true ->
     get_stocks_in_index nse index_name = Done l ->
     snd share = map upper l /\ snd hello = map upper l
     /\ snd sshare = map upper l
     /\ List.length (snd share) = List.length l)
  /\ (snd share <> [] ->
      exists nse l,
        service = Done nse /\ is_valid_index nse index_name = Done true
        /\ get_stocks_in_index nse index_name = Done l /\ l <> [])
  /\ snd hello = snd share /\ snd sshare = snd share
  /\ searches (fst share) = [] /\ searches (fst hello) = []
  /\ searches (fst sshare) = [].
Proof.
  cbv zeta.
  destruct (index_stocks_result upper service index_name) as (R1 & R2 & R3).
  destruct (index_stocks_no_search upper service index_name) as (S1 & S2 & S3).
  rewrite R1, R2, R3, S1, S2, S3.
  split; [|split; [|repeat split]].
  - intros nse l -> -> ->. rewrite length_map. repeat split.
  - destruct service as [nse | e]; [|intros H; contradiction H; reflexivity].
    destruct (is_valid_index nse index_name) as [[|] | e] eqn:V;
      try (intros H; contradiction H; reflexivity).
    destruct (get_stocks_in_index nse index_name) as [l | e] eqn:G;
      [|intros H; contradiction H; reflexivity].
    intros H. exists nse, l.
    split; [reflexivity|]. split; [exact V|]. split; [exact G|].
    intros ->. apply H. reflexivity.
Qed.

Lemma X9_index_stocks_witness :
  snd (ShareApp.get_index_stocks ascii_upper
         (Done (mknse (fun _ => Done true) (Done [])
                  (fun _ => Done [ "tcs"; "Infy" ]))) "NIFTY 100")
  = [ "TCS"; "INFY" ].
Proof.
  destruct (X9_index_stocks ascii_upper
              (Done (mknse (fun _ => Done true) (Done [])
                       (fun _ => Done [ "tcs"; "Infy" ]))) "NIFTY 100")
    as (H & _).
  exact (proj1 (H _ _ eq_refl eq_refl eq_refl)).
Defined.

(** X10: when the download of the F&O list fails, [share.py] and
    [hello.py] return the empty list while [sshare.py] returns its backup
    list of five symbols; so in [sshare.py] the list is empty only if the
    download itself gave no symbol.  When the download succeeds the three
    return its symbols. *)
Theorem X10_fno_stocks_on_failure (csv : fno_source) :
  (forall l, csv = Done l ->
     snd (ShareApp.get_fno_stocks csv) = l
     /\ snd (HelloApp.get_fno_stocks csv) = l
     /\ snd (SshareApp.get_fno_stocks csv) = l)
  /\ (forall e, csv = Thrown e ->
      snd (ShareApp.get_fno_stocks csv) = []
      /\ snd (HelloApp.get_fno_stocks csv) = []
      /\ snd (SshareApp.get_fno_stocks csv)
         = [ "RELIANCE"; "TCS"; "INFY"; "HDFCBANK"; "ICICIBANK" ])
  /\ (snd (SshareApp.get_fno_stocks csv) = [] <-> csv = Done [])
  /\ (snd (ShareApp.get_fno_stocks csv) = []
      <-> csv = Done [] \/ exists e, csv = Thrown e)
  /\ (snd (HelloApp.get_fno_stocks csv) = []
      <-> csv = Done [] \/ exists e, csv = Thrown e).
Proof.
  split; [intros l ->; repeat split|].
  split; [intros e ->; repeat split|].
  destruct csv as [l | e]; cbn [snd ShareApp.get_fno_stocks
    HelloApp.get_fno_stocks SshareApp.get_fno_stocks].
  - repeat split; intros H; subst; try reflexivity; try (left; reflexivity).
    + injection H as ->. reflexivity.
    + destruct H as [H | [e H]]; [injection H as ->; reflexivity|discriminate].
    + destruct H as [H | [e H]]; [injection H as ->; reflexivity|discriminate].
  - repeat split; intros H; try discriminate; try reflexivity;
      right; exists e; reflexivity.
Qed.

Lemma X10_fno_stocks_on_failure_witness :
  snd (SshareApp.get_fno_stocks (Thrown "HTTP Error 403"))
  = [ "RELIANCE"; "TCS"; "INFY"; "HDFCBANK"; "ICICIBANK" ]
  /\ snd (HelloApp.get_fno_stocks (Thrown "HTTP Error 403")) = [].
Proof.
  destruct (X10_fno_stocks_on_failure (Thrown "HTTP Error 403"))
    as (_ & H & _).
  destruct (H "HTTP Error 403" eq_refl) as (_ & H2 & H3).
  split; [exact H3|exact H2].
Defined.

(** ** The menu loop of [share.py] *)

Section MenuLoop.

Variables upper lower : string -> string.

Lemma list_of_choice_no_search w i choice fetching stock_list :
  ShareApp.list_of_choice upper w i choice = Some (fetching, stock_list) ->
  searches fetching = [].
Proof.
  unfold ShareApp.list_of_choice, ShareApp.get_largecap_stocks,
    ShareApp.get_midcap_stocks, ShareApp.get_smallcap_stocks.
  repeat (destruct (choice =? _)%string;
          [intros H; injection H as H; apply (f_equal fst) in H;
           cbn [fst] in H; rewrite <- H;
           first [ apply (proj1 (fno_stocks_no_search _))
                 | apply (proj1 (index_stocks_no_search upper _ _)) ]|]).
  discriminate.
Qed.

Lemma period_of_choice_tag typed :
  searches (fst (ShareApp.period_of_choice lower typed)) = []
  /\ In (offset_4 (snd (ShareApp.period_of_choice lower typed)))
        [ 7; 28; 90; 180 ].
Proof.
  unfold ShareApp.period_of_choice.
  repeat (destruct (_ =? _)%string; [split; [reflexivity|cbn; tauto]|]).
  split; [reflexivity|cbn; tauto].
Qed.

Lemma searches_main_menu : searches ShareApp.main_menu = [].
Proof. reflexivity. Qed.

Lemma searches_period_menu : searches ShareApp.period_menu = [].
Proof. reflexivity. Qed.

Lemma ends_with_app (a b : list event) (g : event) :
  (exists t, b = (t ++ [ g ])%list) -> exists t, a +++ b = (t ++ [ g ])%list.
Proof. intros [t ->]. exists (a ++ t)%list. apply app_assoc. Qed.

Lemma ends_with_cons (x : event) (b : list event) (g : event) :
  (exists t, b = (t ++ [ g ])%list) -> exists t, x :: b = (t ++ [ g ])%list.
Proof. intros [t ->]. exists (x :: t). reflexivity. Qed.

Ltac ends_with t :=
  first [ exists t; reflexivity
        | apply ends_with_app; ends_with t
        | apply ends_with_cons; ends_with t ].

Ltac quiet_trace :=
  cbn [fst snd];
  rewrite ?searches_app, ?searches_main_menu, ?searches_period_menu;
  repeat match goal with
         | H : searches _ = [] |- _ => rewrite H
         end;
  cbn [searches app List.length]; rewrite ?app_nil_r.

Ltac crashed_turn :=
  quiet_trace;
  split; [lia|];
  split; [intros r Hr; contradiction Hr|];
  split; [intros _; reflexivity|];
  split; [discriminate|];
  first [ right; left; reflexivity | right; right; eexists; reflexivity ].

(** What every run of the loop keeps, by induction on the lines typed. *)
Lemma main_loop_inv key w :
  forall (n : nat) (inputs : list string) (i : nat),
    (List.length inputs <= n)%nat ->
    let tr := fst (ShareApp.main_loop upper lower key w i inputs) in
    let o := snd (ShareApp.main_loop upper lower key w i inputs) in
    (3 * List.length (searches tr) <= List.length inputs + 1)%nat
    /\ (forall r, In r (searches tr) -> turn_request upper key w r)
    /\ (key = Share.NEWS_API_KEY -> searches tr = [])
    /\ (o = Returned ->
        In "0" inputs /\ exists tr', tr = (tr' ++ [ Show "print" "Goodbye!" ])%list)
    /\ (o = Returned \/ o = Crashed EOFError
        \/ exists e, o = Crashed (Overflow e)).
Proof.
  induction n as [|n IH]; intros inputs i Hn; cbv zeta.
  - destruct inputs; [|cbn in Hn; lia]. cbn [ShareApp.main_loop]. crashed_turn.
  - destruct inputs as [|choice rest]; [cbn [ShareApp.main_loop]; crashed_turn|].
    cbn [List.length] in Hn. cbn [ShareApp.main_loop].
    destruct (ShareApp.list_of_choice upper w i choice)
      as [[fetching [|s0 l]]|] eqn:LC.
    + (* the list came back empty *)
      pose proof (list_of_choice_no_search _ _ _ _ _ LC) as NS.
      specialize (IH rest (S i) ltac:(lia)). cbv zeta in IH.
      destruct (ShareApp.main_loop upper lower key w (S i) rest) as [tr o].
      cbn [fst snd] in IH. destruct IH as (I1 & I2 & I3 & I4 & I5).
      quiet_trace.
      split; [lia|]. split; [exact I2|]. split; [exact I3|]. split; [|exact I5].
      intros R. destruct (I4 R) as [I0 [tr' ->]]. split; [right; exact I0|].
      ends_with tr'.
    + (* a list to search for *)
      pose proof (list_of_choice_no_search _ _ _ _ _ LC) as NS.
      destruct rest as [|typed rest']; [crashed_turn|].
      destruct (period_of_choice_tag typed) as [NF Tag].
      destruct (ShareApp.period_of_choice lower typed) as [fallback period].
      cbn [fst snd] in NF, Tag.
      destruct (Share.get_date_range period (ShareApp.clock w i))
        as [[from_date to_date]|e] eqn:GD; [|crashed_turn].
      pose proof (share_searches_any key (ShareApp.newsapi w i) (s0 :: l)
                    from_date to_date) as SN.
      destruct (Share.fetch_news_for_stocks_with key (ShareApp.newsapi w i)
                  (s0 :: l) from_date to_date) as [news u].
      cbn [fst] in SN.
      assert (Turn : forall r, In r (searches news) -> turn_request upper key w r).
      { intros r Hr. rewrite SN in Hr.
        destruct (key =? _)%string; [contradiction|].
        destruct Hr as [<- | []].
        exists i, choice, fetching, (s0 :: l), (offset_4 period).
        split; [exact LC|]. split; [discriminate|]. split; [exact Tag|].
        rewrite <- share_resolve. split; [exact GD|reflexivity]. }
      assert (Len : (List.length (searches news) <= 1)%nat).
      { rewrite SN. destruct (key =? _)%string; cbn; lia. }
      assert (Shipped : key = Share.NEWS_API_KEY -> searches news = []).
      { intros ->. rewrite SN. reflexivity. }
      cbn [List.length] in Hn.
      destruct rest' as [|enter rest''].
      { clear SN. quiet_trace.
        split; [lia|]. split; [exact Turn|]. split; [exact Shipped|].
        split; [discriminate|]. right. left. reflexivity. }
      cbn [List.length] in Hn.
      specialize (IH rest'' (S i) ltac:(lia)). cbv zeta in IH.
      destruct (ShareApp.main_loop upper lower key w (S i) rest'') as [tr o].
      cbn [fst snd] in IH. destruct IH as (I1 & I2 & I3 & I4 & I5).
      clear SN. quiet_trace. rewrite length_app.
      split; [lia|].
      split; [intros r Hr; apply in_app_or in Hr; destruct Hr; auto|].
      split; [intros K; rewrite (Shipped K), (I3 K); reflexivity|].
      split; [|exact I5].
      intros R. destruct (I4 R) as [I0 [tr' ->]].
      split; [right; right; right; exact I0|].
      ends_with tr'.
    + (* no list: leave or ask again *)
      destruct (String.eqb_spec choice "0") as [-> | N0].
      { quiet_trace.
        split; [lia|]. split; [intros r Hr; contradiction Hr|].
        split; [intros _; reflexivity|]. split; [|left; reflexivity].
        intros _. split; [left; reflexivity|].
        exists ShareApp.main_menu. reflexivity. }
      specialize (IH rest (S i) ltac:(lia)). cbv zeta in IH.
      destruct (ShareApp.main_loop upper lower key w (S i) rest) as [tr o].
      cbn [fst snd] in IH. destruct IH as (I1 & I2 & I3 & I4 & I5).
      quiet_trace.
      split; [lia|]. split; [exact I2|]. split; [exact I3|]. split; [|exact I5].
      intros R. destruct (I4 R) as [I0 [tr' ->]]. split; [right; exact I0|].
      ends_with tr'.
Qed.

End MenuLoop.

Section MainRuns.

Variables upper lower : string -> string.

Lemma main_with_inv key w inputs :
  let tr := fst (ShareApp.main_with upper lower key w inputs) in
  let o := snd (ShareApp.main_with upper lower key w inputs) in
  (3 * List.length (searches tr) <= List.length inputs + 1)%nat
  /\ (forall r, In r (searches tr) -> turn_request upper key w r)
  /\ (key = Share.NEWS_API_KEY -> searches tr = [])
  /\ (o = Returned ->
      In "0" inputs /\ exists tr', tr = (tr' ++ [ Show "print" "Goodbye!" ])%list)
  /\ (o = Returned \/ o = Crashed EOFError
      \/ exists e, o = Crashed (Overflow e)).
Proof.
  cbv zeta. unfold ShareApp.main_with.
  pose proof (main_loop_inv upper lower key w (List.length inputs) inputs 0
                (le_n _)) as I.
  cbv zeta in I.
  destruct (ShareApp.main_loop upper lower key w 0 inputs) as [tr o].
  cbn [fst snd] in *. destruct I as (I1 & I2 & I3 & I4 & I5).
  rewrite searches_app. change (searches ShareApp.banner) with (@nil search_request).
  cbn [app].
  split; [exact I1|]. split; [exact I2|]. split; [exact I3|]. split; [|exact I5].
  intros R. destruct (I4 R) as [I0 [tr' ->]]. split; [exact I0|].
  apply ends_with_app. exists tr'. reflexivity.
Qed.

End MainRuns.

(** X11: [share.py] as it is, with the placeholder on line 21, never
    calls the search service: whatever the user types and whatever the
    outside answers, no run of [main] contains a search. *)
Theorem X11_main_as_shipped_never_searches (upper lower : string -> string)
    (w : ShareApp.world) (inputs : list string) :
  searches (fst (ShareApp.main upper lower w inputs)) = [].
Proof.
  unfold ShareApp.main.
  destruct (main_with_inv upper lower Share.NEWS_API_KEY w inputs)
    as (_ & _ & H & _).
  apply H. reflexivity.
Qed.

(** X12: every search that [main] makes, with any key, is the request of
    one turn: its stock list is the non-empty list that a choice of the
    main menu returned on that turn, and its dates are the range of 7, 28,
    90 or 180 days at the clock of that turn.  The menu hands only its own
    four tags to the resolver, whatever is typed at the period prompt. *)
Theorem X12_main_searches_menu_periods (upper lower : string -> string)
    (key : string) (w : ShareApp.world) (inputs : list string)
    (r : search_request)
    (Hr : In r (searches (fst (ShareApp.main_with upper lower key w inputs)))) :
  turn_request upper key w r.
Proof.
  destruct (main_with_inv upper lower key w inputs) as (_ & H & _).
  apply H. exact Hr.
Qed.

Lemma X12_main_searches_menu_periods_witness :
  In (request_of "k" 20 [ "TCS"; "INFY" ] "2023-12-16" "2024-03-15")
     (searches (fst (ShareApp.main_with ascii_upper ascii_lower "k" quiet_world
                       [ "1"; "C"; ""; "0" ])))
  /\ turn_request ascii_upper "k" quiet_world
       (request_of "k" 20 [ "TCS"; "INFY" ] "2023-12-16" "2024-03-15").
Proof.
  assert (Hr : In (request_of "k" 20 [ "TCS"; "INFY" ] "2023-12-16" "2024-03-15")
                 (searches (fst (ShareApp.main_with ascii_upper ascii_lower "k"
                                   quiet_world [ "1"; "C"; ""; "0" ]))))
    by (vm_compute; left; reflexivity).
  split; [exact Hr|].
  exact (X12_main_searches_menu_periods ascii_upper ascii_lower "k" quiet_world
           [ "1"; "C"; ""; "0" ] _ Hr).
Defined.

(** X13: [main] makes at most one search per turn, and a turn that
    searches reads two lines before the search and one after it: a run
    on [n] typed lines makes at most (n + 1) / 3 searches. *)
Theorem X13_main_searches_bounded (upper lower : string -> string)
    (key : string) (w : ShareApp.world) (inputs : list string) :
  (3 * List.length (searches (fst (ShareApp.main_with upper lower key w inputs)))
   <= List.length inputs + 1)%nat.
Proof.
  destruct (main_with_inv upper lower key w inputs) as (H & _).
  exact H.
Qed.

(** X14: [main] returns only through the choice 0 of the main menu: a run
    that returns has read a line "0" and its last message is "Goodbye!";
    every other run ends with an exception that nothing catches, the
    [EOFError] of [input] or the [OverflowError] of the resolver. *)
Theorem X14_main_leaves_through_zero (upper lower : string -> string)
    (key : string) (w : ShareApp.world) (inputs : list string) :
  let run := ShareApp.main_with upper lower key w inputs in
  (snd run = Returned ->
     In "0" inputs
     /\ exists tr', fst run = (tr' ++ [ Show "print" "Goodbye!" ])%list)
  /\ (~ In "0" inputs ->
      snd run = Crashed EOFError \/ exists e, snd run = Crashed (Overflow e))
  /\ (snd run = Returned \/ snd run = Crashed EOFError
      \/ exists e, snd run = Crashed (Overflow e)).
Proof.
  cbv zeta.
  destruct (main_with_inv upper lower key w inputs) as (_ & _ & _ & H4 & H5).
  split; [exact H4|]. split; [|exact H5].
  intros N. destruct H5 as [R | C]; [|exact C].
  destruct (H4 R) as [I _]. contradiction.
Qed.

Lemma X14_main_leaves_through_zero_witness :
  snd (ShareApp.main_with ascii_upper ascii_lower "k" quiet_world
         [ "1"; "C"; ""; "0" ]) = Returned
  /\ In "0" [ "1"; "C"; ""; "0" ]
  /\ ~ In "0" [ "1"; "C" ]
  /\ (snd (ShareApp.main_with ascii_upper ascii_lower "k" quiet_world
             [ "1"; "C" ]) = Crashed EOFError
      \/ exists e, snd (ShareApp.main_with ascii_upper ascii_lower "k"
                          quiet_world [ "1"; "C" ]) = Crashed (Overflow e)).
Proof.
  assert (R : snd (ShareApp.main_with ascii_upper ascii_lower "k" quiet_world
                     [ "1"; "C"; ""; "0" ]) = Returned)
    by (vm_compute; reflexivity).
  assert (N : ~ In "0" [ "1"; "C" ]).
  { simpl. intros [H | [H | H]]; [discriminate H | discriminate H | exact H]. }
  split; [exact R|].
  destruct (X14_main_leaves_through_zero ascii_upper ascii_lower "k" quiet_world
              [ "1"; "C"; ""; "0" ]) as (H & _).
  split; [exact (proj1 (H R))|]. split; [exact N|].
  exact (proj1 (proj2 (X14_main_leaves_through_zero ascii_upper ascii_lower "k"
                         quiet_world [ "1"; "C" ])) N).
Defined.

(** ** The pages of [hello.py] and [sshare.py] *)

Section Pages.

Variable upper : string -> string.
Variable csv : fno_source.
Variable service : nse_source.
Variable now : datetime.
Variable api : news_api.
Variable compound_of : string -> float.
Variable published : string -> attempt string.

Lemma hello_show_no_search l :
  searches (fst (HelloApp.show_articles compound_of published l)) = [].
Proof.
  induction l as [|a l IH]; [reflexivity|]. cbn [HelloApp.show_articles].
  destruct (Hello.get_sentiment compound_of (title a)) as [sentiment emoji].
  destruct (published (publishedAt a)); [|reflexivity].
  destruct (HelloApp.show_articles compound_of published l) as [tr o].
  cbn [fst] in *. rewrite !searches_app, IH.
  destruct (_ =? _)%string; destruct (_ =? _)%string; reflexivity.
Qed.

Lemma sshare_show_no_search l :
  searches (fst (SshareApp.show_articles published l)) = [].
Proof.
  induction l as [|a l IH]; [reflexivity|]. cbn [SshareApp.show_articles].
  destruct (published (publishedAt a)); [|reflexivity].
  destruct (SshareApp.show_articles published l) as [tr o].
  cbn [fst] in *. rewrite !searches_app, IH.
  destruct (_ =? _)%string; destruct (_ =? _)%string; reflexivity.
Qed.

Lemma hello_options_no_search c :
  searches (fst (HelloApp.stock_list_options upper csv service c)) = [].
Proof.
  destruct c; cbn [HelloApp.stock_list_options];
    first [ apply (proj1 (proj2 (fno_stocks_no_search csv)))
          | apply (proj1 (proj2 (index_stocks_no_search upper service _))) ].
Qed.

Lemma sshare_options_no_search c :
  searches (fst (SshareApp.stock_list_options upper csv service c)) = [].
Proof.
  destruct c; cbn [SshareApp.stock_list_options];
    first [ apply (proj2 (proj2 (fno_stocks_no_search csv)))
          | apply (proj2 (proj2 (index_stocks_no_search upper service _))) ].
Qed.

(** The searches of a run of the page of [hello.py]. *)
Lemma hello_app_searches api_key label period button :
  searches (fst (HelloApp.app upper csv service now api compound_of published
                   api_key label period button))
  = if button && negb (api_key =? "")%string then
      match snd (HelloApp.stock_list_options upper csv service label) with
      | [] => []
      | (_ :: _) as stock_list =>
          match Hello.get_date_range (HelloApp.period_options period) now with
          | Ok (from_date, to_date) =>
              [ request_of api_key 50 stock_list from_date to_date ]
          | Raise _ => []
          end
      end
    else [].
Proof.
  unfold HelloApp.app.
  destruct button; [|reflexivity].
  destruct (String.eqb_spec api_key "") as [-> | Hk]; [reflexivity|].
  cbn [andb negb].
  pose proof (hello_options_no_search label) as NS.
  destruct (HelloApp.stock_list_options upper csv service label)
    as [fetching [|s0 l]]; cbn [fst snd] in *.
  - rewrite !searches_app, NS. reflexivity.
  - destruct (Hello.get_date_range _ now) as [[from_date to_date]|e].
    + pose proof (hello_searches api_key api (s0 :: l) from_date to_date Hk
                    ltac:(discriminate)) as SN.
      destruct (Hello.fetch_news_for_stocks api (Some api_key) (s0 :: l)
                  from_date to_date) as [news [|a arts]]; cbn [fst] in SN.
      * cbn [fst]. rewrite !searches_app, NS, SN. reflexivity.
      * pose proof (hello_show_no_search (a :: arts)) as SH.
        destruct (HelloApp.show_articles compound_of published (a :: arts))
          as [shown o]. cbn [fst] in *.
        rewrite !searches_app, NS, SN, SH. reflexivity.
    + cbn [fst]. rewrite !searches_app, NS. reflexivity.
Qed.

Lemma sshare_app_searches api_key label period button :
  searches (fst (SshareApp.app upper csv service now api published
                   api_key label period button))
  = if button && negb (api_key =? "")%string then
      match snd (SshareApp.stock_list_options upper csv service label) with
      | [] => []
      | (_ :: _) as stock_list =>
          match Sshare.get_date_range (SshareApp.period_options period) now with
          | Ok (from_date, to_date) =>
              [ request_of api_key 50 stock_list from_date to_date ]
          | Raise _ => []
          end
      end
    else [].
Proof.
  unfold SshareApp.app.
  destruct button; [|reflexivity].
  destruct (String.eqb_spec api_key "") as [-> | Hk]; [reflexivity|].
  cbn [andb negb].
  pose proof (sshare_options_no_search label) as NS.
  destruct (SshareApp.stock_list_options upper csv service label)
    as [fetching [|s0 l]]; cbn [fst snd] in *.
  - rewrite !searches_app, NS. reflexivity.
  - destruct (Sshare.get_date_range _ now) as [[from_date to_date]|e].
    + pose proof (sshare_searches api_key api (s0 :: l) from_date to_date Hk
                    ltac:(discriminate)) as SN.
      destruct (Sshare.fetch_news_for_stocks api (Some api_key) (s0 :: l)
                  from_date to_date) as [news [|a arts]]; cbn [fst] in SN.
      * cbn [fst]. rewrite !searches_app, NS, SN. reflexivity.
      * pose proof (sshare_show_no_search (a :: arts)) as SH.
        destruct (SshareApp.show_articles published (a :: arts))
          as [shown o]. cbn [fst] in *.
        rewrite !searches_app, NS, SN, SH. reflexivity.
    + cbn [fst]. rewrite !searches_app, NS. reflexivity.
Qed.

End Pages.

Section PageRanges.

Lemma hello_period_offset c :
  offset_4 (HelloApp.period_options c) = hello_offset c.
Proof. destruct c; reflexivity. Qed.

Lemma sshare_period_offset c :
  offset_3 (SshareApp.period_options c) = sshare_offset c.
Proof. destruct c; reflexivity. Qed.

Lemma range_of_offset_ok now off r :
  range_of_offset now off r ->
  exists s e, r = Ok (s, e) /\ range_of_offset now off (Ok (s, e)).
Proof.
  intros (s & e & y & m & d & E & R). exists s, e. split; [exact E|].
  exists s, e, y, m, d. split; [reflexivity|exact R].
Qed.

End PageRanges.

(** X15: a run of the page of [hello.py] searches exactly when the button
    is pressed, the key box is not empty and the chosen stock list is not
    empty (the clock being inside the calendar, the start of the range in
    the year 1000 or later): it then makes one search,
    for the first 15 symbols of that list, with the key of the box and the
    range of the chosen entry, 7, 28, 90 or 180 days before the clock,
    passed on as the resolver returned it.  No entry of the period box
    reaches the default branch of the resolver. *)
Theorem X15_hello_page_search (upper : string -> string) (csv : fno_source)
    (service : nse_source) (now : datetime) (api : news_api)
    (compound_of : string -> float) (published : string -> attempt string)
    (api_key : string) (label : HelloApp.stock_choice)
    (period : HelloApp.period_choice) (button : bool) :
  let run :=
    HelloApp.app upper csv service now api compound_of published
      api_key label period button in
  let stock_list :=
    snd (HelloApp.stock_list_options upper csv service label) in
  (button = true -> api_key <> "" -> stock_list <> [] ->
   valid now -> hello_offset period < toordinal now ->
   1000 <= start_year now (hello_offset period) ->
   exists s e,
     Hello.get_date_range (HelloApp.period_options period) now = Ok (s, e)
     /\ range_of_offset now (hello_offset period) (Ok (s, e))
     /\ searches (fst run) = [ request_of api_key 50 stock_list s e ])
  /\ (button = false \/ api_key = "" \/ stock_list = [] ->
      searches (fst run) = []).
Proof.
  cbv zeta. rewrite hello_app_searches. split.
  - intros -> Hk Hl Hv Ho Hy.
    destruct (String.eqb_spec api_key ""); [contradiction|]. cbn [andb negb].
    destruct (snd (HelloApp.stock_list_options upper csv service label))
      as [|s0 l]; [contradiction|].
    assert (R : range_of_offset now (hello_offset period)
                  (Hello.get_date_range (HelloApp.period_options period) now)).
    { rewrite hello_resolve, hello_period_offset.
      apply resolve_with_range; [assumption | | assumption].
      destruct period; cbn in *; lia. }
    destruct (range_of_offset_ok _ _ _ R) as (s & e & E & R').
    exists s, e. rewrite E. repeat split; assumption.
  - intros [-> | [-> | H]]; [reflexivity | rewrite andb_false_r; reflexivity|].
    rewrite H. destruct (_ && _); reflexivity.
Qed.

Lemma X15_hello_page_search_witness :
  valid d20240315 /\ hello_offset HelloApp.Last3Months < toordinal d20240315
  /\ 1000 <= start_year d20240315 (hello_offset HelloApp.Last3Months)
  /\ searches (fst (HelloApp.app ascii_upper (Done [ "TCS"; "INFY" ])
                      (Thrown "offline") d20240315 no_articles
                      (fun _ => 0%float) parse_or_fail
                      "k" HelloApp.FnO HelloApp.Last3Months true))
     = [ request_of "k" 50 [ "TCS"; "INFY" ] "2023-12-16" "2024-03-15" ].
Proof.
  assert (Hv : valid d20240315)
    by (repeat split; vm_compute; (reflexivity || discriminate)).
  assert (Ho : hello_offset HelloApp.Last3Months < toordinal d20240315)
    by (vm_compute; reflexivity).
  assert (Hy : 1000 <= start_year d20240315 (hello_offset HelloApp.Last3Months))
    by (vm_compute; discriminate).
  split; [exact Hv|]. split; [exact Ho|]. split; [exact Hy|].
  destruct (X15_hello_page_search ascii_upper (Done [ "TCS"; "INFY" ])
              (Thrown "offline") d20240315 no_articles (fun _ => 0%float)
              parse_or_fail "k" HelloApp.FnO HelloApp.Last3Months true)
    as [H _].
  destruct (H eq_refl ltac:(vm_compute; discriminate)
              ltac:(vm_compute; discriminate) Hv Ho Hy) as (s & e & E & _ & S).
  rewrite S. vm_compute in E. injection E as <- <-. reflexivity.
Defined.

(** X16: a run of the page of [sshare.py] searches exactly when the
    button is pressed, the key box is not empty and the chosen stock list
    is not empty (the clock being inside the calendar, the start of the
    range in the year 1000 or later): it then makes one search, for the first 15 symbols of
    that list, with the range of the chosen entry, 7, 30 or 90 days before
    the clock, passed on as the resolver returned it. *)
Theorem X16_sshare_page_search (upper : string -> string) (csv : fno_source)
    (service : nse_source) (now : datetime) (api : news_api)
    (published : string -> attempt string)
    (api_key : string) (label : SshareApp.stock_choice)
    (period : SshareApp.period_choice) (button : bool) :
  let run :=
    SshareApp.app upper csv service now api published
      api_key label period button in
  let stock_list :=
    snd (SshareApp.stock_list_options upper csv service label) in
  (button = true -> api_key <> "" -> stock_list <> [] ->
   valid now -> sshare_offset period < toordinal now ->
   1000 <= start_year now (sshare_offset period) ->
   exists s e,
     Sshare.get_date_range (SshareApp.period_options period) now = Ok (s, e)
     /\ range_of_offset now (sshare_offset period) (Ok (s, e))
     /\ searches (fst run) = [ request_of api_key 50 stock_list s e ])
  /\ (button = false \/ api_key = "" \/ stock_list = [] ->
      searches (fst run) = []).
Proof.
  cbv zeta. rewrite sshare_app_searches. split.
  - intros -> Hk Hl Hv Ho Hy.
    destruct (String.eqb_spec api_key ""); [contradiction|]. cbn [andb negb].
    destruct (snd (SshareApp.stock_list_options upper csv service label))
      as [|s0 l]; [contradiction|].
    assert (R : range_of_offset now (sshare_offset period)
                  (Sshare.get_date_range (SshareApp.period_options period) now)).
    { rewrite sshare_resolve, sshare_period_offset.
      apply resolve_with_range; [assumption | | assumption].
      destruct period; cbn in *; lia. }
    destruct (range_of_offset_ok _ _ _ R) as (s & e & E & R').
    exists s, e. rewrite E. repeat split; assumption.
  - intros [-> | [-> | H]]; [reflexivity | rewrite andb_false_r; reflexivity|].
    rewrite H. destruct (_ && _); reflexivity.
Qed.

Lemma X16_sshare_page_search_witness :
  valid d20240315 /\ sshare_offset SshareApp.OneMonth < toordinal d20240315
  /\ 1000 <= start_year d20240315 (sshare_offset SshareApp.OneMonth)
  /\ searches (fst (SshareApp.app ascii_upper (Done [ "TCS"; "INFY" ])
                      (Thrown "offline") d20240315 no_articles parse_or_fail
                      "k" SshareApp.FnO SshareApp.OneMonth true))
     = [ request_of "k" 50 [ "TCS"; "INFY" ] "2024-02-14" "2024-03-15" ].
Proof.
  assert (Hv : valid d20240315)
    by (repeat split; vm_compute; (reflexivity || discriminate)).
  assert (Ho : sshare_offset SshareApp.OneMonth < toordinal d20240315)
    by (vm_compute; reflexivity).
  assert (Hy : 1000 <= start_year d20240315 (sshare_offset SshareApp.OneMonth))
    by (vm_compute; discriminate).
  split; [exact Hv|]. split; [exact Ho|]. split; [exact Hy|].
  destruct (X16_sshare_page_search ascii_upper (Done [ "TCS"; "INFY" ])
              (Thrown "offline") d20240315 no_articles
              parse_or_fail "k" SshareApp.FnO SshareApp.OneMonth true)
    as [H _].
  destruct (H eq_refl ltac:(vm_compute; discriminate)
              ltac:(vm_compute; discriminate) Hv Ho Hy) as (s & e & E & _ & S).
  rewrite S. vm_compute in E. injection E as <- <-. reflexivity.
Defined.

(** X17: a failed download of the F&O list halts the page of [hello.py]
    before any search, with the message that the list could not be
    retrieved, while the page of [sshare.py] goes on and searches for its
    five backup symbols. *)
Theorem X17_failed_download (upper : string -> string) (e : string)
    (service : nse_source) (now : datetime) (api : news_api)
    (compound_of : string -> float) (published : string -> attempt string)
    (api_key : string) (hello_period : HelloApp.period_choice)
    (sshare_period : SshareApp.period_choice)
    (Hk : api_key <> "") (Hv : valid now) (Ho : 90 < toordinal now) :
  let hello :=
    HelloApp.app upper (Thrown e) service now api compound_of published
      api_key HelloApp.FnO hello_period true in
  let sshare :=
    SshareApp.app upper (Thrown e) service now api published
      api_key SshareApp.FnO sshare_period true in
  snd hello = Stopped
  /\ searches (fst hello) = []
  /\ (exists tr, fst hello
         = (tr ++ [ Show "st.error" "Could not retrieve stock list. Halting." ])%list)
  /\ map q (searches (fst sshare))
     = [ "(RELIANCE OR TCS OR INFY OR HDFCBANK OR ICICIBANK) AND (stock OR market OR NSE OR BSE)" ]
  /\ snd sshare <> Stopped.
Proof.
  cbv zeta. rewrite hello_app_searches, sshare_app_searches.
  destruct (String.eqb_spec api_key ""); [contradiction|]. cbn [andb negb].
  split; [|split; [|split; [|split]]].
  - unfold HelloApp.app. destruct (String.eqb_spec api_key ""); [contradiction|].
    reflexivity.
  - reflexivity.
  - unfold HelloApp.app. destruct (String.eqb_spec api_key ""); [contradiction|].
    cbn [HelloApp.stock_list_options HelloApp.get_fno_stocks fst snd].
    eexists. rewrite !app_assoc. reflexivity.
  - cbn [SshareApp.stock_list_options SshareApp.get_fno_stocks snd
         SshareApp.BACKUP].
    assert (R : exists s e',
                  Sshare.get_date_range
                    (SshareApp.period_options sshare_period) now = Ok (s, e')).
    { rewrite sshare_resolve, sshare_period_offset.
      destruct (resolve_with_ok "%Y-%m-%d" now (sshare_offset sshare_period) Hv)
        as (st & _ & _ & _ & E); [destruct sshare_period; cbn; lia|].
      eexists _, _. exact E. }
    destruct R as (s & e' & E).
    rewrite E. reflexivity.
  - unfold SshareApp.app. destruct (String.eqb_spec api_key ""); [contradiction|].
    cbn [SshareApp.stock_list_options SshareApp.get_fno_stocks fst snd
         SshareApp.BACKUP].
    destruct (Sshare.get_date_range _ now) as [[from_date to_date]|e'];
      [|discriminate].
    destruct (Sshare.fetch_news_for_stocks _ _ _ _ _) as [news [|a arts]];
      [discriminate|].
    cbn [SshareApp.show_articles].
    destruct (published (publishedAt a)); [|discriminate].
    generalize arts. clear. intros arts.
    assert (G : forall l, snd (SshareApp.show_articles published l) <> Stopped).
    { induction l as [|b l IH]; [discriminate|]. cbn [SshareApp.show_articles].
      destruct (published (publishedAt b)); [|discriminate].
      destruct (SshareApp.show_articles published l). exact IH. }
    specialize (G arts).
    destruct (SshareApp.show_articles published arts). exact G.
Qed.

Lemma X17_failed_download_witness :
  "k" <> "" /\ valid d20240315 /\ 90 < toordinal d20240315
  /\ snd (HelloApp.app ascii_upper (Thrown "HTTP Error 403") (Thrown "offline")
            d20240315 no_articles (fun _ => 0%float) parse_or_fail
            "k" HelloApp.FnO HelloApp.LastWeek true) = Stopped
  /\ map q (searches (fst (SshareApp.app ascii_upper (Thrown "HTTP Error 403")
                             (Thrown "offline") d20240315 no_articles
                             parse_or_fail "k" SshareApp.FnO
                             SshareApp.LastWeek true)))
     = [ "(RELIANCE OR TCS OR INFY OR HDFCBANK OR ICICIBANK) AND (stock OR market OR NSE OR BSE)" ].
Proof.
  assert (Hk : "k" <> "") by (vm_compute; discriminate).
  assert (Hv : valid d20240315)
    by (repeat split; vm_compute; (reflexivity || discriminate)).
  assert (Ho : 90 < toordinal d20240315) by (vm_compute; reflexivity).
  split; [exact Hk|]. split; [exact Hv|]. split; [exact Ho|].
  destruct (X17_failed_download ascii_upper "HTTP Error 403" (Thrown "offline")
              d20240315 no_articles (fun _ => 0%float) parse_or_fail "k"
              HelloApp.LastWeek SshareApp.LastWeek Hk Hv Ho)
    as (H1 & _ & _ & H4 & _).
  split; [exact H1|exact H4].
Defined.

(** ** What the pages show *)

Ltac other_event :=
  split; intros H; cbn in H; discriminate H.

Ltac no_guards :=
  repeat first [ apply Forall_nil
               | apply Forall_cons; [other_event|]
               | apply Forall_app; split
               | assumption ].

Section PageMessages.

Variable upper : string -> string.
Variable csv : fno_source.
Variable service : nse_source.
Variable now : datetime.
Variable api : news_api.
Variable compound_of : string -> float.
Variable published : string -> attempt string.

Lemma hello_show_no_guard l :
  Forall not_a_guard (fst (HelloApp.show_articles compound_of published l)).
Proof.
  induction l as [|a l IH]; [constructor|]. cbn [HelloApp.show_articles].
  destruct (Hello.get_sentiment compound_of (title a)) as [sentiment emoji].
  destruct (published (publishedAt a)); [|cbn [fst]; no_guards].
  destruct (HelloApp.show_articles compound_of published l) as [tr o].
  cbn [fst] in *.
  destruct (_ =? _)%string; destruct (_ =? _)%string; no_guards.
Qed.

Lemma sshare_show_no_guard l :
  Forall not_a_guard (fst (SshareApp.show_articles published l)).
Proof.
  induction l as [|a l IH]; [constructor|]. cbn [SshareApp.show_articles].
  destruct (published (publishedAt a)); [|cbn [fst]; no_guards].
  destruct (SshareApp.show_articles published l) as [tr o].
  cbn [fst] in *.
  destruct (_ =? _)%string; destruct (_ =? _)%string; no_guards.
Qed.

Lemma hello_index_no_guard index_name :
  Forall not_a_guard (fst (HelloApp.get_index_stocks upper service index_name)).
Proof.
  unfold HelloApp.get_index_stocks.
  destruct service as [nse | e]; [|cbn [fst]; no_guards].
  destruct (is_valid_index nse index_name) as [[|] | e];
    [| |cbn [fst]; no_guards].
  - destruct (get_stocks_in_index nse index_name) as [[|x l] | e];
      cbn [fst]; no_guards.
  - destruct (get_index_list nse); cbn [fst]; no_guards.
Qed.

Lemma sshare_index_no_guard index_name :
  Forall not_a_guard (fst (SshareApp.get_index_stocks upper service index_name)).
Proof.
  unfold SshareApp.get_index_stocks.
  destruct service as [nse | e]; [|cbn [fst]; no_guards].
  destruct (is_valid_index nse index_name) as [[|] | e];
    [| |cbn [fst]; no_guards].
  - destruct (get_stocks_in_index nse index_name) as [[|x l] | e];
      cbn [fst]; no_guards.
  - destruct (get_index_list nse); cbn [fst]; no_guards.
Qed.

Lemma hello_options_no_guard c :
  Forall not_a_guard (fst (HelloApp.stock_list_options upper csv service c)).
Proof.
  destruct c; cbn [HelloApp.stock_list_options];
    try apply hello_index_no_guard.
  destruct csv; cbn [HelloApp.get_fno_stocks fst]; no_guards.
Qed.

Lemma sshare_options_no_guard c :
  Forall not_a_guard (fst (SshareApp.stock_list_options upper csv service c)).
Proof.
  destruct c; cbn [SshareApp.stock_list_options];
    try apply sshare_index_no_guard.
  destruct csv; cbn [SshareApp.get_fno_stocks fst]; no_guards.
Qed.

Lemma hello_fetch_no_guard key s0 l from_date to_date :
  key <> "" ->
  Forall not_a_guard
    (fst (Hello.fetch_news_for_stocks api (Some key) (s0 :: l)
            from_date to_date)).
Proof.
  intros Hk. unfold Hello.fetch_news_for_stocks. cbn [Hello.key_given].
  destruct (String.eqb_spec key ""); [contradiction|].
  change (firstn 15 (s0 :: l)) with (s0 :: firstn 14 l). cbv iota beta zeta.
  destruct (api _) as [r | e]; [destruct (_ =? 0)|]; cbn [fst]; no_guards.
Qed.

Lemma sshare_fetch_no_guard key s0 l from_date to_date :
  key <> "" ->
  Forall not_a_guard
    (fst (Sshare.fetch_news_for_stocks api (Some key) (s0 :: l)
            from_date to_date)).
Proof.
  intros Hk. unfold Sshare.fetch_news_for_stocks. cbn [Sshare.key_given].
  destruct (String.eqb_spec key ""); [contradiction|].
  cbv iota beta zeta.
  destruct (api _) as [r | e]; [destruct (_ =? 0)|]; cbn [fst];
    try (destruct (contains _ e); [|destruct (contains _ e)]); no_guards.
Qed.

End PageMessages.

(** X18: the two guards of [fetch_news_for_stocks] never fire under the
    pages of [hello.py] and [sshare.py]: the page checks the key and the
    stock list itself before it calls the fetch, so no run shows the
    message of the fetch for a missing key or the one for an empty stock
    list. *)
Theorem X18_fetch_guards_unreachable (upper : string -> string)
    (csv : fno_source) (service : nse_source) (now : datetime) (api : news_api)
    (compound_of : string -> float) (published : string -> attempt string)
    (api_key : string) (hello_label : HelloApp.stock_choice)
    (hello_period : HelloApp.period_choice)
    (sshare_label : SshareApp.stock_choice)
    (sshare_period : SshareApp.period_choice) (button : bool) :
  Forall not_a_guard
    (fst (HelloApp.app upper csv service now api compound_of published
            api_key hello_label hello_period button))
  /\ Forall not_a_guard
       (fst (SshareApp.app upper csv service now api published
               api_key sshare_label sshare_period button))
  /\ fst (Hello.fetch_news_for_stocks api (Some "") [ "TCS" ] "f" "t")
     = [ MISSING_KEY ]
  /\ fst (Sshare.fetch_news_for_stocks api (Some "k") [] "f" "t")
     = [ NO_STOCK_LIST ].
Proof.
  split; [|split; [|split; reflexivity]].
  - unfold HelloApp.app. destruct button; [|no_guards].
    destruct (String.eqb_spec api_key "") as [-> | Hk]; [no_guards|].
    pose proof (hello_options_no_guard upper csv service hello_label) as G.
    destruct (HelloApp.stock_list_options upper csv service hello_label)
      as [fetching [|s0 l]]; cbn [fst] in G; [cbn [fst]; no_guards|].
    destruct (Hello.get_date_range _ now) as [[from_date to_date]|e];
      [|cbn [fst]; no_guards].
    pose proof (hello_fetch_no_guard api api_key s0 l from_date to_date Hk) as F.
    destruct (Hello.fetch_news_for_stocks api (Some api_key) (s0 :: l)
                from_date to_date) as [news [|a arts]]; cbn [fst] in F;
      [cbn [fst]; no_guards|].
    pose proof (hello_show_no_guard compound_of published (a :: arts)) as S.
    destruct (HelloApp.show_articles compound_of published (a :: arts))
      as [shown o]. cbn [fst] in *. no_guards.
  - unfold SshareApp.app. destruct button; [|no_guards].
    destruct (String.eqb_spec api_key "") as [-> | Hk]; [no_guards|].
    pose proof (sshare_options_no_guard upper csv service sshare_label) as G.
    destruct (SshareApp.stock_list_options upper csv service sshare_label)
      as [fetching [|s0 l]]; cbn [fst] in G; [cbn [fst]; no_guards|].
    destruct (Sshare.get_date_range _ now) as [[from_date to_date]|e];
      [|cbn [fst]; no_guards].
    pose proof (sshare_fetch_no_guard api api_key s0 l from_date to_date Hk) as F.
    destruct (Sshare.fetch_news_for_stocks api (Some api_key) (s0 :: l)
                from_date to_date) as [news [|a arts]]; cbn [fst] in F;
      [cbn [fst]; no_guards|].
    pose proof (sshare_show_no_guard published (a :: arts)) as S.
    destruct (SshareApp.show_articles published (a :: arts))
      as [shown o]. cbn [fst] in *. no_guards.
Qed.

Section Display.

Variable compound_of : string -> float.
Variable published : string -> attempt string.

Lemma shown_on_app channel a b :
  shown_on channel (a +++ b) = (shown_on channel a ++ shown_on channel b)%list.
Proof.
  induction a as [|[c m | r] a IH]; cbn [app shown_on]; [reflexivity | | exact IH].
  destruct (c =? channel)%string; [cbn [app]; rewrite IH|]; auto.
Qed.

(** The two loops end alike, and show one link per article. *)
Lemma show_articles_outcome l :
  let hello := HelloApp.show_articles compound_of published l in
  let sshare := SshareApp.show_articles published l in
  snd hello = snd sshare
  /\ (snd hello = Returned <-> dates_format published l)
  /\ (forall e, snd hello = Crashed (Other e) ->
      exists a, In a l /\ published (publishedAt a) = Thrown e)
  /\ (snd hello = Returned \/ exists e, snd hello = Crashed (Other e))
  /\ (snd hello = Returned ->
      shown_on "st.markdown" (fst hello)
      = map (fun a => "[Read Full Article](" ++ url a ++ ")") l
      /\ shown_on "st.markdown" (fst sshare)
         = map (fun a => "[Read Full Article](" ++ url a ++ ")") l).
Proof.
  cbv zeta. unfold dates_format.
  induction l as [|a l IH].
  - cbn. repeat split; try discriminate; auto.
  - cbn [HelloApp.show_articles SshareApp.show_articles].
    destruct (Hello.get_sentiment compound_of (title a)) as [sentiment emoji].
    destruct (published (publishedAt a)) as [w | e] eqn:P.
    + destruct (HelloApp.show_articles compound_of published l) as [th oh].
      destruct (SshareApp.show_articles published l) as [ts os].
      cbn [fst snd] in *. destruct IH as (I1 & I2 & I3 & I4 & I5).
      split; [exact I1|]. split; [|split; [|split; [exact I4|]]].
      * rewrite I2. split.
        -- intros F. constructor; [exists w; exact P | exact F].
        -- intros F. inversion F. assumption.
      * intros e E. destruct (I3 e E) as (b & Hb & Pb).
        exists b. split; [right; exact Hb | exact Pb].
      * intros R. destruct (I5 R) as [M1 M2].
        rewrite !shown_on_app, M1, M2.
        destruct (description a =? "")%string;
          destruct (urlToImage a =? "")%string; split; reflexivity.
    + cbn [fst snd]. split; [reflexivity|].
      split; [|split; [|split; [right; exists e; reflexivity | discriminate]]].
      * split; [discriminate|].
        intros F. inversion F as [|? ? [w W] ?]. congruence.
      * intros e' E. injection E as <-. exists a. split; [left; reflexivity|exact P].
Qed.

End Display.

(** X19: the loop that displays the articles stops at the first article
    whose date cannot be formatted: it ends normally exactly when every
    date formats, and it then shows one link per article, in order;
    otherwise the run ends with the exception of an article of the list.
    The loops of [hello.py] and [sshare.py] end alike. *)
Theorem X19_display_stops_at_bad_date (compound_of : string -> float)
    (published : string -> attempt string) (l : list article) :
  let hello := HelloApp.show_articles compound_of published l in
  let sshare := SshareApp.show_articles published l in
  snd hello = snd sshare
  /\ (snd hello = Returned <-> dates_format published l)
  /\ (forall e, snd hello = Crashed (Other e) ->
      exists a, In a l /\ published (publishedAt a) = Thrown e)
  /\ (snd hello = Returned \/ exists e, snd hello = Crashed (Other e))
  /\ (dates_format published l ->
      shown_on "st.markdown" (fst hello)
      = map (fun a => "[Read Full Article](" ++ url a ++ ")") l
      /\ shown_on "st.markdown" (fst sshare)
         = map (fun a => "[Read Full Article](" ++ url a ++ ")") l).
Proof.
  cbv zeta.
  destruct (show_articles_outcome compound_of published l)
    as (H1 & H2 & H3 & H4 & H5).
  split; [exact H1|]. split; [exact H2|]. split; [exact H3|].
  split; [exact H4|].
  intros F. apply H5. apply H2. exact F.
Qed.

Lemma X19_display_stops_at_bad_date_witness :
  dates_format parse_or_fail (firstn 1 two_articles)
  /\ shown_on "st.markdown"
       (fst (HelloApp.show_articles (fun _ => 0%float) parse_or_fail
               (firstn 1 two_articles)))
     = [ "[Read Full Article](u1)" ]
  /\ snd (HelloApp.show_articles (fun _ => 0%float) parse_or_fail two_articles)
     = Crashed (Other "Unknown datetime string format").
Proof.
  assert (F : dates_format parse_or_fail (firstn 1 two_articles)).
  { vm_compute. repeat constructor. eexists. reflexivity. }
  split; [exact F|].
  destruct (X19_display_stops_at_bad_date (fun _ => 0%float) parse_or_fail
              (firstn 1 two_articles)) as (_ & _ & _ & _ & H).
  split; [exact (proj1 (H F))|]. vm_compute. reflexivity.
Defined.

(** X20: the run of [shharee.py] prints two lines when the clock is more
    than 90 days into the calendar and the date 90 days earlier is in the
    year 1000 or later: the second names the period "last_3_months", the
    ISO date 90 days before the clock, and an end date written with the
    letter m where the month belongs; within the first 90 days of the
    calendar the run ends with the overflow of the resolver after its
    first line. *)
Theorem X20_shharee_run (now : datetime) (Hv : valid now) :
  (90 < toordinal now -> 1000 <= start_year now 90 ->
   exists start y m d,
     ShhareeApp.main now
     = ([ Show "print" "This script now only calculates date ranges.";
          Show "print" ("Date range for 'last_3_months': " ++ start ++ " to "
                        ++ zpad 4 (year now) ++ "-m-" ++ zpad 2 (day now)) ],
        Returned)
     /\ parse_iso_date start = Some (y, m, d)
     /\ valid_date y m d
     /\ _ymd2ord y m d = toordinal now - 90)
  /\ (toordinal now <= 90 ->
     exists e,
       ShhareeApp.main now
       = ([ Show "print" "This script now only calculates date ranges." ],
          Crashed (Overflow e))).
Proof.
  unfold ShhareeApp.main. rewrite shharee_resolve.
  change (offset_4 "last_3_months") with 90.
  split.
  - intros Ho Hy.
    destruct (resolve_with_ok "%Y-m-%d" now 90 Hv ltac:(lia))
      as (st & Vst & Os & Ds & E).
    rewrite E.
    assert (Ys : 1000 <= year st).
    { unfold start_year in Hy. rewrite <- Ds in Hy. exact Hy. }
    pose proof (start_year_le_now now 90 st Hv Vst ltac:(lia) Os) as Yn.
    destruct Vst as [Vs _].
    pose proof (valid_date_fields _ _ _ Vs) as (? & ? & ?).
    exists (strftime st "%Y-%m-%d"), (year st), (month st), (day st).
    split.
    + unfold strftime at 2.
      cbn -[Z.div Z.modulo digit Z.mul Z.add year_digits zpad strftime append].
      rewrite year_digits_4 by lia. reflexivity.
    + split; [apply parse_strftime_iso; (assumption || lia)|].
      split; [exact Vs|exact Os].
  - intros Ho. eexists.
    rewrite resolve_with_overflow by assumption. reflexivity.
Qed.

Lemma X20_shharee_run_witness :
  valid d20240315 /\ 90 < toordinal d20240315
  /\ 1000 <= start_year d20240315 90
  /\ exists start y m d,
       ShhareeApp.main d20240315
       = ([ Show "print" "This script now only calculates date ranges.";
            Show "print" ("Date range for 'last_3_months': " ++ start
                          ++ " to 2024-m-15") ],
          Returned)
       /\ parse_iso_date start = Some (y, m, d)
       /\ valid_date y m d
       /\ _ymd2ord y m d = toordinal d20240315 - 90.
Proof.
  assert (Hv : valid d20240315)
    by (repeat split; vm_compute; (reflexivity || discriminate)).
  assert (Ho : 90 < toordinal d20240315) by (vm_compute; reflexivity).
  assert (Hy : 1000 <= start_year d20240315 90) by (vm_compute; discriminate).
  split; [exact Hv|]. split; [exact Ho|]. split; [exact Hy|].
  exact (proj1 (X20_shharee_run d20240315 Hv) Ho Hy).
Defined.

Section PageOutcome.

Variable compound_of : string -> float.
Variable published : string -> attempt string.

Lemma hello_show_not_stopped l :
  snd (HelloApp.show_articles compound_of published l) <> Stopped.
Proof.
  destruct (show_articles_outcome compound_of published l)
    as (_ & _ & _ & [R | [e R]] & _); rewrite R; discriminate.
Qed.

Lemma sshare_show_not_stopped l :
  snd (SshareApp.show_articles published l) <> Stopped.
Proof.
  destruct (show_articles_outcome compound_of published l)
    as (E & _ & _ & [R | [e R]] & _); rewrite <- E, R; discriminate.
Qed.

End PageOutcome.

(** X21: the pages halt through [st.stop()] exactly when the button is
    pressed and either the key box is empty or the chosen stock list came
    back empty; in every other run the script runs to its end or ends
    with an exception. *)
Theorem X21_page_stops_iff (upper : string -> string) (csv : fno_source)
    (service : nse_source) (now : datetime) (api : news_api)
    (compound_of : string -> float) (published : string -> attempt string)
    (api_key : string) (hello_label : HelloApp.stock_choice)
    (hello_period : HelloApp.period_choice)
    (sshare_label : SshareApp.stock_choice)
    (sshare_period : SshareApp.period_choice) (button : bool) :
  (snd (HelloApp.app upper csv service now api compound_of published
          api_key hello_label hello_period button) = Stopped
   <-> button = true
       /\ (api_key = ""
           \/ snd (HelloApp.stock_list_options upper csv service hello_label)
              = []))
  /\ (snd (SshareApp.app upper csv service now api published
             api_key sshare_label sshare_period button) = Stopped
      <-> button = true
          /\ (api_key = ""
              \/ snd (SshareApp.stock_list_options upper csv service
                         sshare_label) = [])).
Proof.
  split.
  - unfold HelloApp.app. destruct button;
      [|split; [discriminate | intros [H _]; discriminate H]].
    destruct (String.eqb_spec api_key "") as [-> | Hk];
      [split; [intros _; split; [reflexivity | left; reflexivity]
              | reflexivity]|].
    destruct (HelloApp.stock_list_options upper csv service hello_label)
      as [fetching [|s0 l]]; cbn [snd].
    { split; [intros _; split; [reflexivity | right; reflexivity]
             | reflexivity]. }
    assert (No : ~ (true = true /\ (api_key = "" \/ s0 :: l = []))).
    { intros [_ [H | H]]; [contradiction | discriminate H]. }
    destruct (Hello.get_date_range _ now) as [[from_date to_date]|e];
      [|split; [discriminate | intros H; contradiction (No H)]].
    destruct (Hello.fetch_news_for_stocks _ _ _ _ _) as [news [|a arts]];
      [split; [discriminate | intros H; contradiction (No H)]|].
    pose proof (hello_show_not_stopped compound_of published (a :: arts)) as S.
    destruct (HelloApp.show_articles compound_of published (a :: arts))
      as [shown o]. cbn [snd] in *.
    split; [intros H; contradiction (S H) | intros H; contradiction (No H)].
  - unfold SshareApp.app. destruct button;
      [|split; [discriminate | intros [H _]; discriminate H]].
    destruct (String.eqb_spec api_key "") as [-> | Hk];
      [split; [intros _; split; [reflexivity | left; reflexivity]
              | reflexivity]|].
    destruct (SshareApp.stock_list_options upper csv service sshare_label)
      as [fetching [|s0 l]]; cbn [snd].
    { split; [intros _; split; [reflexivity | right; reflexivity]
             | reflexivity]. }
    assert (No : ~ (true = true /\ (api_key = "" \/ s0 :: l = []))).
    { intros [_ [H | H]]; [contradiction | discriminate H]. }
    destruct (Sshare.get_date_range _ now) as [[from_date to_date]|e];
      [|split; [discriminate | intros H; contradiction (No H)]].
    destruct (Sshare.fetch_news_for_stocks _ _ _ _ _) as [news [|a arts]];
      [split; [discriminate | intros H; contradiction (No H)]|].
    pose proof (sshare_show_not_stopped compound_of published (a :: arts)) as S.
    destruct (SshareApp.show_articles published (a :: arts))
      as [shown o]. cbn [snd] in *.
    split; [intros H; contradiction (S H) | intros H; contradiction (No H)].
Qed.
